(** * Data collection layer of painel_previsoes_macro

    A shallow embedding of [02-funcoes.py] (resilient CSV reader, source
    adapters, date-range splitter) and of the collection script
    [03-coleta.py], together with the properties stated about them.

    Python values are modelled as follows:
    - [int] is [Z]; [str] is [string];
    - [datetime] is a record of year, month and day (the only format used,
      ["%d/%m/%Y"], leaves the time of day at midnight);
    - a raised exception is the [Raise] constructor of [result];
    - calls that reach the outside world ([pd.read_csv], [pd.read_json],
      [pd.read_excel], [print], [time.sleep]) thread an explicit [World]. *)

From Stdlib Require Import ZArith Lia List Bool Ascii String.
From stdpp Require Import base list strings gmap.

Local Open Scope Z_scope.

Set Default Proof Using "Type".

(* ================================================================== *)
(** ** Exceptions and results *)

(** The exception classes that occur.  [KeyboardInterrupt] and [SystemExit]
    derive from [BaseException] only; every other class derives from
    [Exception].  [Exception msg] is [raise Exception(msg)]. *)
Inductive exn : Type :=
  | ValueError
  | OverflowError
  | KeyError
  | AttributeError
  | OSError
  | KeyboardInterrupt
  | SystemExit
  | Exception (msg : string).

Definition is_Exception (e : exn) : bool :=
  match e with
  | KeyboardInterrupt | SystemExit => false
  | _ => true
  end.

(** The outcome of running a piece of code: it returns, or it raises, or
    the iterations granted to a [while] loop ran out before the loop was
    left ([OutOfFuel]; the properties below show that this does not occur). *)
Inductive result (A : Type) : Type :=
  | Ok (a : A)
  | Raise (e : exn)
  | OutOfFuel.
Arguments Ok {A} a.
Arguments Raise {A} e.
Arguments OutOfFuel {A}.

Definition rbind {A B} (r : result A) (f : A -> result B) : result B :=
  match r with
  | Ok a => f a
  | Raise e => Raise e
  | OutOfFuel => OutOfFuel
  end.

Definition rmap {A B} (f : A -> B) (r : result A) : result B :=
  rbind r (fun a => Ok (f a)).

(* ================================================================== *)
(** ** Python's proleptic Gregorian calendar ([datetime]) *)

Definition MINYEAR : Z := 1.
Definition MAXYEAR : Z := 9999.
Definition MAXORDINAL : Z := 3652059.

Definition is_leap (y : Z) : bool :=
  (y mod 4 =? 0) && (negb (y mod 100 =? 0) || (y mod 400 =? 0)).

Definition DAYS_IN_MONTH (m : Z) : Z :=
  match m with
  | 1 => 31 | 2 => 28 | 3 => 31 | 4 => 30 | 5 => 31 | 6 => 30
  | 7 => 31 | 8 => 31 | 9 => 30 | 10 => 31 | 11 => 30 | 12 => 31
  | _ => -1
  end.

Definition DAYS_BEFORE_MONTH (m : Z) : Z :=
  match m with
  | 1 => 0 | 2 => 31 | 3 => 59 | 4 => 90 | 5 => 120 | 6 => 151
  | 7 => 181 | 8 => 212 | 9 => 243 | 10 => 273 | 11 => 304 | 12 => 334
  | _ => -1
  end.

Definition days_before_year (y : Z) : Z :=
  let y := y - 1 in y * 365 + y / 4 - y / 100 + y / 400.

Definition days_in_month (y m : Z) : Z :=
  if (m =? 2) && is_leap y then 29 else DAYS_IN_MONTH m.

Definition days_before_month (y m : Z) : Z :=
  DAYS_BEFORE_MONTH m + (if (2 <? m) && is_leap y then 1 else 0).

Definition ymd2ord (y m d : Z) : Z :=
  days_before_year y + days_before_month y m + d.

Definition DI400Y : Z := 146097.
Definition DI100Y : Z := 36524.
Definition DI4Y : Z := 1461.

Record datetime : Type := mkdatetime { year : Z; month : Z; day : Z }.

Definition ord2ymd (n : Z) : datetime :=
  let n := n - 1 in
  let n400 := n / DI400Y in
  let n := n mod DI400Y in
  let y := n400 * 400 + 1 in
  let n100 := n / DI100Y in
  let n := n mod DI100Y in
  let n4 := n / DI4Y in
  let n := n mod DI4Y in
  let n1 := n / 365 in
  let n := n mod 365 in
  let y := y + (n100 * 100 + n4 * 4 + n1) in
  if (n1 =? 4) || (n100 =? 4) then mkdatetime (y - 1) 12 31
  else
    let leapyear := (n1 =? 3) && (negb (n4 =? 24) || (n100 =? 3)) in
    let m := Z.shiftr (n + 50) 5 in
    let preceding := DAYS_BEFORE_MONTH m + (if (2 <? m) && leapyear then 1 else 0) in
    if n <? preceding then
      let m := m - 1 in
      let preceding :=
        preceding - (DAYS_IN_MONTH m + (if (m =? 2) && leapyear then 1 else 0)) in
      mkdatetime y m (n - preceding + 1)
    else mkdatetime y m (n - preceding + 1).

(** [_check_date_fields]: the test every [datetime] constructor performs. *)
Definition check_date_fields (y m d : Z) : bool :=
  (MINYEAR <=? y) && (y <=? MAXYEAR) &&
  (1 <=? m) && (m <=? 12) &&
  (1 <=? d) && (d <=? days_in_month y m).

Definition valid (t : datetime) : bool :=
  check_date_fields (year t) (month t) (day t).

Definition toordinal (t : datetime) : Z := ymd2ord (year t) (month t) (day t).

(** Comparison of two [datetime] values: the tuples of fields, in order. *)
Definition dt_ltb (a b : datetime) : bool :=
  (year a <? year b)
  || ((year a =? year b)
      && ((month a <? month b)
          || ((month a =? month b) && (day a <? day b)))).

(** [t.replace(year=y)] *)
Definition replace_year (t : datetime) (y : Z) : result datetime :=
  if check_date_fields y (month t) (day t)
  then Ok (mkdatetime y (month t) (day t))
  else Raise ValueError.

(** [timedelta(days=n)]: the magnitude is limited to 999999999 days. *)
Definition timedelta_days (n : Z) : result Z :=
  if Z.abs n <=? 999999999 then Ok n else Raise OverflowError.

(** [t + delta], with [delta] a number of days. *)
Definition dt_add (t : datetime) (delta : Z) : result datetime :=
  let o := toordinal t + delta in
  if (0 <? o) && (o <=? MAXORDINAL) then Ok (ord2ymd o)
  else Raise OverflowError.

(* ------------------------------------------------------------------ *)
(** *** [strftime] and [strptime] for the format ["%d/%m/%Y"] *)

Definition digit_char (n : Z) : ascii := ascii_of_nat (Z.to_nat (48 + n)).

Definition is_digit (c : ascii) : bool :=
  let n := Z.of_nat (nat_of_ascii c) in (48 <=? n) && (n <=? 57).

Definition digit_val (c : ascii) : Z := Z.of_nat (nat_of_ascii c) - 48.

Definition in_range (c : ascii) (lo hi : Z) : bool :=
  is_digit c && (lo <=? digit_val c) && (digit_val c <=? hi).

(** [%d] and [%m] print two digits, [%Y] four, all zero padded.  (A C
    library that prints the years before 1000 without leading zeros is not
    modelled.) *)
Definition fmt2 (n : Z) : string :=
  String (digit_char (n / 10)) (String (digit_char (n mod 10)) EmptyString).

Definition fmt4 (n : Z) : string :=
  String (digit_char (n / 1000))
    (String (digit_char (n / 100 mod 10))
       (String (digit_char (n / 10 mod 10))
          (String (digit_char (n mod 10)) EmptyString))).

Definition slash : ascii := ascii_of_nat 47.
Definition space : ascii := ascii_of_nat 32.

(** [t.strftime("%d/%m/%Y")], as the library documents it: the year takes
    four digits.  From the year 1000 on every platform prints it so; for an
    earlier year some C libraries leave the zeros out, and that text is not
    one [strptime] reads back.  The properties below that read a printed date
    again are stated from the year 1000 on. *)
Definition strftime (t : datetime) : string :=
  fmt2 (day t) +:+ String slash (fmt2 (month t) +:+ String slash (fmt4 (year t))).

(** The directives are matched by the regular expressions of [_strptime];
    each function lists the ways its directive can match a prefix, in the
    order in which the regular expression tries its alternatives. *)

(** [%d]: [3[0-1]|[1-2]\d|0[1-9]|[1-9]| [1-9]] *)
Definition match_d (s : string) : list (Z * string) :=
  match s with
  | String c1 r1 =>
      (match r1 with
       | String c2 r2 =>
           (if Ascii.eqb c1 (digit_char 3) && in_range c2 0 1
            then [(30 + digit_val c2, r2)] else [])
           ++ (if in_range c1 1 2 && is_digit c2
               then [(10 * digit_val c1 + digit_val c2, r2)] else [])
           ++ (if Ascii.eqb c1 (digit_char 0) && in_range c2 1 9
               then [(digit_val c2, r2)] else [])
       | EmptyString => []
       end)
      ++ (if in_range c1 1 9 then [(digit_val c1, r1)] else [])
      ++ (match r1 with
          | String c2 r2 =>
              if Ascii.eqb c1 space && in_range c2 1 9
              then [(digit_val c2, r2)] else []
          | EmptyString => []
          end)
  | EmptyString => []
  end.

(** [%m]: [1[0-2]|0[1-9]|[1-9]] *)
Definition match_m (s : string) : list (Z * string) :=
  match s with
  | String c1 r1 =>
      (match r1 with
       | String c2 r2 =>
           (if Ascii.eqb c1 (digit_char 1) && in_range c2 0 2
            then [(10 + digit_val c2, r2)] else [])
           ++ (if Ascii.eqb c1 (digit_char 0) && in_range c2 1 9
               then [(digit_val c2, r2)] else [])
       | EmptyString => []
       end)
      ++ (if in_range c1 1 9 then [(digit_val c1, r1)] else [])
  | EmptyString => []
  end.

(** [%Y]: four digits *)
Definition match_Y (s : string) : list (Z * string) :=
  match s with
  | String c1 (String c2 (String c3 (String c4 r))) =>
      if is_digit c1 && is_digit c2 && is_digit c3 && is_digit c4
      then [(1000 * digit_val c1 + 100 * digit_val c2
             + 10 * digit_val c3 + digit_val c4, r)]
      else []
  | _ => []
  end.

Definition match_lit (c : ascii) (s : string) : list string :=
  match s with
  | String c' r => if Ascii.eqb c c' then [r] else []
  | EmptyString => []
  end.

(** All the ways ["%d/%m/%Y"] matches a prefix of [s]; the matcher takes the
    first. *)
Definition match_dmY (s : string) : list (Z * Z * Z * string) :=
  '(d, r) ← match_d s;
  r ← match_lit slash r;
  '(m, r) ← match_m r;
  r ← match_lit slash r;
  '(y, r) ← match_Y r;
  [(d, m, y, r)].

(** [datetime.strptime(s, "%d/%m/%Y")]: no match, unconverted data after
    the match and an impossible date all raise [ValueError]. *)
Definition strptime (s : string) : result datetime :=
  match match_dmY s with
  | (d, m, y, EmptyString) :: _ =>
      if check_date_fields y m d then Ok (mkdatetime y m d) else Raise ValueError
  | _ => Raise ValueError
  end.

(* ================================================================== *)
(** ** [split_date_range] *)

(** The [while] loop, run for at most [fuel] iterations. *)
Fixpoint split_loop (fuel : nat) (interval_years : Z) (end_date : datetime)
    (current_start : datetime) (result_ : list (string * string))
    : result (list (string * string)) :=
  if dt_ltb current_start end_date then
    match fuel with
    | O => OutOfFuel
    | S fuel' =>
        let candidate :=
          match replace_year current_start (year current_start + interval_years) with
          | Ok t => Ok t
          | Raise ValueError =>
              rbind (timedelta_days (365 * interval_years)) (dt_add current_start)
          | r => r
          end in
        match candidate with
        | Ok current_end =>
            let current_end :=
              if dt_ltb end_date current_end then end_date else current_end in
            split_loop fuel' interval_years end_date current_end
              (result_ ++ [(strftime current_start, strftime current_end)])
        | Raise e => Raise e
        | OutOfFuel => OutOfFuel
        end
    end
  else Ok result_.

(** One iteration is granted per day between the two dates, which is
    shown below to suffice whenever [interval_years] is positive. *)
Definition split_fuel (start_date end_date : datetime) : nat :=
  Z.to_nat (toordinal end_date - toordinal start_date).

Definition split_date_range (start_date_str end_date_str : string)
    (interval_years : Z) : result (list (string * string)) :=
  rbind (strptime start_date_str) (fun start_date =>
  rbind (strptime end_date_str) (fun end_date =>
  split_loop (split_fuel start_date end_date) interval_years
    end_date start_date [])).

(* ================================================================== *)
(** ** Tables ([pandas.DataFrame]) *)

(** Floating-point numbers are left abstract: the code only carries them.
    [float_of_string] is how [pandas] reads a float from text and
    [float_of_Z] how it converts an integer. *)
Record float_ops (float : Type) : Type := mkFloatOps {
  float_of_string : string -> option float;
  float_of_Z : Z -> float
}.
Arguments float_of_string {float} _ _.
Arguments float_of_Z {float} _ _.

Section Collection.

(** [float] stands for the floating-point numbers, [object] for the Python
    objects other than strings, numbers and dates. *)
Context {float : Type} {object : Type}.
Variable fops : float_ops float.

(** The content of one cell.  [CNaN] is the missing value; [CObject] is
    anything else a reader may leave in a cell (a JSON object, say). *)
Inductive cell : Type :=
  | CStr (s : string)
  | CInt (z : Z)
  | CFloat (f : float)
  | CDate (t : datetime)
  | CNaN
  | CObject (o : object).

(** A table, row by row: every row has one cell per column label, and
    [index] holds the label of each row. *)
Record DataFrame : Type := mkDataFrame {
  columns : list string;
  index : list cell;
  rows : list (list cell)
}.

(** The operations of [pandas] that the adapters use.  Column labels are
    looked up by their first occurrence; the tables met here carry each label
    once. *)

(** Position of the first column labelled [name]. *)
Fixpoint col_pos (name : string) (cols : list string) : option nat :=
  match cols with
  | [] => None
  | c :: cols' =>
      if String.eqb c name then Some O else option_map S (col_pos name cols')
  end.

Definition cell_at (i : nat) (row : list cell) : cell := nth i row CNaN.

(** [df.rename(columns = mapper)]: labels absent from [mapper] stay. *)
Definition rename (mapper : gmap string string) (df : DataFrame) : DataFrame :=
  mkDataFrame (map (fun c => default c (mapper !! c)) (columns df))
    (index df) (rows df).

(** [df.filter(items)]: the columns named in [items] that exist, in the
    order of [items]. *)
Definition filter_items (items : list string) (df : DataFrame) : DataFrame :=
  let keep := List.filter (fun c => bool_decide (is_Some (col_pos c (columns df)))) items in
  mkDataFrame keep (index df)
    (map (fun row =>
            map (fun c => match col_pos c (columns df) with
                          | Some i => cell_at i row
                          | None => CNaN
                          end) keep)
       (rows df)).

(** [df[name]]: the cells of one column. *)
Definition getitem (name : string) (df : DataFrame) : result (list cell) :=
  match col_pos name (columns df) with
  | Some i => Ok (map (cell_at i) (rows df))
  | None => Raise KeyError
  end.

(** [df.name], attribute access to a column. *)
Definition getattr (name : string) (df : DataFrame) : result (list cell) :=
  match col_pos name (columns df) with
  | Some i => Ok (map (cell_at i) (rows df))
  | None => Raise AttributeError
  end.

(** [col.isin(values)] for a list of strings. *)
Definition isin (values : list string) (col : list cell) : list bool :=
  map (fun c => match c with
                | CStr s => bool_decide (s ∈ values)
                | _ => false
                end) col.

(** [-mask] on a column of booleans is its negation. *)
Definition neg (mask : list bool) : list bool := map negb mask.

Fixpoint select {A : Type} (mask : list bool) (xs : list A) : list A :=
  match mask, xs with
  | b :: mask', x :: xs' => if b then x :: select mask' xs' else select mask' xs'
  | _, _ => []
  end.

(** [df[mask]]: the rows at which [mask] holds, with their labels. *)
Definition getitem_mask (mask : list bool) (df : DataFrame) : DataFrame :=
  mkDataFrame (columns df) (select mask (index df)) (select mask (rows df)).

(** [df[name] = col], for a column [col] with one cell per row of [df]. *)
Definition setitem (name : string) (col : list cell) (df : DataFrame) : DataFrame :=
  match col_pos name (columns df) with
  | Some i =>
      mkDataFrame (columns df) (index df)
        (zip_with (fun row c => <[i := c]> row) (rows df) col)
  | None =>
      mkDataFrame (columns df ++ [name]) (index df)
        (zip_with (fun row c => row ++ [c]) (rows df) col)
  end.

(** [df.set_index(name)]: the column becomes the row labels. *)
Definition set_index (name : string) (df : DataFrame) : result DataFrame :=
  match col_pos name (columns df) with
  | Some i =>
      Ok (mkDataFrame (delete i (columns df)) (map (cell_at i) (rows df))
            (map (delete i) (rows df)))
  | None => Raise KeyError
  end.

Fixpoint rmapM {A B : Type} (f : A -> result B) (xs : list A) : result (list B) :=
  match xs with
  | [] => Ok []
  | x :: xs' => rbind (f x) (fun y => rmap (cons y) (rmapM f xs'))
  end.

(** [pd.to_datetime(col, format = "%d/%m/%Y")], with [strptime] standing
    for the parser of [pandas] and without the limits of its timestamps.  A
    number is read through its text, which holds no [/] and so never fits
    the format. *)
Definition to_datetime_cell (c : cell) : result cell :=
  match c with
  | CStr s => rmap CDate (strptime s)
  | CDate t => Ok (CDate t)
  | CNaN => Ok CNaN
  | _ => Raise ValueError
  end.

Definition to_datetime (col : list cell) : result (list cell) :=
  rmapM to_datetime_cell col.

(** Integer literals: an optional sign and decimal digits, within the range
    of a 64-bit integer.  No other spelling is read as an integer here. *)
Fixpoint digits_value (s : string) (acc : Z) : option Z :=
  match s with
  | EmptyString => Some acc
  | String c r =>
      if is_digit c then digits_value r (10 * acc + digit_val c) else None
  end.

Definition parse_digits (s : string) : option Z :=
  match s with
  | EmptyString => None
  | _ => digits_value s 0
  end.

Definition parse_int (s : string) : option Z :=
  let z :=
    match s with
    | String c r =>
        if Ascii.eqb c (ascii_of_nat 45) then Z.opp <$> parse_digits r
        else if Ascii.eqb c (ascii_of_nat 43) then parse_digits r
        else parse_digits s
    | EmptyString => None
    end in
  z ≫= (fun z => if (- 2 ^ 63 <=? z) && (z <? 2 ^ 63) then Some z else None).

Definition int_of_cell (c : cell) : option Z :=
  match c with
  | CInt z => Some z
  | CStr s => parse_int s
  | _ => None
  end.

Definition float_of_cell (c : cell) : option cell :=
  match c with
  | CInt z => Some (CFloat (float_of_Z fops z))
  | CFloat f => Some (CFloat f)
  | CNaN => Some CNaN
  | CStr s => CFloat <$> float_of_string fops s
  | _ => None
  end.

(** [pd.to_numeric(col)]: a column of integers when every cell reads as
    one, else a column of floats when every cell reads as one, else
    [ValueError].  Dates and other objects do not read as numbers here. *)
Definition to_numeric (col : list cell) : result (list cell) :=
  match mapM int_of_cell col with
  | Some zs => Ok (map CInt zs)
  | None =>
      match mapM float_of_cell col with
      | Some fs => Ok fs
      | None => Raise ValueError
      end
  end.

(** The labels of [cs] not yet in [acc], appended in order. *)
Fixpoint union_cols (acc cs : list string) : list string :=
  match cs with
  | [] => acc
  | c :: cs' =>
      if bool_decide (c ∈ acc) then union_cols acc cs'
      else union_cols (acc ++ [c]) cs'
  end.

(** [df.reindex(columns = cols)]: absent columns are filled with NaN. *)
Definition reindex_columns (cols : list string) (df : DataFrame) : list (list cell) :=
  map (fun row =>
         map (fun c => match col_pos c (columns df) with
                       | Some i => cell_at i row
                       | None => CNaN
                       end) cols)
    (rows df).

(** [pd.concat(objs)]: [None] entries are dropped; with nothing to
    concatenate it raises [ValueError].  Rows and their labels are put one
    table after the other, nothing is removed. *)
Definition concat (objs : list (option DataFrame)) : result DataFrame :=
  match omap id objs with
  | [] => Raise ValueError
  | frames =>
      let cols := foldl (fun acc df => union_cols acc (columns df)) [] frames in
      Ok (mkDataFrame cols
            (mjoin (map index frames))
            (mjoin (map (reindex_columns cols) frames)))
  end.

(** [obj.rename(columns = mapper)] on what may be [None]. *)
Definition rename_method (mapper : gmap string string) (obj : option DataFrame)
    : result DataFrame :=
  match obj with
  | Some df => Ok (rename mapper df)
  | None => Raise AttributeError
  end.

(** [pd.DataFrame.from_records], not modelled further. *)
Variable from_records : list cell -> result DataFrame.

(* ================================================================== *)
(** ** The outside world *)

(** The calls that leave the program. *)
Inductive request : Type :=
  | ReadCsv (filepath_or_buffer sep decimal : string) (converters : list string)
  | ReadJson (url : string)
  | ReadExcel (io sheet_name : string) (names : list string) (skiprows : Z).

(** What such a call does: it returns a table or it raises. *)
Inductive response : Type :=
  | Returns (df : DataFrame)
  | Raises (e : exn).

(** What [print] is given: the values that make up the printed line. *)
Inductive line : Type :=
  | Tentativa_falhou (tentativas : Z) (e : exn)
  | Falha_apos (max_tentativas : Z)
  | Coletando (codigo nome : string).

(** The trace of a run: the reads made, the lines printed and the seconds
    slept, each in order of occurrence. *)
Record World : Type := mkWorld {
  reads : list request;
  stdout : list line;
  slept : Z
}.

(** The behaviour of the sources: the answer to the [n]-th read of the run
    (counting from zero), given what is asked. *)
Variable oracle : nat -> request -> response.

Definition M (A : Type) : Type := World -> result A * World.

Definition ret {A} (a : A) : M A := fun w => (Ok a, w).

Definition bind {A B} (c : M A) (f : A -> M B) : M B :=
  fun w =>
    match c w with
    | (Ok a, w') => f a w'
    | (Raise e, w') => (Raise e, w')
    | (OutOfFuel, w') => (OutOfFuel, w')
    end.

Definition lift {A} (r : result A) : M A := fun w => (r, w).

Definition raise {A} (e : exn) : M A := lift (Raise e).

Notation "x <- c1 ;; c2" := (bind c1 (fun x => c2))
  (at level 100, c1 at next level, right associativity).
Notation "c1 ;; c2" := (bind c1 (fun _ => c2))
  (at level 100, right associativity).

Definition read (r : request) : M DataFrame :=
  fun w =>
    let w' := mkWorld (reads w ++ [r]) (stdout w) (slept w) in
    match oracle (length (reads w)) r with
    | Returns df => (Ok df, w')
    | Raises e => (Raise e, w')
    end.

Definition print (l : line) : M unit :=
  fun w => (Ok tt, mkWorld (reads w) (stdout w ++ [l]) (slept w)).

Definition sleep (seconds : Z) : M unit :=
  fun w => (Ok tt, mkWorld (reads w) (stdout w) (slept w + seconds)).

(** [try: body / except <classes> as e: handler] *)
Definition try_except {A} (body : M A) (classes : exn -> bool)
    (handler : exn -> M A) : M A :=
  fun w =>
    match body w with
    | (Raise e, w') => if classes e then handler e w' else (Raise e, w')
    | r => r
    end.

(** [try: body / except: handler / else: orelse], where the bare [except]
    catches every exception and [orelse] runs outside its protection. *)
Definition try_except_else {A B} (body : M A) (handler : M B)
    (orelse : A -> M B) : M B :=
  fun w =>
    match body w with
    | (Ok a, w') => orelse a w'
    | (Raise _, w') => handler w'
    | (OutOfFuel, w') => (OutOfFuel, w')
    end.

(** [for x in xs: ys.append(f(x))] *)
Fixpoint for_append {A B} (f : A -> M B) (xs : list A) (ys : list B) : M (list B) :=
  match xs with
  | [] => ret ys
  | x :: xs' => y <- f x ;; for_append f xs' (ys ++ [y])
  end.

(* ================================================================== *)
(** ** [ler_csv] *)

(** The [while] loop of [ler_csv], run for at most [fuel] iterations.  An
    iteration either leaves the function with the table read ([Some]) or
    counts one more failed attempt. *)
Fixpoint ler_csv_loop (fuel : nat) (args : request) (max_tentativas intervalo : Z)
    (tentativas : Z) : M (option DataFrame) :=
  if tentativas <? max_tentativas then
    match fuel with
    | O => lift OutOfFuel
    | S fuel' =>
        step <- try_except
                  (df <- read args ;; ret (Some df))
                  is_Exception
                  (fun e =>
                     let tentativas := tentativas + 1 in
                     print (Tentativa_falhou tentativas e) ;;
                     sleep intervalo ;;
                     ret None) ;;
        match step with
        | Some df => ret (Some df)
        | None => ler_csv_loop fuel' args max_tentativas intervalo (tentativas + 1)
        end
    end
  else
    print (Falha_apos max_tentativas) ;;
    ret None.

(** [ler_csv]: [args] stands for the arguments handed on to [pd.read_csv];
    the [None] returned is Python's [None]. *)
Definition ler_csv (args : request) : M (option DataFrame) :=
  let max_tentativas := 5 in
  let intervalo := 2 in
  let tentativas := 0 in
  ler_csv_loop (Z.to_nat max_tentativas) args max_tentativas intervalo tentativas.

(* ================================================================== *)
(** ** The source adapters *)

(** The error every adapter raises from its [except] branch. *)
Definition falha (codigo nome : string) : exn :=
  Exception ("Falha na coleta da série " +:+ codigo +:+ " (" +:+ nome +:+ ")").

Definition sgs_url (codigo data_inicial data_final : string) : string :=
  "https://api.bcb.gov.br/dados/serie/bcdata.sgs." +:+ codigo
  +:+ "/dados?formato=csv&dataInicial=" +:+ data_inicial
  +:+ "&dataFinal=" +:+ data_final.

Definition sgs_request (codigo : string) (d : string * string) : request :=
  ReadCsv (sgs_url codigo (fst d) (snd d)) ";" "," [].

(** The [else] branch of [coleta_bcb_sgs].  A series named ["data"] would
    leave the renamed table with that label twice, which the operations above
    do not model; the properties that evaluate this branch take a name other
    than ["data"]. *)
Definition coleta_bcb_sgs_else (nome : string) (resposta : DataFrame)
    : result DataFrame :=
  let x := rename (<["valor" := nome]> ∅) resposta in
  rbind (getattr "data" x) (fun data =>
  rbind (to_datetime data) (fun data =>
  set_index "data" (setitem "data" data x))).

Definition coleta_bcb_sgs (codigo nome freq data_inicio data_fim : string)
    : M DataFrame :=
  datas_inicio <-
    (if String.eqb freq "Diária"
     then lift (split_date_range data_inicio data_fim 5)
     else ret [(data_inicio, data_fim)]) ;;
  try_except_else
    (print (Coletando codigo nome) ;;
     resposta <- for_append (fun d => ler_csv (sgs_request codigo d)) datas_inicio [] ;;
     lift (concat resposta))
    (raise (falha codigo nome))
    (fun resposta => lift (coleta_bcb_sgs_else nome resposta)).

Definition coleta_bcb_odata (codigo nome : string) : M DataFrame :=
  let url := codigo in
  try_except_else
    (print (Coletando codigo nome) ;;
     ler_csv (ReadCsv url "," "," ["Data"]))
    (raise (falha codigo nome))
    (fun resposta => lift (rename_method (<["Mediana" := nome]> ∅) resposta)).

(** The [else] branch of [coleta_ipeadata]. *)
Definition coleta_ipeadata_else (nome : string) (resposta : DataFrame)
    : result DataFrame :=
  rbind (getitem "value" resposta) (fun value =>
  rbind (from_records value) (fun df =>
  Ok (filter_items ["data"; nome]
        (rename (<["VALDATA" := "data"]> (<["VALVALOR" := nome]> ∅)) df)))).

Definition ipeadata_url (codigo : string) : string :=
  "http://www.ipeadata.gov.br/api/odata4/ValoresSerie(SERCODIGO='"
  +:+ codigo +:+ "')".

Definition coleta_ipeadata (codigo nome : string) : M DataFrame :=
  let url := ipeadata_url codigo in
  try_except_else
    (print (Coletando codigo nome) ;;
     read (ReadJson url))
    (raise (falha codigo nome))
    (fun resposta => lift (coleta_ipeadata_else nome resposta)).

(** The [else] branch of [coleta_ibge_sidra]. *)
Definition coleta_ibge_sidra_else (nome : string) (resposta : DataFrame)
    : result DataFrame :=
  let df :=
    filter_items ["data"; nome]
      (rename (<["V" := nome]> (<["D3C" := "data"]> ∅)) resposta) in
  rbind (getitem nome df) (fun col =>
  let df := getitem_mask (neg (isin ["Valor"; "..."; "-"] col)) df in
  rbind (getitem nome df) (fun col =>
  rbind (to_numeric col) (fun col =>
  Ok (setitem nome col df)))).

Definition coleta_ibge_sidra (codigo nome : string) : M DataFrame :=
  let url := codigo +:+ "?formato=json" in
  try_except_else
    (print (Coletando codigo nome) ;;
     read (ReadJson url))
    (raise (falha codigo nome))
    (fun resposta => lift (coleta_ibge_sidra_else nome resposta)).

Definition fred_url (codigo : string) : string :=
  "https://fred.stlouisfed.org/graph/fredgraph.csv?id=" +:+ codigo.

Definition coleta_fred (codigo nome : string) : M DataFrame :=
  let url := fred_url codigo in
  try_except_else
    (print (Coletando codigo nome) ;;
     ler_csv (ReadCsv url "," "." ["DATE"]))
    (raise (falha codigo nome))
    (fun resposta =>
       lift (rename_method (<[codigo := nome]> (<["DATE" := "data"]> ∅)) resposta)).

Definition coleta_ifi (codigo nome : string) : M DataFrame :=
  try_except_else
    (print (Coletando codigo nome) ;;
     read (ReadExcel codigo "Hiato do Produto" ["data"; "lim_inf"; nome; "lim_sup"] 2))
    (raise (falha codigo nome))
    (fun resposta => ret resposta).

(* ================================================================== *)
(** ** The collection script, [03-coleta.py] *)

(** One row of the metadata sheet; every cell is read as a string. *)
Record serie : Type := mkSerie {
  Fonte : string;
  Forma_de_Coleta : string;
  Input_de_Coleta : string;
  Identificador : string;
  Frequencia : string
}.

(** [df_metadados.query("Fonte == '...' and `Forma de Coleta` == 'API'")] *)
Definition query_api (fonte : string) (df_metadados : list serie) : list serie :=
  List.filter (fun ser => String.eqb (Fonte ser) fonte
                          && String.eqb (Forma_de_Coleta ser) "API") df_metadados.

(** [df_metadados.query("Fonte == 'IFI'")] *)
Definition query_fonte (fonte : string) (df_metadados : list serie) : list serie :=
  List.filter (fun ser => String.eqb (Fonte ser) fonte) df_metadados.

(** [d[key].append(x)] on a dictionary of lists: [KeyError] without the key. *)
Definition dict_append (key : string) (x : DataFrame)
    (d : gmap string (list DataFrame)) : result (gmap string (list DataFrame)) :=
  match d !! key with
  | Some l => Ok (<[key := l ++ [x]]> d)
  | None => Raise KeyError
  end.

(** A collection loop that files each table under the frequency of its row. *)
Fixpoint coleta_por_frequencia (coleta : serie -> M DataFrame) (input : list serie)
    (df_bruto : gmap string (list DataFrame)) : M (gmap string (list DataFrame)) :=
  match input with
  | [] => ret df_bruto
  | ser :: input' =>
      df_temp <- coleta ser ;;
      df_bruto <- lift (dict_append (Frequencia ser) df_temp df_bruto) ;;
      coleta_por_frequencia coleta input' df_bruto
  end.

Definition dict_of_keys (keys : list string) : gmap string (list DataFrame) :=
  foldr (fun k d => <[k := []]> d) ∅ keys.

(** The variables the script leaves behind. *)
Record bruto : Type := mkBruto {
  df_bruto_bcb_sgs : gmap string (list DataFrame);
  df_bruto_bcb_odata : list DataFrame;
  df_bruto_ipeadata : gmap string (list DataFrame);
  df_bruto_ibge_sidra : gmap string (list DataFrame);
  df_bruto_fred : gmap string (list DataFrame);
  df_bruto_ifi : DataFrame
}.

(** The script from the metadata table on.  [data_fim] is the default end
    date of [coleta_bcb_sgs], today plus 36 months. *)
Definition coleta (data_fim : string) (df_metadados : list serie) : M bruto :=
  let input_bcb_sgs := query_api "BCB/SGS" df_metadados in
  bcb_sgs <-
    coleta_por_frequencia
      (fun ser => coleta_bcb_sgs (Input_de_Coleta ser) (Identificador ser)
                    (Frequencia ser) "01/01/2000" data_fim)
      input_bcb_sgs (dict_of_keys ["Diária"; "Mensal"; "Trimestral"; "Anual"]) ;;
  let input_bcb_odata := query_api "BCB/ODATA" df_metadados in
  bcb_odata <-
    for_append (fun ser => coleta_bcb_odata (Input_de_Coleta ser) (Identificador ser))
      input_bcb_odata [] ;;
  let input_ipeadata := query_api "IPEADATA" df_metadados in
  ipeadata <-
    coleta_por_frequencia
      (fun ser => coleta_ipeadata (Input_de_Coleta ser) (Identificador ser))
      input_ipeadata (dict_of_keys ["Diária"; "Mensal"]) ;;
  let input_sidra := query_api "IBGE/SIDRA" df_metadados in
  ibge_sidra <-
    coleta_por_frequencia
      (fun ser => coleta_ibge_sidra (Input_de_Coleta ser) (Identificador ser))
      input_sidra (dict_of_keys ["Mensal"; "Trimestral"]) ;;
  let input_fred := query_api "FRED" df_metadados in
  fred <-
    coleta_por_frequencia
      (fun ser => coleta_fred (Input_de_Coleta ser) (Identificador ser))
      input_fred (dict_of_keys ["Diária"; "Mensal"; "Trimestral"]) ;;
  let input_ifi := query_fonte "IFI" df_metadados in
  match input_ifi with
  | [] => raise KeyError
  | ser :: _ =>
      ifi <- coleta_ifi (Input_de_Coleta ser) (Identificador ser) ;;
      ret (mkBruto bcb_sgs bcb_odata ipeadata ibge_sidra fred ifi)
  end.


(* ================================================================== *)
(** ** Auxiliary definitions, used to state and prove the properties *)

(** The last steps of [ord2ymd]: month and day from the zero-based day of
    the year. *)
Definition month_day (leapyear : bool) (n : Z) : Z * Z :=
  let m := Z.shiftr (n + 50) 5 in
  let preceding := DAYS_BEFORE_MONTH m + (if (2 <? m) && leapyear then 1 else 0) in
  if n <? preceding then
    let m := m - 1 in
    let preceding :=
      preceding - (DAYS_IN_MONTH m + (if (m =? 2) && leapyear then 1 else 0)) in
    (m, n - preceding + 1)
  else (m, n - preceding + 1).

Definition month_day_ok (leapyear : bool) (n : Z) : bool :=
  let '(m, d) := month_day leapyear n in
  (1 <=? m) && (m <=? 12) && (1 <=? d)
  && (d <=? (if (m =? 2) && leapyear then 29 else DAYS_IN_MONTH m))
  && (DAYS_BEFORE_MONTH m + (if (2 <? m) && leapyear then 1 else 0) + d =? n + 1).

Definition window : Type := datetime * datetime.

Definition fmt_window (w : window) : string * string :=
  (strftime (fst w), strftime (snd w)).

(** The end of the window that starts at [current_start], before it is
    clamped: the date [interval_years] later, or the 365-day fallback. *)
Definition candidate (interval_years : Z) (current_start : datetime) : result datetime :=
  match replace_year current_start (year current_start + interval_years) with
  | Ok t => Ok t
  | Raise ValueError =>
      rbind (timedelta_days (365 * interval_years)) (dt_add current_start)
  | r => r
  end.

Definition clamp (end_date current_end : datetime) : datetime :=
  if dt_ltb end_date current_end then end_date else current_end.

(** The loop on dates, producing the windows front to back. *)
Fixpoint windows (fuel : nat) (interval_years : Z) (end_date current_start : datetime)
    : result (list window) :=
  if dt_ltb current_start end_date then
    match fuel with
    | O => OutOfFuel
    | S fuel' =>
        match candidate interval_years current_start with
        | Ok c =>
            rmap (cons (current_start, clamp end_date c))
              (windows fuel' interval_years end_date (clamp end_date c))
        | Raise e => Raise e
        | OutOfFuel => OutOfFuel
        end
    end
  else Ok [].

(** The loop as a relation: [Chain k e cur ws] holds when the loop started
    at [cur] leaves with the windows [ws]. *)
Inductive Chain (k : Z) (e : datetime) : datetime -> list window -> Prop :=
  | Chain_done cur :
      dt_ltb cur e = false -> Chain k e cur []
  | Chain_step cur c ws :
      dt_ltb cur e = true ->
      candidate k cur = Ok c ->
      Chain k e (clamp e c) ws ->
      Chain k e cur ((cur, clamp e c) :: ws).

(** Windows that follow one another: each ends where the next starts. *)
Fixpoint contiguous {A : Type} (ws : list (A * A)) : Prop :=
  match ws with
  | w1 :: ((w2 :: _) as tl) => snd w1 = fst w2 /\ contiguous tl
  | _ => True
  end.

(** What the loop guarantees of each window [(a, b)]: it ends exactly
    [k] calendar years after [a] when that date exists, and exactly [365 * k]
    days after [a] when it does not, unless it is cut at [e] before. *)
Definition window_bound (k : Z) (e : datetime) (w : window) : Prop :=
  valid (fst w) = true /\ valid (snd w) = true /\ dt_ltb (fst w) (snd w) = true
  /\ match replace_year (fst w) (year (fst w) + k) with
     | Ok c => snd w = c \/ (snd w = e /\ dt_ltb e c = true)
     | _ =>
         toordinal (snd w) = toordinal (fst w) + 365 * k
         \/ (snd w = e /\ toordinal e < toordinal (fst w) + 365 * k)
     end.

(** A window as the strings the function returns, read back as dates. *)
Definition str_window_bound (k : Z) (e : datetime) (w : string * string) : Prop :=
  exists a b, w = (strftime a, strftime b) /\ window_bound k e (a, b).

Definition sidra_mapper (nome : string) : gmap string string :=
  <["V" := nome]> (<["D3C" := "data"]> ∅).

Definition sidra_label (nome c : string) : string :=
  default c (sidra_mapper nome !! c).

(** The placeholder tokens of SIDRA. *)
Definition is_placeholder (c : cell) : bool :=
  match c with
  | CStr s => bool_decide (s ∈ ["Valor"; "..."; "-"])
  | _ => false
  end.

Definition all_reads_raise : Prop :=
  forall n req, exists e, oracle n req = Raises e.

(** The rows one of the queries of the script selects. *)
Definition collected (ser : serie) : bool :=
  existsb (fun fonte => String.eqb (Fonte ser) fonte
                        && String.eqb (Forma_de_Coleta ser) "API")
    ["BCB/SGS"; "BCB/ODATA"; "IPEADATA"; "IBGE/SIDRA"; "FRED"]
  || String.eqb (Fonte ser) "IFI".

(** The date [n] years after [t], same month and day. *)
Definition years_after (n : Z) (t : datetime) : datetime :=
  mkdatetime (year t + n) (month t) (day t).

(** Every calendar day from [a] to [b], both included. *)
Definition days_between (a b : datetime) : list datetime :=
  map ord2ymd (seqZ (toordinal a) (toordinal b - toordinal a + 1)).

(** The table a source returns when it answers with one row for each day
    from [a] to [b], both included: the day as text and its value. *)
Definition daily_frame (valor : datetime -> cell) (w : window) : DataFrame :=
  let days := days_between (fst w) (snd w) in
  mkDataFrame ["data"; "valor"]
    (map (fun i => CInt (Z.of_nat i)) (seq 0 (length days)))
    (map (fun d => [CStr (strftime d); valor d]) days).

(** The six windows of a span of thirty years that starts at [s]. *)
Definition thirty_years (s : datetime) : list window :=
  map (fun j => (years_after (5 * j) s, years_after (5 * j + 5) s)) [0; 1; 2; 3; 4; 5].

#[local] Instance datetime_eq_dec : EqDecision datetime.
Proof. solve_decision. Defined.

(** All the days the windows hold, window after window. *)
Definition stitched (ws : list window) : list datetime :=
  flat_map (fun win => days_between (fst win) (snd win)) ws.

Definition daily_row (valor : datetime -> cell) (d : datetime) : list cell :=
  [CStr (strftime d); valor d].

(** The days at which one of the six windows ends and the next starts. *)
Definition boundaries (s : datetime) : list datetime :=
  map (fun j => years_after (5 * j) s) [1; 2; 3; 4; 5].

(** [d] is a day from [s] to [e], both included. *)
Definition within (s e d : datetime) : bool :=
  (toordinal s <=? toordinal d) && (toordinal d <=? toordinal e).

(** Sources and tables used as examples. *)

Definition world0 : World := mkWorld [] [] 0.

(** A source that is down: every read raises [OSError]. *)
Definition oracle_down : nat -> request -> response :=
  fun _ _ => Raises OSError.

(** A run that is interrupted from the keyboard at every read. *)
Definition oracle_interrupted : nat -> request -> response :=
  fun _ _ => Raises KeyboardInterrupt.

(** A source that fails twice and then answers with [df]. *)
Definition oracle_third (df : DataFrame) : nat -> request -> response :=
  fun n _ =>
    match n with
    | O | S O => Raises OSError
    | _ => Returns df
    end.

(** A source that always answers with [df]. *)
Definition oracle_const (df : DataFrame) : nat -> request -> response :=
  fun _ _ => Returns df.

(** A source whose [n]-th answer holds the days of the [n]-th window. *)
Definition oracle_daily (valor : datetime -> cell) (ws : list window)
    : nat -> request -> response :=
  fun n _ =>
    match ws !! n with
    | Some win => Returns (daily_frame valor win)
    | None => Raises OSError
    end.

Definition sidra_example : DataFrame :=
  mkDataFrame ["D3C"; "V"] [CInt 0; CInt 1; CInt 2]
    [[CStr "2020-01"; CStr "100"];
     [CStr "2020-02"; CStr "..."];
     [CStr "2020-03"; CStr "-"]].

(** An answer of SIDRA without the column [V]. *)
Definition sidra_no_value : DataFrame :=
  mkDataFrame ["D3C"] [CInt 0] [[CStr "2020-01"]].

Definition sgs_one_row : DataFrame :=
  mkDataFrame ["data"; "valor"] [CInt 0] [[CStr "03/01/2000"; CInt 1]].

(** A row of BCB/SGS, collected by API, of a frequency the script has no
    list for. *)
Definition serie_semanal : serie :=
  mkSerie "BCB/SGS" "API" "1" "cambio" "Semanal".

(** A row that is kept by hand. *)
Definition serie_manual : serie :=
  mkSerie "BCB/SGS" "Manual" "1" "cambio" "Mensal".


(** A returned window, read back as dates, lies inside the span from [s] to
    [e] and is not empty. *)
Definition str_window_within (s e : datetime) (w : string * string) : Prop :=
  exists a b,
    w = (strftime a, strftime b)
    /\ valid a = true /\ valid b = true
    /\ toordinal s <= toordinal a /\ toordinal a < toordinal b
    /\ toordinal b <= toordinal e.


(** The lines [ler_csv] prints for the failed attempts that raised [es], one
    after the other, when [tentativas] attempts had failed before. *)
Fixpoint attempts (tentativas : Z) (es : list exn) : list line :=
  match es with
  | [] => []
  | e :: es' => Tentativa_falhou (tentativas + 1) e :: attempts (tentativas + 1) es'
  end.

(** From the [n]-th read of the run on, the reads of [args] raise the
    exceptions [es], one after the other, all of them of a class derived from
    [Exception]. *)
Definition fails_with (args : request) (n : nat) (es : list exn) : Prop :=
  forall i e, es !! i = Some e ->
              oracle (n + i) args = Raises e /\ is_Exception e = true.

(** A source that gives the answers of a list, one for each read, and is
    down after the last. *)
Definition oracle_script (answers : list response) : nat -> request -> response :=
  fun n _ => default (Raises OSError) (answers !! n).


(** A source that is down for a while: every read raises an exception of a
    class derived from [Exception], the kind [ler_csv] retries. *)
Definition source_down : Prop :=
  forall n req, exists e, oracle n req = Raises e /\ is_Exception e = true.

(** A source whose answer depends on what is asked and not on when, and
    whose failures are of a class derived from [Exception]. *)
Definition stateless (source : request -> response) : Prop :=
  (forall n req, oracle n req = source req)
  /\ (forall req e, source req = Raises e -> is_Exception e = true).

(** What [ler_csv] makes of the answer of such a source. *)
Definition answer (source : request -> response) (req : request) : option DataFrame :=
  match source req with
  | Returns df => Some df
  | Raises _ => None
  end.

(** The windows [coleta_bcb_sgs] asks for, one request each. *)
Definition sgs_windows (freq data_inicio data_fim : string)
    : result (list (string * string)) :=
  if String.eqb freq "Diária" then split_date_range data_inicio data_fim 5
  else Ok [(data_inicio, data_fim)].


(** The tables of [dfs], one for each row of [input], that belong to the
    rows of frequency [k]. *)
Definition filed (k : string) (input : list serie) (dfs : list DataFrame)
    : list DataFrame :=
  omap (fun p : serie * DataFrame =>
          if String.eqb (Frequencia (fst p)) k then Some (snd p) else None)
    (zip input dfs).

(** The adapter [f], called for the rows of [input] one after the other,
    the first call in the world [w] and each next one in the world the call
    before left, returns the tables [dfs] and leaves the world [w']. *)
Fixpoint called_in_turn (f : serie -> M DataFrame) (input : list serie)
    (dfs : list DataFrame) (w w' : World) : Prop :=
  match input, dfs with
  | [], [] => w' = w
  | ser :: input', df :: dfs' =>
      exists w1, f ser w = (Ok df, w1) /\ called_in_turn f input' dfs' w1 w'
  | _, _ => False
  end.

(** The rows of frequency [k]. *)
Definition rows_of (k : string) (input : list serie) : list serie :=
  List.filter (fun ser => String.eqb (Frequencia ser) k) input.


(** A source that answers one request only, the first window of five
    years of the series 1 of BCB/SGS, and is down for every other one. *)
Definition source_gap : request -> response :=
  fun req =>
    match req with
    | ReadCsv url _ _ _ =>
        if String.eqb url (sgs_url "1" "01/01/2000" "01/01/2005")
        then Returns sgs_one_row
        else Raises OSError
    | _ => Raises OSError
    end.

(** Rows of the sheet: a monthly series of IBGE/SIDRA, the same with a
    frequency IBGE/SIDRA has no list for, and the row of IFI. *)
Definition serie_ipca : serie :=
  mkSerie "IBGE/SIDRA" "API" "https://apisidra.ibge.gov.br/values/t/1737" "ipca" "Mensal".

Definition serie_ipca_anual : serie :=
  mkSerie "IBGE/SIDRA" "API" "https://apisidra.ibge.gov.br/values/t/1737" "ipca" "Anual".

Definition serie_hiato : serie :=
  mkSerie "IFI" "Link" "https://www12.senado.leg.br/ifi/hiato.xlsx" "hiato" "Trimestral".


(* ================================================================== *)
(** * Properties *)

(** ** The calendar *)

Lemma forallb_seqZ (P : Z -> bool) (lo : Z) (len : nat) :
  forallb P (map (fun i => lo + Z.of_nat i) (seq 0 len)) = true ->
  forall n, lo <= n < lo + Z.of_nat len -> P n = true.
Proof.
  intros H n Hn. rewrite forallb_forall in H. apply H.
  apply in_map_iff. exists (Z.to_nat (n - lo)). split; [lia|].
  apply in_seq. lia.
Qed.

Lemma month_day_spec (leapyear : bool) (n : Z) :
  0 <= n < 365 + (if leapyear then 1 else 0) ->
  month_day_ok leapyear n = true.
Proof.
  intros Hn. destruct leapyear.
  - apply (forallb_seqZ (month_day_ok true) 0 366); [vm_compute; reflexivity | lia].
  - apply (forallb_seqZ (month_day_ok false) 0 365); [vm_compute; reflexivity | lia].
Qed.

Lemma is_leap_true (y : Z) :
  is_leap y = true <-> (y mod 4 = 0 /\ (y mod 100 <> 0 \/ y mod 400 = 0)).
Proof.
  unfold is_leap. rewrite andb_true_iff, orb_true_iff, negb_true_iff.
  rewrite !Z.eqb_eq, Z.eqb_neq. tauto.
Qed.

Lemma days_before_year_succ (y : Z) :
  days_before_year (y + 1) = days_before_year y + 365 + (if is_leap y then 1 else 0).
Proof.
  unfold days_before_year.
  destruct (is_leap y) eqn:E.
  - apply is_leap_true in E. Z.to_euclidean_division_equations. lia.
  - assert (~ (y mod 4 = 0 /\ (y mod 100 <> 0 \/ y mod 400 = 0))) as E'.
    { rewrite <- is_leap_true. congruence. }
    Z.to_euclidean_division_equations. lia.
Qed.

Lemma ord2ymd_unfold (n : Z) :
  ord2ymd n =
  let n0 := n - 1 in
  let n400 := n0 / 146097 in
  let r1 := n0 mod 146097 in
  let n100 := r1 / 36524 in
  let r2 := r1 mod 36524 in
  let n4 := r2 / 1461 in
  let r3 := r2 mod 1461 in
  let n1 := r3 / 365 in
  let r4 := r3 mod 365 in
  let y := n400 * 400 + 1 + (n100 * 100 + n4 * 4 + n1) in
  if (n1 =? 4) || (n100 =? 4) then mkdatetime (y - 1) 12 31
  else
    let leapyear := (n1 =? 3) && (negb (n4 =? 24) || (n100 =? 3)) in
    mkdatetime y (fst (month_day leapyear r4)) (snd (month_day leapyear r4)).
Proof.
  unfold ord2ymd, month_day, DI400Y, DI100Y, DI4Y. cbv zeta.
  destruct (_ || _); [reflexivity|].
  destruct (_ <? _); reflexivity.
Qed.

Lemma ord2ymd_spec (n : Z) :
  1 <= n <= MAXORDINAL ->
  valid (ord2ymd n) = true /\ toordinal (ord2ymd n) = n.
Proof.
  intros Hn. unfold MAXORDINAL in Hn. rewrite ord2ymd_unfold. cbv zeta.
  set (n0 := n - 1).
  set (n400 := n0 / 146097). set (r1 := n0 mod 146097).
  set (n100 := r1 / 36524). set (r2 := r1 mod 36524).
  set (n4 := r2 / 1461). set (r3 := r2 mod 1461).
  set (n1 := r3 / 365). set (r4 := r3 mod 365).
  assert (H400 : n0 = 146097 * n400 + r1 /\ 0 <= r1 < 146097)
    by (subst n400 r1; Z.to_euclidean_division_equations; lia).
  assert (H100 : r1 = 36524 * n100 + r2 /\ 0 <= r2 < 36524)
    by (subst n100 r2; Z.to_euclidean_division_equations; lia).
  assert (H4 : r2 = 1461 * n4 + r3 /\ 0 <= r3 < 1461)
    by (subst n4 r3; Z.to_euclidean_division_equations; lia).
  assert (H1 : r3 = 365 * n1 + r4 /\ 0 <= r4 < 365)
    by (subst n1 r4; Z.to_euclidean_division_equations; lia).
  assert (Hn0 : n0 = n - 1) by reflexivity.
  clearbody n0 n400 r1 n100 r2 n4 r3 n1 r4.
  assert (0 <= n400 <= 24 /\ 0 <= n100 <= 4 /\ 0 <= n4 <= 24 /\ 0 <= n1 <= 4) as Hb by lia.
  assert (Hyear : n400 * 400 + (n100 * 100 + n4 * 4 + n1) <= 9998).
  { destruct (Z.eq_dec n400 24); [|lia].
    destruct (Z.eq_dec n100 3); [|lia].
    destruct (Z.eq_dec n4 24); lia. }
  set (y := n400 * 400 + 1 + (n100 * 100 + n4 * 4 + n1)).
  assert (Hdby : days_before_year y
                 = 146097 * n400 + 36524 * n100 + 1461 * n4 + 365 * n1
                   + (if (n1 =? 4) || (n100 =? 4) then 1 else 0)).
  { unfold days_before_year, y. cbv zeta.
    destruct (n1 =? 4) eqn:E1; destruct (n100 =? 4) eqn:E100; simpl;
      rewrite ?Z.eqb_eq, ?Z.eqb_neq in E1, E100;
      Z.to_euclidean_division_equations; lia. }
  destruct ((n1 =? 4) || (n100 =? 4)) eqn:Eend.
  - (* the last day of a leap year *)
    assert (Hl : is_leap (y - 1) = true).
    { apply is_leap_true. unfold y.
      apply orb_true_iff in Eend. rewrite !Z.eqb_eq in Eend.
      Z.to_euclidean_division_equations. lia. }
    assert (Hy : days_before_year y = days_before_year (y - 1) + 366).
    { replace y with (y - 1 + 1) at 1 by lia.
      rewrite days_before_year_succ, Hl. lia. }
    unfold valid, toordinal, check_date_fields, ymd2ord, days_in_month,
      days_before_month, MINYEAR, MAXYEAR. simpl year; simpl month; simpl day.
    rewrite Hl. simpl.
    apply orb_true_iff in Eend. rewrite !Z.eqb_eq in Eend.
    split; [|lia].
    rewrite !andb_true_iff, !Z.leb_le. unfold y. lia.
  - apply orb_false_iff in Eend. rewrite !Z.eqb_neq in Eend.
    set (leapyear := (n1 =? 3) && (negb (n4 =? 24) || (n100 =? 3))).
    assert (Hl : is_leap y = leapyear).
    { apply eq_true_iff_eq. rewrite is_leap_true. unfold leapyear.
      rewrite andb_true_iff, orb_true_iff, negb_true_iff, !Z.eqb_eq, Z.eqb_neq.
      unfold y. Z.to_euclidean_division_equations. lia. }
    assert (Hr4 : 0 <= r4 < 365 + (if leapyear then 1 else 0))
      by (destruct leapyear; lia).
    pose proof (month_day_spec leapyear r4 Hr4) as Hmd.
    unfold month_day_ok in Hmd.
    destruct (month_day leapyear r4) as [m d]. simpl fst; simpl snd.
    rewrite !andb_true_iff, !Z.leb_le, Z.eqb_eq in Hmd.
    unfold valid, toordinal, check_date_fields, ymd2ord, days_in_month,
      days_before_month, MINYEAR, MAXYEAR. simpl year; simpl month; simpl day.
    rewrite Hl. split.
    + rewrite !andb_true_iff, !Z.leb_le. unfold y. lia.
    + lia.
Qed.

Lemma valid_iff (t : datetime) :
  valid t = true <->
  1 <= year t <= 9999 /\ 1 <= month t <= 12
  /\ 1 <= day t <= days_in_month (year t) (month t).
Proof.
  unfold valid, check_date_fields, MINYEAR, MAXYEAR.
  rewrite !andb_true_iff, !Z.leb_le. tauto.
Qed.

Lemma days_before_year_add (y d : Z) :
  0 <= d -> days_before_year y + 365 * d <= days_before_year (y + d).
Proof.
  intros Hd. revert d Hd.
  apply (natlike_ind (fun d => days_before_year y + 365 * d <= days_before_year (y + d))).
  - replace (y + 0) with y by lia. lia.
  - intros x Hx IH. replace (y + Z.succ x) with (y + x + 1) by lia.
    rewrite days_before_year_succ. destruct (is_leap (y + x)); lia.
Qed.

Lemma days_before_year_mono (y1 y2 : Z) :
  y1 <= y2 -> days_before_year y1 + 365 * (y2 - y1) <= days_before_year y2.
Proof.
  intros H. pose proof (days_before_year_add y1 (y2 - y1)) as Ha.
  replace (y1 + (y2 - y1)) with y2 in Ha by lia. lia.
Qed.

Ltac month_cases m :=
  let H := fresh in
  assert (H : m = 1 \/ m = 2 \/ m = 3 \/ m = 4 \/ m = 5 \/ m = 6 \/ m = 7
              \/ m = 8 \/ m = 9 \/ m = 10 \/ m = 11 \/ m = 12) by lia;
  repeat (destruct H as [H | H]); subst m.

Lemma day_of_year_bounds (y m d : Z) :
  1 <= m <= 12 -> 1 <= d <= days_in_month y m ->
  1 <= days_before_month y m + d <= 365 + (if is_leap y then 1 else 0).
Proof.
  intros Hm Hd. unfold days_in_month, days_before_month in *.
  month_cases m; destruct (is_leap y); simpl in *; lia.
Qed.

Lemma day_of_year_month_lt (y m1 d1 m2 d2 : Z) :
  1 <= m1 -> m1 < m2 -> m2 <= 12 ->
  d1 <= days_in_month y m1 -> 1 <= d2 ->
  days_before_month y m1 + d1 < days_before_month y m2 + d2.
Proof.
  intros H1 H12 H2 Hd1 Hd2. unfold days_in_month, days_before_month in *.
  month_cases m1; month_cases m2; try lia; destruct (is_leap y); simpl in *; lia.
Qed.

Lemma dt_ltb_toordinal (a b : datetime) :
  valid a = true -> valid b = true -> dt_ltb a b = true -> toordinal a < toordinal b.
Proof.
  rewrite !valid_iff. intros (Hya & Hma & Hda) (Hyb & Hmb & Hdb).
  unfold dt_ltb, toordinal, ymd2ord.
  rewrite !orb_true_iff, !andb_true_iff, !orb_true_iff, !andb_true_iff,
    !Z.ltb_lt, !Z.eqb_eq.
  intros [Hy | [Hy [Hm | [Hm Hd]]]].
  - pose proof (day_of_year_bounds _ _ _ Hma Hda).
    pose proof (day_of_year_bounds _ _ _ Hmb Hdb).
    pose proof (days_before_year_succ (year a)).
    pose proof (days_before_year_mono (year a + 1) (year b)). lia.
  - rewrite Hy in *.
    pose proof (day_of_year_month_lt (year b) (month a) (day a) (month b) (day b)).
    lia.
  - rewrite Hy, Hm. lia.
Qed.

Lemma dt_trichotomy (a b : datetime) :
  dt_ltb a b = true \/ a = b \/ dt_ltb b a = true.
Proof.
  destruct a as [ya ma da], b as [yb mb db]. unfold dt_ltb. simpl.
  destruct (Z.lt_total ya yb) as [H | [H | H]].
  - left. apply Z.ltb_lt in H. rewrite H. reflexivity.
  - subst yb. rewrite Z.ltb_irrefl, Z.eqb_refl. simpl.
    destruct (Z.lt_total ma mb) as [H | [H | H]].
    + left. apply Z.ltb_lt in H. rewrite H. reflexivity.
    + subst mb. rewrite Z.ltb_irrefl, Z.eqb_refl. simpl.
      destruct (Z.lt_total da db) as [H | [H | H]].
      * left. apply Z.ltb_lt. exact H.
      * right. left. congruence.
      * right. right. apply Z.ltb_lt. exact H.
    + right. right. apply Z.ltb_lt in H. rewrite H. reflexivity.
  - right. right. apply Z.ltb_lt in H. rewrite H. reflexivity.
Qed.

Lemma dt_ltb_iff (a b : datetime) :
  valid a = true -> valid b = true ->
  dt_ltb a b = true <-> toordinal a < toordinal b.
Proof.
  intros Ha Hb. split; [apply dt_ltb_toordinal; assumption|].
  intros Hlt. destruct (dt_trichotomy a b) as [H | [H | H]]; [exact H | |].
  - subst b. lia.
  - apply dt_ltb_toordinal in H; [lia | assumption | assumption].
Qed.

Lemma dt_ltb_false_iff (a b : datetime) :
  valid a = true -> valid b = true ->
  dt_ltb a b = false <-> toordinal b <= toordinal a.
Proof.
  intros Ha Hb. rewrite <- not_true_iff_false, (dt_ltb_iff a b Ha Hb). lia.
Qed.

Lemma toordinal_inj (a b : datetime) :
  valid a = true -> valid b = true -> toordinal a = toordinal b -> a = b.
Proof.
  intros Ha Hb Heq. destruct (dt_trichotomy a b) as [H | [H | H]]; [| exact H |].
  - apply dt_ltb_toordinal in H; [lia | assumption | assumption].
  - apply dt_ltb_toordinal in H; [lia | assumption | assumption].
Qed.

Lemma toordinal_range (t : datetime) :
  valid t = true -> 1 <= toordinal t <= MAXORDINAL.
Proof.
  intros Ht. pose proof Ht as Hv. apply valid_iff in Hv. destruct Hv as (Hy & Hm & Hd).
  pose proof (day_of_year_bounds _ _ _ Hm Hd) as Hdoy.
  pose proof (days_before_year_mono 1 (year t)) as Hlo.
  pose proof (days_before_year_mono (year t + 1) 10000) as Hhi.
  pose proof (days_before_year_succ (year t)) as Hs.
  change (days_before_year 1) with 0 in Hlo.
  change (days_before_year 10000) with 3652059 in Hhi.
  unfold toordinal, ymd2ord, MAXORDINAL. lia.
Qed.

Lemma ord2ymd_toordinal (t : datetime) :
  valid t = true -> ord2ymd (toordinal t) = t.
Proof.
  intros Ht. pose proof (toordinal_range t Ht) as Hr.
  destruct (ord2ymd_spec _ Hr) as [Hv Ho].
  apply toordinal_inj; assumption.
Qed.

(** ** [strptime] reads back what [strftime] prints *)

Ltac small_cases n lo hi :=
  let H := fresh in
  assert (H : In n (map (fun i => lo + Z.of_nat i) (seq 0 (Z.to_nat (hi - lo + 1)))))
    by (apply in_map_iff; exists (Z.to_nat (n - lo)); split; [lia | apply in_seq; lia]);
  cbv in H; repeat (destruct H as [H | H]; [subst n|]); [.. | contradiction].

Lemma digit_char_spec (k : Z) :
  0 <= k <= 9 -> is_digit (digit_char k) = true /\ digit_val (digit_char k) = k.
Proof. intros Hk. small_cases k 0 9; split; reflexivity. Qed.

Lemma match_d_fmt2 (d : Z) (r : string) :
  1 <= d <= 31 ->
  exists tl, match_d (fmt2 d +:+ String slash r) = (d, String slash r) :: tl.
Proof. intros Hd. small_cases d 1 31; eexists; vm_compute; reflexivity. Qed.

Lemma match_m_fmt2 (m : Z) (r : string) :
  1 <= m <= 12 ->
  exists tl, match_m (fmt2 m +:+ String slash r) = (m, String slash r) :: tl.
Proof. intros Hm. small_cases m 1 12; eexists; vm_compute; reflexivity. Qed.

Lemma match_Y_fmt4 (y : Z) :
  0 <= y <= 9999 -> match_Y (fmt4 y) = [(y, EmptyString)].
Proof.
  intros Hy. unfold fmt4, match_Y.
  destruct (digit_char_spec (y / 1000)) as [-> ->];
    [Z.to_euclidean_division_equations; lia|].
  destruct (digit_char_spec (y / 100 mod 10)) as [-> ->];
    [Z.to_euclidean_division_equations; lia|].
  destruct (digit_char_spec (y / 10 mod 10)) as [-> ->];
    [Z.to_euclidean_division_equations; lia|].
  destruct (digit_char_spec (y mod 10)) as [-> ->];
    [Z.to_euclidean_division_equations; lia|].
  simpl. do 2 f_equal. Z.to_euclidean_division_equations. lia.
Qed.

Lemma days_in_month_le (y m : Z) : days_in_month y m <= 31.
Proof.
  unfold days_in_month. destruct ((m =? 2) && is_leap y); [lia|].
  unfold DAYS_IN_MONTH.
  repeat match goal with |- context [match ?x with _ => _ end] => destruct x end; lia.
Qed.

Lemma strptime_strftime (t : datetime) :
  valid t = true -> strptime (strftime t) = Ok t.
Proof.
  intros Hv. pose proof Hv as Ht. apply valid_iff in Ht.
  destruct Ht as (Hy & Hm & Hd).
  pose proof (days_in_month_le (year t) (month t)) as Hle.
  unfold strptime, match_dmY, strftime.
  destruct (match_d_fmt2 (day t)
              (fmt2 (month t) +:+ String slash (fmt4 (year t)))) as [tl1 ->]; [lia|].
  cbn [mbind list_bind].
  assert (Hlit : forall r, match_lit slash (String slash r) = [r]) by reflexivity.
  rewrite Hlit. cbn [mbind list_bind app].
  destruct (match_m_fmt2 (month t) (fmt4 (year t))) as [tl2 ->]; [lia|].
  cbn [mbind list_bind app]. rewrite Hlit. cbn [mbind list_bind app].
  rewrite match_Y_fmt4 by lia. cbn [mbind list_bind app].
  unfold valid in Hv. rewrite Hv. destruct t; reflexivity.
Qed.

(** ** The splitting loop *)

Lemma split_loop_windows (fuel : nat) (k : Z) (e cur : datetime)
    (acc : list (string * string)) :
  split_loop fuel k e cur acc
  = rmap (fun ws => acc ++ map fmt_window ws) (windows fuel k e cur).
Proof.
  revert cur acc. induction fuel as [|fuel IH]; intros cur acc; simpl.
  - destruct (dt_ltb cur e); [reflexivity|]. simpl. rewrite app_nil_r. reflexivity.
  - destruct (dt_ltb cur e); [|simpl; rewrite app_nil_r; reflexivity].
    fold (candidate k cur). destruct (candidate k cur) as [c|x|]; try reflexivity.
    fold (clamp e c). rewrite IH.
    destruct (windows fuel k e (clamp e c)) as [ws|x|]; simpl; try reflexivity.
    rewrite <- app_assoc. reflexivity.
Qed.

Lemma windows_Chain (fuel : nat) (k : Z) (e cur : datetime) (ws : list window) :
  windows fuel k e cur = Ok ws -> Chain k e cur ws.
Proof.
  revert cur ws. induction fuel as [|fuel IH]; intros cur ws; simpl.
  - destruct (dt_ltb cur e) eqn:E; [discriminate|].
    intros [= <-]. constructor. exact E.
  - destruct (dt_ltb cur e) eqn:E.
    + destruct (candidate k cur) as [c|x|] eqn:Ec; try discriminate.
      destruct (windows fuel k e (clamp e c)) as [ws'|x|] eqn:Ew; simpl;
        try discriminate.
      intros [= <-]. econstructor; eauto.
    + intros [= <-]. constructor. exact E.
Qed.

Lemma dt_ltb_irrefl (a : datetime) : dt_ltb a a = false.
Proof. unfold dt_ltb. rewrite !Z.ltb_irrefl, !Z.eqb_refl. reflexivity. Qed.

Lemma clamp_not_after (e c : datetime) : dt_ltb e (clamp e c) = false.
Proof.
  unfold clamp. destruct (dt_ltb e c) eqn:E; [apply dt_ltb_irrefl | exact E].
Qed.

Lemma contiguous_map {A B : Type} (f : A -> B) (ws : list (A * A)) :
  contiguous ws -> contiguous (map (fun w => (f (fst w), f (snd w))) ws).
Proof.
  induction ws as [|w1 [|w2 tl] IH]; simpl; auto.
  intros [H1 H2]. split; [congruence|]. apply IH. exact H2.
Qed.

Lemma Chain_head (k : Z) (e cur : datetime) (ws : list window) :
  Chain k e cur ws -> dt_ltb cur e = true ->
  exists b tl, ws = (cur, b) :: tl.
Proof. intros [cur' H | cur' c ws' H Hc Hr]; [congruence | eauto]. Qed.

Lemma Chain_contiguous (k : Z) (e cur : datetime) (ws : list window) :
  Chain k e cur ws -> contiguous ws.
Proof.
  induction 1 as [|cur c ws Hlt Hc Hr IH]; simpl; [exact I|].
  destruct Hr as [|cur' c' ws' Hlt' Hc' Hr']; simpl; [exact I|].
  split; [reflexivity | exact IH].
Qed.

Lemma Chain_last (k : Z) (e cur : datetime) (ws : list window) :
  Chain k e cur ws -> dt_ltb e cur = false ->
  forall w, last ws = Some w -> snd w = e.
Proof.
  induction 1 as [|cur c ws Hlt Hc Hr IH]; intros Hle w; [discriminate|].
  pose proof (clamp_not_after e c) as Hcl.
  destruct Hr as [cur' Hge | cur' c' ws' Hlt' Hc' Hr'].
  - simpl. intros [= <-]. simpl.
    destruct (dt_trichotomy cur' e) as [H | [H | H]]; congruence.
  - intros Hl. apply (IH Hcl). rewrite <- Hl. reflexivity.
Qed.

Lemma replace_year_cases (t : datetime) (y : Z) :
  (exists c, replace_year t y = Ok c /\ valid c = true
             /\ year c = y /\ month c = month t /\ day c = day t)
  \/ replace_year t y = Raise ValueError.
Proof.
  unfold replace_year.
  destruct (check_date_fields y (month t) (day t)) eqn:E; [left | right; reflexivity].
  eexists. split; [reflexivity|]. unfold valid. simpl. auto.
Qed.

Lemma candidate_ok (k : Z) (cur c : datetime) :
  valid cur = true -> 0 < k -> candidate k cur = Ok c ->
  valid c = true /\ toordinal cur < toordinal c.
Proof.
  intros Hv Hk. unfold candidate.
  destruct (replace_year_cases cur (year cur + k)) as [(t & -> & Ht & Hy & Hm & Hd) | ->].
  - intros [= <-]. split; [exact Ht|].
    apply dt_ltb_toordinal; try assumption.
    unfold dt_ltb. assert ((year cur <? year t) = true) as -> by (apply Z.ltb_lt; lia).
    reflexivity.
  - unfold timedelta_days, dt_add.
    destruct (Z.abs (365 * k) <=? 999999999); simpl; [|discriminate].
    destruct ((0 <? toordinal cur + 365 * k)
              && (toordinal cur + 365 * k <=? MAXORDINAL)) eqn:E; [|discriminate].
    intros [= <-]. apply andb_true_iff in E. rewrite Z.ltb_lt, Z.leb_le in E.
    destruct (ord2ymd_spec (toordinal cur + 365 * k)) as [H1 H2]; [lia|].
    split; [exact H1 | lia].
Qed.

Lemma candidate_fuel (k : Z) (cur : datetime) : candidate k cur <> OutOfFuel.
Proof.
  unfold candidate, replace_year, timedelta_days, dt_add.
  destruct (check_date_fields _ _ _); [discriminate|].
  destruct (_ <=? _); simpl; [|discriminate].
  destruct (_ && _); discriminate.
Qed.

Lemma candidate_raise (k : Z) (cur : datetime) (x : exn) :
  valid cur = true -> 0 < k -> candidate k cur = Raise x ->
  x = OverflowError /\ MAXORDINAL < toordinal cur + 365 * k.
Proof.
  intros Hv Hk. unfold candidate. pose proof (toordinal_range cur Hv) as Hr.
  destruct (replace_year_cases cur (year cur + k)) as [(t & -> & _) | ->];
    [discriminate|].
  unfold timedelta_days, dt_add, MAXORDINAL in *.
  destruct (Z.abs (365 * k) <=? 999999999) eqn:Ea; simpl.
  - destruct ((0 <? toordinal cur + 365 * k)
              && (toordinal cur + 365 * k <=? 3652059)) eqn:E; [discriminate|].
    intros [= <-]. split; [reflexivity|].
    apply andb_false_iff in E. rewrite Z.ltb_ge, Z.leb_gt in E. lia.
  - intros [= <-]. split; [reflexivity|]. apply Z.leb_gt in Ea. lia.
Qed.

Lemma clamp_valid (e c : datetime) :
  valid e = true -> valid c = true -> valid (clamp e c) = true.
Proof. intros He Hc. unfold clamp. destruct (dt_ltb e c); assumption. Qed.

Lemma clamp_toordinal (e c : datetime) :
  valid e = true -> valid c = true ->
  toordinal (clamp e c) = Z.min (toordinal e) (toordinal c).
Proof.
  intros He Hc. unfold clamp. destruct (dt_ltb e c) eqn:E.
  - apply dt_ltb_iff in E; [lia | assumption | assumption].
  - apply dt_ltb_false_iff in E; [lia | assumption | assumption].
Qed.

(** With one unit of fuel per day left to cover the loop always leaves;
    it raises only [OverflowError], and only close to the last
    representable date. *)
Lemma windows_total (k : Z) (e : datetime) (fuel : nat) (cur : datetime) :
  valid e = true -> 0 < k -> valid cur = true ->
  toordinal e - toordinal cur <= Z.of_nat fuel ->
  (exists ws, windows fuel k e cur = Ok ws)
  \/ (windows fuel k e cur = Raise OverflowError
      /\ MAXORDINAL < toordinal e + 365 * k).
Proof.
  intros He Hk. revert cur. induction fuel as [|fuel IH]; intros cur Hc Hf; simpl.
  - destruct (dt_ltb cur e) eqn:E; [|left; eauto].
    apply dt_ltb_iff in E; [lia | assumption | assumption].
  - destruct (dt_ltb cur e) eqn:E; [|left; eauto].
    apply dt_ltb_iff in E; [| assumption | assumption].
    destruct (candidate k cur) as [c|x|] eqn:Ec.
    + destruct (candidate_ok k cur c Hc Hk Ec) as [Hvc Hlt].
      pose proof (clamp_valid e c He Hvc) as Hcl.
      pose proof (clamp_toordinal e c He Hvc) as Hco.
      destruct (IH (clamp e c) Hcl) as [[ws ->] | [-> Hov]]; [lia | |].
      * left. simpl. eauto.
      * right. simpl. auto.
    + destruct (candidate_raise k cur x Hc Hk Ec) as [-> Hov].
      right. split; [reflexivity | lia].
    + exfalso. exact (candidate_fuel k cur Ec).
Qed.

Lemma Chain_window_bound (k : Z) (e cur : datetime) (ws : list window) :
  valid e = true -> 0 < k ->
  Chain k e cur ws -> valid cur = true -> Forall (window_bound k e) ws.
Proof.
  intros He Hk. induction 1 as [|cur c ws Hlt Hc Hr IH]; intros Hv; constructor.
  - destruct (candidate_ok k cur c Hv Hk Hc) as [Hvc Hord].
    pose proof (clamp_valid e c He Hvc) as Hcl.
    pose proof (clamp_toordinal e c He Hvc) as Hco.
    pose proof (proj1 (dt_ltb_iff cur e Hv He) Hlt) as Hlt'.
    unfold window_bound. simpl fst; simpl snd.
    split; [exact Hv|]. split; [exact Hcl|].
    split; [apply dt_ltb_iff; [assumption | assumption | lia]|].
    unfold candidate in Hc. unfold clamp in *.
    destruct (replace_year_cases cur (year cur + k)) as [(t & Ht & _) | Ht];
      rewrite Ht in *.
    + injection Hc as ->. destruct (dt_ltb e c) eqn:E; auto.
    + unfold timedelta_days, dt_add in Hc.
      destruct (Z.abs (365 * k) <=? 999999999); simpl in Hc; [|discriminate].
      destruct ((0 <? toordinal cur + 365 * k)
                && (toordinal cur + 365 * k <=? MAXORDINAL)) eqn:Eo; [|discriminate].
      apply andb_true_iff in Eo. rewrite Z.ltb_lt, Z.leb_le in Eo.
      destruct (ord2ymd_spec (toordinal cur + 365 * k)) as [H1 H2]; [lia|].
      injection Hc as <-.
      destruct (dt_ltb e (ord2ymd (toordinal cur + 365 * k))) eqn:E; [|left; exact H2].
      right. split; [reflexivity|].
      apply dt_ltb_iff in E; [lia | assumption | assumption].
  - apply IH. destruct (candidate_ok k cur c Hv Hk Hc) as [Hvc _].
    apply clamp_valid; assumption.
Qed.

Lemma strptime_valid (str : string) (t : datetime) :
  strptime str = Ok t -> valid t = true.
Proof.
  unfold strptime. destruct (match_dmY str) as [|[[[d m] y] r] tl]; [discriminate|].
  destruct r; [|discriminate].
  destruct (check_date_fields y m d) eqn:E; [|discriminate].
  intros [= <-]. exact E.
Qed.

Lemma split_date_range_parsed (start_date_str end_date_str : string)
    (s e : datetime) (k : Z) :
  strptime start_date_str = Ok s -> strptime end_date_str = Ok e ->
  split_date_range start_date_str end_date_str k
  = rmap (map fmt_window) (windows (split_fuel s e) k e s).
Proof.
  intros Hs He. unfold split_date_range. rewrite Hs, He. simpl.
  rewrite split_loop_windows. reflexivity.
Qed.

Lemma split_date_range_dates (s e : datetime) (k : Z) :
  valid s = true -> valid e = true ->
  split_date_range (strftime s) (strftime e) k
  = rmap (map fmt_window) (windows (split_fuel s e) k e s).
Proof.
  intros Hs He. apply split_date_range_parsed; apply strptime_strftime; assumption.
Qed.

Lemma windows_split_fuel (s e : datetime) (k : Z) :
  valid s = true -> valid e = true -> 0 < k ->
  (exists ws, windows (split_fuel s e) k e s = Ok ws /\ Chain k e s ws)
  \/ (windows (split_fuel s e) k e s = Raise OverflowError
      /\ MAXORDINAL < toordinal e + 365 * k).
Proof.
  intros Hs He Hk.
  destruct (windows_total k e (split_fuel s e) s He Hk Hs) as [[ws Hw] | H].
  - unfold split_fuel. lia.
  - left. exists ws. split; [exact Hw | eapply windows_Chain; exact Hw].
  - right. exact H.
Qed.

(** ** Properties of [split_date_range] *)

(** C1 (as amended).  For two texts that read as the dates [s < e] and a
    positive number of years the call either returns a list of windows that
    is not empty, starts at [s], ends at [e] and in which every window ends
    where the next one starts, or it raises [OverflowError]; it can raise only
    when [e] plus [365 * interval_years] days lies after 31/12/9999, the last
    [datetime]. *)
Theorem split_date_range_coverage (start_date_str end_date_str : string)
    (s e : datetime) (k : Z) :
  strptime start_date_str = Ok s -> strptime end_date_str = Ok e ->
  dt_ltb s e = true -> 0 < k ->
  (exists ws,
      split_date_range start_date_str end_date_str k = Ok ws
      /\ ws <> []
      /\ fst <$> head ws = Some (strftime s)
      /\ snd <$> last ws = Some (strftime e)
      /\ contiguous ws)
  \/ (split_date_range start_date_str end_date_str k = Raise OverflowError
      /\ MAXORDINAL < toordinal e + 365 * k).
Proof.
  intros Hps Hpe Hlt Hk.
  pose proof (strptime_valid _ _ Hps) as Hs. pose proof (strptime_valid _ _ Hpe) as He.
  rewrite (split_date_range_parsed _ _ s e k Hps Hpe).
  destruct (windows_split_fuel s e k Hs He Hk) as [(ws & -> & Hch) | [-> Hov]];
    [left | right; split; [reflexivity | exact Hov]].
  exists (map fmt_window ws). split; [reflexivity|].
  destruct (Chain_head k e s ws Hch Hlt) as (b & tl & ->).
  split; [discriminate|]. split; [reflexivity|]. split.
  - assert (dt_ltb e s = false) as Hes.
    { destruct (dt_ltb e s) eqn:E; [|reflexivity].
      apply dt_ltb_toordinal in E; [|assumption|assumption].
      apply dt_ltb_toordinal in Hlt; [lia|assumption|assumption]. }
    pose proof (Chain_last k e s _ Hch Hes) as Hl.
    change (map fmt_window ((s, b) :: tl)) with (fmt_window <$> ((s, b) :: tl)).
    rewrite fmap_last. destruct (last (A:=window) ((s, b) :: tl)) as [w|] eqn:El.
    + simpl. rewrite (Hl w eq_refl). reflexivity.
    + apply last_None in El. discriminate.
  - apply (contiguous_map strftime). eapply Chain_contiguous. exact Hch.
Qed.

Lemma split_date_range_coverage_witness :
  exists ws,
    split_date_range "01/01/2000" "04/11/2029" 5 = Ok ws
    /\ ws <> []
    /\ fst <$> head ws = Some "01/01/2000"
    /\ snd <$> last ws = Some "04/11/2029"
    /\ contiguous ws.
Proof.
  destruct (split_date_range_coverage "01/01/2000" "04/11/2029"
              (mkdatetime 2000 1 1) (mkdatetime 2029 11 4) 5)
    as [H | [H _]]; [reflexivity | reflexivity | reflexivity | lia | exact H |].
  vm_compute in H. discriminate H.
Defined.

(** C1 as stated fails: one year from 01/01/2000 in steps of 10000 years
    leaves the range of [datetime], and no list is returned. *)
Lemma split_date_range_coverage_counterexample :
  dt_ltb (mkdatetime 2000 1 1) (mkdatetime 2001 1 1) = true
  /\ 0 < 10000
  /\ split_date_range "01/01/2000" "01/01/2001" 10000 = Raise OverflowError
  /\ ~ (exists ws, split_date_range "01/01/2000" "01/01/2001" 10000 = Ok ws).
Proof.
  split; [reflexivity|]. split; [lia|]. split; [vm_compute; reflexivity|].
  intros [ws H]. vm_compute in H. discriminate H.
Qed.

(** C2.  For two texts that read as the dates [s < e] and a positive number
    of years, every window
    [(a, b)] that is returned ends exactly [interval_years] calendar years
    after [a] if that date exists, and exactly [365 * interval_years] days
    after [a] if it does not, or else it is the window cut at [e], which ends
    before that.  (When no list is returned the call raised [OverflowError],
    which needs [e + 365 * interval_years] days to pass 31/12/9999.) *)
Theorem split_date_range_window_bound (start_date_str end_date_str : string)
    (s e : datetime) (k : Z) :
  strptime start_date_str = Ok s -> strptime end_date_str = Ok e ->
  dt_ltb s e = true -> 0 < k ->
  (exists ws,
      split_date_range start_date_str end_date_str k = Ok ws
      /\ Forall (str_window_bound k e) ws)
  \/ (split_date_range start_date_str end_date_str k = Raise OverflowError
      /\ MAXORDINAL < toordinal e + 365 * k).
Proof.
  intros Hps Hpe Hlt Hk.
  pose proof (strptime_valid _ _ Hps) as Hs. pose proof (strptime_valid _ _ Hpe) as He.
  rewrite (split_date_range_parsed _ _ s e k Hps Hpe).
  destruct (windows_split_fuel s e k Hs He Hk) as [(ws & -> & Hch) | [-> Hov]];
    [left | right; split; [reflexivity | exact Hov]].
  exists (map fmt_window ws). split; [reflexivity|].
  pose proof (Chain_window_bound k e s ws He Hk Hch Hs) as Hb.
  apply Forall_map. eapply Forall_impl; [exact Hb|].
  intros [a b] Hw. exists a, b. split; [reflexivity | exact Hw].
Qed.

Lemma split_date_range_window_bound_witness :
  exists ws,
    split_date_range "29/02/2016" "29/02/2024" 1 = Ok ws
    /\ Forall (str_window_bound 1 (mkdatetime 2024 2 29)) ws.
Proof.
  destruct (split_date_range_window_bound "29/02/2016" "29/02/2024"
              (mkdatetime 2016 2 29) (mkdatetime 2024 2 29) 1)
    as [H | [H _]]; [reflexivity | reflexivity | reflexivity | lia | exact H |].
  vm_compute in H. discriminate H.
Defined.

(** C3 (as amended).  2020 is a leap year, so 29/02/2016 plus four years is
    the date 29/02/2020: [replace] succeeds, the fallback is not used, and the
    call returns the two windows below without an error. *)
Theorem split_date_range_leap_day :
  replace_year (mkdatetime 2016 2 29) (2016 + 4) = Ok (mkdatetime 2020 2 29)
  /\ split_date_range "29/02/2016" "29/02/2024" 4
     = Ok [("29/02/2016", "29/02/2020"); ("29/02/2020", "29/02/2024")].
Proof. split; vm_compute; reflexivity. Qed.

(** C3 as stated fails: 29/02/2016 plus 1460 days is 28/02/2020, and the
    first window does not end there. *)
Lemma split_date_range_leap_day_counterexample :
  rmap strftime (dt_add (mkdatetime 2016 2 29) (365 * 4)) = Ok "28/02/2020"
  /\ ~ (exists w tl d,
          split_date_range "29/02/2016" "29/02/2024" 4 = Ok (w :: tl)
          /\ dt_add (mkdatetime 2016 2 29) (365 * 4) = Ok d
          /\ snd w = strftime d).
Proof.
  split; [vm_compute; reflexivity|].
  intros (w & tl & d & Hs & Hd & Hw).
  vm_compute in Hs. vm_compute in Hd.
  injection Hs as <- _. injection Hd as <-. vm_compute in Hw. discriminate Hw.
Qed.

(** C10.  When the start date is not before the end date the result is the
    empty list, and nothing is raised, whatever [interval_years] is. *)
Theorem split_date_range_empty (ss es : string) (s e : datetime) (k : Z) :
  strptime ss = Ok s -> strptime es = Ok e -> dt_ltb s e = false ->
  split_date_range ss es k = Ok [].
Proof.
  intros Hs He Hge. unfold split_date_range. rewrite Hs, He. simpl.
  destruct (split_fuel s e); simpl; rewrite Hge; reflexivity.
Qed.

Lemma split_date_range_empty_witness :
  split_date_range "31/12/2020" "01/01/2020" 5 = Ok []
  /\ split_date_range "01/01/2020" "01/01/2020" 5 = Ok [].
Proof.
  split.
  - apply (split_date_range_empty _ _ (mkdatetime 2020 12 31) (mkdatetime 2020 1 1));
      reflexivity.
  - apply (split_date_range_empty _ _ (mkdatetime 2020 1 1) (mkdatetime 2020 1 1));
      reflexivity.
Defined.


(** ** [ler_csv] *)

Lemma ler_csv_loop_fail (fuel : nat) (args : request) (mx iv t : Z) (w : World)
    (e : exn) :
  t < mx -> oracle (length (reads w)) args = Raises e -> is_Exception e = true ->
  ler_csv_loop (S fuel) args mx iv t w
  = ler_csv_loop fuel args mx iv (t + 1)
      (mkWorld (reads w ++ [args]) (stdout w ++ [Tentativa_falhou (t + 1) e])
         (slept w + iv)).
Proof.
  intros Ht Ho He. simpl. apply Z.ltb_lt in Ht. rewrite Ht.
  unfold bind at 1. unfold try_except, bind, read. rewrite Ho, He. reflexivity.
Qed.

Lemma ler_csv_loop_success (fuel : nat) (args : request) (mx iv t : Z) (w : World)
    (df : DataFrame) :
  t < mx -> oracle (length (reads w)) args = Returns df ->
  ler_csv_loop (S fuel) args mx iv t w
  = (Ok (Some df), mkWorld (reads w ++ [args]) (stdout w) (slept w)).
Proof.
  intros Ht Ho. simpl. apply Z.ltb_lt in Ht. rewrite Ht.
  unfold bind at 1. unfold try_except, bind, read. rewrite Ho. reflexivity.
Qed.

Lemma ler_csv_loop_end (fuel : nat) (args : request) (mx iv t : Z) (w : World) :
  mx <= t ->
  ler_csv_loop fuel args mx iv t w
  = (Ok None, mkWorld (reads w) (stdout w ++ [Falha_apos mx]) (slept w)).
Proof.
  intros Ht. apply Z.ltb_ge in Ht. destruct fuel; simpl; rewrite Ht; reflexivity.
Qed.

Lemma ler_csv_first_attempt (args : request) (w : World) (df : DataFrame) :
  oracle (length (reads w)) args = Returns df ->
  ler_csv args w = (Ok (Some df), mkWorld (reads w ++ [args]) (stdout w) (slept w)).
Proof.
  intros Ho. unfold ler_csv. change (Z.to_nat 5) with 5%nat.
  apply ler_csv_loop_success; [lia | exact Ho].
Qed.

(** The five iterations granted to the loop of [ler_csv] always suffice. *)
Lemma ler_csv_loop_fuel (fuel : nat) (args : request) (t : Z) (w : World) :
  5 - t <= Z.of_nat fuel ->
  fst (ler_csv_loop fuel args 5 2 t w) <> OutOfFuel.
Proof.
  revert t w. induction fuel as [|fuel IH]; intros t w Hf.
  - rewrite ler_csv_loop_end by lia. discriminate.
  - destruct (Z.lt_ge_cases t 5) as [Ht | Ht];
      [|rewrite ler_csv_loop_end by lia; discriminate].
    destruct (oracle (length (reads w)) args) as [df | e] eqn:Ho.
    + rewrite (ler_csv_loop_success _ _ _ _ _ _ df) by assumption. discriminate.
    + destruct (is_Exception e) eqn:Ec.
      * rewrite (ler_csv_loop_fail _ _ _ _ _ _ e) by assumption. apply IH. lia.
      * simpl. apply Z.ltb_lt in Ht. rewrite Ht.
        unfold bind at 1. unfold try_except, bind, read. rewrite Ho, Ec.
        discriminate.
Qed.

Lemma ler_csv_fuel (args : request) (w : World) :
  fst (ler_csv args w) <> OutOfFuel.
Proof.
  unfold ler_csv. apply ler_csv_loop_fuel. change (Z.to_nat 5) with 5%nat. lia.
Qed.


(** C4 (as amended).  When every read raises an exception of a class
    derived from [Exception], the ones [except Exception] catches, [ler_csv]
    reads exactly five times, reports each failure, and returns [None]; it
    raises nothing. *)
Theorem ler_csv_exhaustion (args : request) (w : World) :
  (forall n, (length (reads w) <= n)%nat ->
             exists e, oracle n args = Raises e /\ is_Exception e = true) ->
  exists e1 e2 e3 e4 e5,
    ler_csv args w
    = (Ok None,
       mkWorld (reads w ++ [args; args; args; args; args])
         (stdout w ++ [Tentativa_falhou 1 e1; Tentativa_falhou 2 e2;
                       Tentativa_falhou 3 e3; Tentativa_falhou 4 e4;
                       Tentativa_falhou 5 e5; Falha_apos 5])
         (slept w + 10)).
Proof.
  intros H. unfold ler_csv. change (Z.to_nat 5) with 5%nat.
  destruct (H (length (reads w))) as (e1 & Ho1 & He1); [lia|].
  rewrite (ler_csv_loop_fail _ _ _ _ _ _ e1) by (try lia; assumption).
  set (w1 := mkWorld _ _ _).
  destruct (H (length (reads w1))) as (e2 & Ho2 & He2);
    [subst w1; simpl; rewrite length_app; lia|].
  rewrite (ler_csv_loop_fail _ _ _ _ _ _ e2) by (try lia; assumption).
  set (w2 := mkWorld _ _ _).
  destruct (H (length (reads w2))) as (e3 & Ho3 & He3);
    [subst w2 w1; simpl; rewrite !length_app; lia|].
  rewrite (ler_csv_loop_fail _ _ _ _ _ _ e3) by (try lia; assumption).
  set (w3 := mkWorld _ _ _).
  destruct (H (length (reads w3))) as (e4 & Ho4 & He4);
    [subst w3 w2 w1; simpl; rewrite !length_app; lia|].
  rewrite (ler_csv_loop_fail _ _ _ _ _ _ e4) by (try lia; assumption).
  set (w4 := mkWorld _ _ _).
  destruct (H (length (reads w4))) as (e5 & Ho5 & He5);
    [subst w4 w3 w2 w1; simpl; rewrite !length_app; lia|].
  rewrite (ler_csv_loop_fail _ _ _ _ _ _ e5) by (try lia; assumption).
  rewrite ler_csv_loop_end by lia.
  exists e1, e2, e3, e4, e5. subst w4 w3 w2 w1. simpl.
  rewrite <- !app_assoc. simpl. do 2 f_equal. lia.
Qed.

(** C5.  When the first two reads raise and the third returns a table,
    [ler_csv] returns that table after exactly three reads, having reported
    exactly the two failures. *)
Theorem ler_csv_third_attempt (args : request) (w : World) (e1 e2 : exn)
    (df : DataFrame) :
  oracle (length (reads w)) args = Raises e1 -> is_Exception e1 = true ->
  oracle (S (length (reads w))) args = Raises e2 -> is_Exception e2 = true ->
  oracle (S (S (length (reads w)))) args = Returns df ->
  ler_csv args w
  = (Ok (Some df),
     mkWorld (reads w ++ [args; args; args])
       (stdout w ++ [Tentativa_falhou 1 e1; Tentativa_falhou 2 e2])
       (slept w + 4)).
Proof.
  intros Ho1 He1 Ho2 He2 Ho3. unfold ler_csv. change (Z.to_nat 5) with 5%nat.
  rewrite (ler_csv_loop_fail _ _ _ _ _ _ e1) by (try lia; assumption).
  rewrite (ler_csv_loop_fail _ _ _ _ _ _ e2);
    [| lia | simpl; rewrite length_app, Nat.add_1_r; exact Ho2 | exact He2].
  rewrite (ler_csv_loop_success _ _ _ _ _ _ df);
    [| lia | simpl; rewrite !length_app, !Nat.add_1_r; exact Ho3].
  simpl. rewrite <- !app_assoc. simpl. do 2 f_equal. lia.
Qed.


(** ** [coleta_ibge_sidra] *)

Lemma sidra_label_cases (nome c : string) :
  (c = "D3C" /\ sidra_label nome c = "data")
  \/ (c = "V" /\ sidra_label nome c = nome)
  \/ (c <> "D3C" /\ c <> "V" /\ sidra_label nome c = c).
Proof.
  unfold sidra_label, sidra_mapper.
  destruct (decide (c = "V")) as [-> | Hv].
  - right. left. rewrite lookup_insert_eq. auto.
  - rewrite lookup_insert_ne by congruence.
    destruct (decide (c = "D3C")) as [-> | Hd].
    + left. rewrite lookup_insert_eq. auto.
    + right. right. rewrite lookup_insert_ne by congruence.
      rewrite lookup_empty. auto.
Qed.

Lemma col_pos_cons_ne (name c : string) (cols : list string) :
  c <> name -> col_pos name (c :: cols) = option_map S (col_pos name cols).
Proof.
  intros H. simpl. destruct (String.eqb_spec c name); [contradiction | reflexivity].
Qed.

Lemma col_pos_cons_eq (name : string) (cols : list string) :
  col_pos name (name :: cols) = Some O.
Proof. simpl. rewrite String.eqb_refl. reflexivity. Qed.

Lemma col_pos_sidra_data (nome : string) (cols : list string) :
  nome <> "data" -> "data" ∉ cols ->
  col_pos "data" (map (sidra_label nome) cols) = col_pos "D3C" cols.
Proof.
  intros Hn. induction cols as [|c cols IH]; intros Hd; [reflexivity|].
  apply not_elem_of_cons in Hd. destruct Hd as [Hc Hd].
  change (map (sidra_label nome) (c :: cols))
    with (sidra_label nome c :: map (sidra_label nome) cols).
  destruct (sidra_label_cases nome c) as [[-> ->] | [[-> ->] | (H1 & H2 & ->)]].
  - rewrite !col_pos_cons_eq. reflexivity.
  - rewrite !col_pos_cons_ne by congruence. rewrite IH by assumption. reflexivity.
  - rewrite !col_pos_cons_ne by congruence. rewrite IH by assumption. reflexivity.
Qed.

Lemma col_pos_sidra_nome (nome : string) (cols : list string) :
  nome <> "data" -> nome ∉ cols ->
  col_pos nome (map (sidra_label nome) cols) = col_pos "V" cols.
Proof.
  intros Hn. induction cols as [|c cols IH]; intros Hd; [reflexivity|].
  apply not_elem_of_cons in Hd. destruct Hd as [Hc Hd].
  change (map (sidra_label nome) (c :: cols))
    with (sidra_label nome c :: map (sidra_label nome) cols).
  destruct (sidra_label_cases nome c) as [[-> ->] | [[-> ->] | (H1 & H2 & ->)]].
  - rewrite !col_pos_cons_ne by congruence. rewrite IH by assumption. reflexivity.
  - rewrite !col_pos_cons_eq. reflexivity.
  - rewrite !col_pos_cons_ne by congruence. rewrite IH by assumption. reflexivity.
Qed.

Lemma select_map {A B : Type} (f : A -> B) (mask : list bool) (xs : list A) :
  select mask (map f xs) = map f (select mask xs).
Proof.
  revert xs. induction mask as [|b mask IH]; intros [|x xs]; simpl; try reflexivity.
  destruct b; simpl; rewrite IH; reflexivity.
Qed.

Lemma zip_with_set_second (rs : list (list cell)) (i j : nat) (nums : list cell) :
  zip_with (fun row c => <[1%nat := c]> row)
    (map (fun row => [cell_at i row; cell_at j row]) rs) nums
  = zip_with (fun row c => [cell_at i row; c]) rs nums.
Proof.
  revert nums. induction rs as [|r rs IH]; intros [|n nums]; simpl; try reflexivity.
  rewrite IH. reflexivity.
Qed.

Lemma isin_placeholder (col : list cell) :
  neg (isin ["Valor"; "..."; "-"] col) = map (fun c => negb (is_placeholder c)) col.
Proof.
  unfold neg, isin. rewrite map_map. apply map_ext. intros [ | | | | | ]; reflexivity.
Qed.

Lemma select_not_placeholder (col : list cell) :
  Forall (fun c => is_placeholder c = false)
    (select (map (fun c => negb (is_placeholder c)) col) col).
Proof.
  induction col as [|c col IH]; simpl; [constructor|].
  destruct (is_placeholder c) eqn:E; simpl; [exact IH|].
  constructor; assumption.
Qed.


Lemma sidra_filter (nome : string) (resposta : DataFrame) (i j : nat) :
  nome <> "data" -> "data" ∉ columns resposta -> nome ∉ columns resposta ->
  col_pos "D3C" (columns resposta) = Some i ->
  col_pos "V" (columns resposta) = Some j ->
  filter_items ["data"; nome] (rename (sidra_mapper nome) resposta)
  = mkDataFrame ["data"; nome] (index resposta)
      (map (fun row => [cell_at i row; cell_at j row]) (rows resposta)).
Proof.
  intros Hn Hd Hv Hi Hj. unfold filter_items, rename. simpl.
  fold (sidra_label nome).
  pose proof (col_pos_sidra_data nome _ Hn Hd) as E1. rewrite Hi in E1.
  pose proof (col_pos_sidra_nome nome _ Hn Hv) as E2. rewrite Hj in E2.
  rewrite E1, E2. rewrite !bool_decide_eq_true_2 by (eexists; reflexivity).
  simpl.
  set (cd := col_pos "data" (map (sidra_label nome) (columns resposta))) in *.
  set (cn := col_pos nome (map (sidra_label nome) (columns resposta))) in *.
  clearbody cd cn. subst cd cn. reflexivity.
Qed.

(** C9.  Whatever table SIDRA answers with (its columns [D3C] and [V] at
    any position), the rows whose value is ["Valor"], ["..."] or ["-"] are
    removed before [pd.to_numeric] is applied: the numeric coercion sees the
    other values only, and the result holds exactly the other rows.  For the
    three rows of [sidra_example] the result is the single row of 2020-01
    with the number 100. *)
Theorem coleta_ibge_sidra_placeholders (codigo nome : string) (w : World)
    (resposta : DataFrame) (i j : nat) :
  nome <> "data" -> "data" ∉ columns resposta -> nome ∉ columns resposta ->
  col_pos "D3C" (columns resposta) = Some i ->
  col_pos "V" (columns resposta) = Some j ->
  oracle (length (reads w)) (ReadJson (codigo +:+ "?formato=json")) = Returns resposta ->
  let data := map (cell_at i) (rows resposta) in
  let valor := map (cell_at j) (rows resposta) in
  let mask := map (fun c => negb (is_placeholder c)) valor in
  Forall (fun c => is_placeholder c = false) (select mask valor)
  /\ fst (coleta_ibge_sidra codigo nome w)
     = rbind (to_numeric (select mask valor)) (fun nums =>
         Ok (mkDataFrame ["data"; nome] (select mask (index resposta))
               (zip_with (fun d n => [d; n]) (select mask data) nums)))
  /\ (resposta = sidra_example ->
      fst (coleta_ibge_sidra codigo nome w)
      = Ok (mkDataFrame ["data"; nome] [CInt 0] [[CStr "2020-01"; CInt 100]])).
Proof.
  intros Hn Hd Hv Hi Hj Ho data valor mask.
  split; [apply select_not_placeholder|].
  match goal with |- ?A /\ _ => assert (Hclosed : A) end;
    [| split; [exact Hclosed|];
       intros ->; rewrite Hclosed; subst data valor mask;
       injection Hi as <-; injection Hj as <-; reflexivity].
  unfold coleta_ibge_sidra, try_except_else, bind, print, read, lift. simpl.
  rewrite Ho. simpl. unfold coleta_ibge_sidra_else. cbv zeta.
  fold (sidra_mapper nome). rewrite (sidra_filter nome resposta i j) by assumption.
  assert (Hpos : col_pos nome ["data"; nome] = Some 1%nat).
  { rewrite col_pos_cons_ne by congruence. rewrite col_pos_cons_eq. reflexivity. }
  assert (Hcol : forall rs : list (list cell),
             map (cell_at 1) (map (fun row => [cell_at i row; cell_at j row]) rs)
             = map (cell_at j) rs).
  { intros rs. rewrite map_map. reflexivity. }
  unfold getitem, getitem_mask. simpl columns. simpl rows. rewrite Hpos.
  simpl rbind. rewrite isin_placeholder, Hcol. fold valor. fold mask.
  rewrite (select_map _ mask), Hcol, <- (select_map (cell_at j)). fold valor.
  destruct (to_numeric (select mask valor)) as [nums|e|]; simpl; try reflexivity.
  unfold setitem. simpl columns. rewrite Hpos. simpl. f_equal. f_equal.
  rewrite zip_with_set_second.
  unfold data. rewrite select_map.
  generalize (select mask (rows resposta)). clear. intros rs. revert nums.
  induction rs as [|r rs IH]; intros [|n nums]; simpl; try reflexivity.
  rewrite IH. reflexivity.
Qed.


(** ** The guard of the adapters *)

Lemma ler_csv_loop_all_raise (fuel : nat) (args : request) (t : Z) (w : World) :
  all_reads_raise -> 5 - t <= Z.of_nat fuel ->
  exists w', ler_csv_loop fuel args 5 2 t w = (Ok None, w')
             \/ exists e, ler_csv_loop fuel args 5 2 t w = (Raise e, w').
Proof.
  intros Hall. revert t w. induction fuel as [|fuel IH]; intros t w Hf.
  - rewrite ler_csv_loop_end by lia. eauto.
  - destruct (Z.lt_ge_cases t 5) as [Ht | Ht].
    + destruct (Hall (length (reads w)) args) as [e He].
      destruct (is_Exception e) eqn:Ec.
      * rewrite (ler_csv_loop_fail _ _ _ _ _ _ e) by assumption.
        apply IH. lia.
      * eexists. right. exists e. simpl. apply Z.ltb_lt in Ht. rewrite Ht.
        unfold bind at 1. unfold try_except, bind, read. rewrite He, Ec.
        reflexivity.
    + rewrite ler_csv_loop_end by lia. eauto.
Qed.

Lemma ler_csv_all_raise (args : request) (w : World) :
  all_reads_raise ->
  exists w', ler_csv args w = (Ok None, w')
             \/ exists e, ler_csv args w = (Raise e, w').
Proof.
  intros Hall. unfold ler_csv. apply ler_csv_loop_all_raise; [exact Hall|].
  change (Z.to_nat 5) with 5%nat. lia.
Qed.

Lemma for_append_all_raise {A : Type} (f : A -> request) (xs : list A)
    (ys : list (option DataFrame)) (w : World) :
  all_reads_raise -> omap id ys = [] ->
  exists w', (exists ys', for_append (fun x => ler_csv (f x)) xs ys w = (Ok ys', w')
                          /\ omap id ys' = [])
             \/ exists e, for_append (fun x => ler_csv (f x)) xs ys w = (Raise e, w').
Proof.
  intros Hall. revert ys w. induction xs as [|x xs IH]; intros ys w Hys; simpl.
  - exists w. left. exists ys. split; [reflexivity | exact Hys].
  - unfold bind.
    destruct (ler_csv_all_raise (f x) w Hall) as [w1 [-> | [e ->]]].
    + apply IH. rewrite omap_app, Hys. reflexivity.
    + exists w1. right. exists e. reflexivity.
Qed.

(** C6 (as amended).  The guard of an adapter covers its reads, not what
    follows them.  When the reads of the source raise, whatever the
    exceptions are, the adapters for BCB/SGS, IPEADATA, IBGE/SIDRA and IFI
    raise exactly the error that names the series, and the adapters for
    BCB/ODATA and FRED do so when the exception is one [ler_csv] lets through.
    When the read returns a table, the outcome of the adapter is the outcome
    of its [else] branch on that table, an exception raised there included. *)
Theorem adapters_guard (codigo nome : string) (w : World) :
  (all_reads_raise ->
   fst (coleta_ipeadata codigo nome w) = Raise (falha codigo nome)
   /\ fst (coleta_ibge_sidra codigo nome w) = Raise (falha codigo nome)
   /\ fst (coleta_ifi codigo nome w) = Raise (falha codigo nome)
   /\ (forall freq data_inicio data_fim,
          (String.eqb freq "Diária" = true ->
           exists ws, split_date_range data_inicio data_fim 5 = Ok ws) ->
          fst (coleta_bcb_sgs codigo nome freq data_inicio data_fim w)
          = Raise (falha codigo nome))
   /\ ((forall n req e, oracle n req = Raises e -> is_Exception e = false) ->
       fst (coleta_bcb_odata codigo nome w) = Raise (falha codigo nome)
       /\ fst (coleta_fred codigo nome w) = Raise (falha codigo nome)))
  /\ (forall resposta,
        oracle (length (reads w)) (ReadJson (ipeadata_url codigo)) = Returns resposta ->
        fst (coleta_ipeadata codigo nome w) = coleta_ipeadata_else nome resposta)
  /\ (forall resposta,
        oracle (length (reads w)) (ReadJson (codigo +:+ "?formato=json"))
        = Returns resposta ->
        fst (coleta_ibge_sidra codigo nome w) = coleta_ibge_sidra_else nome resposta)
  /\ (forall resposta,
        oracle (length (reads w))
          (ReadExcel codigo "Hiato do Produto" ["data"; "lim_inf"; nome; "lim_sup"] 2)
        = Returns resposta ->
        fst (coleta_ifi codigo nome w) = Ok resposta)
  /\ (forall resposta,
        oracle (length (reads w)) (ReadCsv codigo "," "," ["Data"]) = Returns resposta ->
        fst (coleta_bcb_odata codigo nome w)
        = Ok (rename (<["Mediana" := nome]> ∅) resposta))
  /\ (forall resposta,
        oracle (length (reads w)) (ReadCsv (fred_url codigo) "," "." ["DATE"])
        = Returns resposta ->
        fst (coleta_fred codigo nome w)
        = Ok (rename (<[codigo := nome]> (<["DATE" := "data"]> ∅)) resposta))
  /\ (forall freq data_inicio data_fim resposta,
        String.eqb freq "Diária" = false ->
        oracle (length (reads w)) (sgs_request codigo (data_inicio, data_fim))
        = Returns resposta ->
        fst (coleta_bcb_sgs codigo nome freq data_inicio data_fim w)
        = rbind (concat [Some resposta]) (coleta_bcb_sgs_else nome)).
Proof.
  split; [intros Hall | repeat split].
  - assert (Hjson : forall req w0, exists e w1, read req w0 = (Raise e, w1)).
    { intros req w0. unfold read. destruct (Hall (length (reads w0)) req) as [e ->].
      eauto. }
    split; [|split; [|split; [|split]]].
    + unfold coleta_ipeadata, try_except_else, bind, print.
      match goal with |- context [read ?r ?w0] =>
        destruct (Hjson r w0) as (e & w1 & ->) end. reflexivity.
    + unfold coleta_ibge_sidra, try_except_else, bind, print.
      match goal with |- context [read ?r ?w0] =>
        destruct (Hjson r w0) as (e & w1 & ->) end. reflexivity.
    + unfold coleta_ifi, try_except_else, bind, print.
      match goal with |- context [read ?r ?w0] =>
        destruct (Hjson r w0) as (e & w1 & ->) end. reflexivity.
    + intros freq data_inicio data_fim Hsplit.
      assert (Hws : exists ws,
                 (if String.eqb freq "Diária"
                  then lift (split_date_range data_inicio data_fim 5)
                  else ret [(data_inicio, data_fim)]) w = (Ok ws, w)).
      { destruct (String.eqb freq "Diária").
        - destruct (Hsplit eq_refl) as [ws Hw]. exists ws. unfold lift. rewrite Hw.
          reflexivity.
        - eexists. reflexivity. }
      destruct Hws as [ws Hws].
      unfold coleta_bcb_sgs. unfold bind at 1. rewrite Hws.
      unfold try_except_else, bind, print.
      match goal with |- context [for_append ?f ws [] ?w0] =>
        destruct (for_append_all_raise (sgs_request codigo) ws [] w0 Hall eq_refl)
          as [w1 [(ys & -> & Hys) | [e ->]]] end.
      * unfold lift, concat. rewrite Hys. reflexivity.
      * reflexivity.
    + intros Hcls.
      assert (Hler : forall args w0, exists e w1, ler_csv args w0 = (Raise e, w1)).
      { intros args w0. unfold ler_csv. change (Z.to_nat 5) with 5%nat. simpl.
        unfold bind at 1. unfold try_except, bind, read.
        destruct (Hall (length (reads w0)) args) as [e He]. rewrite He.
        rewrite (Hcls _ _ _ He). eauto. }
      split.
      * unfold coleta_bcb_odata, try_except_else, bind, print.
        match goal with |- context [ler_csv ?r ?w0] =>
          destruct (Hler r w0) as (e & w1 & ->) end. reflexivity.
      * unfold coleta_fred, try_except_else, bind, print.
        match goal with |- context [ler_csv ?r ?w0] =>
          destruct (Hler r w0) as (e & w1 & ->) end. reflexivity.
  - intros resposta Ho.
    unfold coleta_ipeadata, try_except_else, bind, print, read. simpl.
    rewrite Ho. reflexivity.
  - intros resposta Ho.
    unfold coleta_ibge_sidra, try_except_else, bind, print, read. simpl.
    rewrite Ho. reflexivity.
  - intros resposta Ho.
    unfold coleta_ifi, try_except_else, bind, print, read. simpl.
    rewrite Ho. reflexivity.
  - intros resposta Ho.
    unfold coleta_bcb_odata, try_except_else, bind, print.
    rewrite (ler_csv_first_attempt _ _ resposta) by exact Ho. reflexivity.
  - intros resposta Ho.
    unfold coleta_fred, try_except_else, bind, print.
    rewrite (ler_csv_first_attempt _ _ resposta) by exact Ho. reflexivity.
  - intros freq data_inicio data_fim resposta Hfreq Ho.
    unfold coleta_bcb_sgs. rewrite Hfreq. unfold bind at 1. unfold ret at 1.
    unfold try_except_else, bind, print. simpl for_append. unfold bind.
    rewrite (ler_csv_first_attempt _ _ resposta) by exact Ho.
    unfold ret, lift. simpl app.
    assert (exists df, concat [Some resposta] = Ok df) as [df ->]
      by (unfold concat; simpl; eauto).
    reflexivity.
Qed.

(** ** The rows the script collects *)

Lemma filter_skip {A : Type} (p : A -> bool) (l1 l2 : list A) (x : A) :
  p x = false -> List.filter p (l1 ++ x :: l2) = List.filter p (l1 ++ l2).
Proof. intros H. rewrite !List.filter_app. simpl. rewrite H. reflexivity. Qed.

(** C8 (as amended).  A row that no query of the script selects (its
    source is none of the six, or it is one of the five API sources and the
    row is not marked ["API"]) is not collected: with or without the row the
    run makes the same reads, prints the same lines, and ends with the same
    tables or the same error. *)
Theorem coleta_skips (data_fim : string) (before after : list serie) (ser : serie)
    (w : World) :
  collected ser = false ->
  coleta data_fim (before ++ ser :: after) w = coleta data_fim (before ++ after) w.
Proof.
  unfold collected. simpl existsb. rewrite !orb_false_iff.
  intros ((H1 & H2 & H3 & H4 & H5 & _) & H6).
  unfold coleta, query_api, query_fonte.
  rewrite !(filter_skip _ before after ser) by assumption. reflexivity.
Qed.


(** ** A daily series over thirty years *)

Lemma Chain_windows (k : Z) (e cur : datetime) (ws : list window) (fuel : nat) :
  valid e = true -> 0 < k ->
  Chain k e cur ws -> valid cur = true ->
  toordinal e - toordinal cur <= Z.of_nat fuel ->
  windows fuel k e cur = Ok ws.
Proof.
  intros He Hk Hch. revert fuel.
  induction Hch as [cur Hge | cur c ws Hlt Hc Hr IH]; intros fuel Hv Hf.
  - destruct fuel; simpl; rewrite Hge; reflexivity.
  - pose proof (proj1 (dt_ltb_iff cur e Hv He) Hlt) as Hlt'.
    destruct fuel as [|fuel]; [lia|]. simpl. rewrite Hlt, Hc.
    destruct (candidate_ok k cur c Hv Hk Hc) as [Hvc Hord].
    pose proof (clamp_valid e c He Hvc) as Hcl.
    pose proof (clamp_toordinal e c He Hvc) as Hco.
    rewrite IH; [reflexivity | exact Hcl | lia].
Qed.

Lemma years_after_valid (s : datetime) (n : Z) :
  valid s = true -> valid (years_after 30 s) = true -> 0 <= n <= 30 ->
  valid (years_after n s) = true.
Proof.
  rewrite !valid_iff. unfold years_after. simpl.
  intros (Hy & Hm & Hd) (Hy' & _ & Hd') Hn.
  split; [lia|]. split; [lia|]. split; [lia|].
  unfold days_in_month in *.
  destruct (month s =? 2) eqn:Em; simpl in *; [|lia].
  apply Z.eqb_eq in Em. rewrite Em in *. simpl DAYS_IN_MONTH in *.
  revert Hd Hd'.
  destruct (is_leap (year s)) eqn:E1, (is_leap (year s + 30)) eqn:E2,
    (is_leap (year s + n)); try lia.
  (* the 29th of February cannot exist both in a year and thirty years later *)
  exfalso. apply is_leap_true in E1, E2.
  Z.to_euclidean_division_equations. lia.
Qed.


Lemma years_after_0 (s : datetime) : years_after 0 s = s.
Proof. destruct s as [y m d]. unfold years_after. simpl. rewrite Z.add_0_r. reflexivity. Qed.

Lemma candidate_years_after (s : datetime) (n : Z) :
  valid (years_after (n + 5) s) = true ->
  candidate 5 (years_after n s) = Ok (years_after (n + 5) s).
Proof.
  intros Hv. unfold candidate, replace_year, years_after in *. simpl.
  unfold valid in Hv. simpl in Hv. rewrite <- Z.add_assoc, Hv. reflexivity.
Qed.

Lemma Chain_years_step (s : datetime) (n : Z) (ws : list window) :
  n + 5 <= 30 ->
  valid (years_after (n + 5) s) = true ->
  Chain 5 (years_after 30 s) (years_after (n + 5) s) ws ->
  Chain 5 (years_after 30 s) (years_after n s)
    ((years_after n s, years_after (n + 5) s) :: ws).
Proof.
  intros Hn Hv Hch.
  assert (Hcl : clamp (years_after 30 s) (years_after (n + 5) s)
                = years_after (n + 5) s).
  { unfold clamp, dt_ltb, years_after. simpl.
    assert ((year s + 30 <? year s + (n + 5)) = false) as -> by (apply Z.ltb_ge; lia).
    rewrite !Z.ltb_irrefl, !andb_false_r. reflexivity. }
  replace ((years_after n s, years_after (n + 5) s) :: ws)
    with ((years_after n s,
           clamp (years_after 30 s) (years_after (n + 5) s)) :: ws)
    by (rewrite Hcl; reflexivity).
  apply Chain_step.
  - unfold dt_ltb, years_after. simpl.
    assert ((year s + n <? year s + 30) = true) as -> by (apply Z.ltb_lt; lia).
    reflexivity.
  - apply candidate_years_after. exact Hv.
  - rewrite Hcl. exact Hch.
Qed.

Lemma Chain_thirty_years (s : datetime) :
  valid s = true -> valid (years_after 30 s) = true ->
  Chain 5 (years_after 30 s) (years_after 0 s) (thirty_years s).
Proof.
  intros Hs He.
  pose proof (fun n H => years_after_valid s n Hs He H) as Hv.
  unfold thirty_years. simpl map.
  apply (Chain_years_step s 0); [lia | apply Hv; lia |].
  apply (Chain_years_step s 5); [lia | apply Hv; lia |].
  apply (Chain_years_step s 10); [lia | apply Hv; lia |].
  apply (Chain_years_step s 15); [lia | apply Hv; lia |].
  apply (Chain_years_step s 20); [lia | apply Hv; lia |].
  apply (Chain_years_step s 25); [lia | apply Hv; lia |].
  apply Chain_done. apply dt_ltb_irrefl.
Qed.

(** Over thirty years the splitter returns six windows of five years. *)
Lemma split_date_range_thirty_years (s : datetime) :
  valid s = true -> valid (years_after 30 s) = true ->
  split_date_range (strftime s) (strftime (years_after 30 s)) 5
  = Ok (map fmt_window (thirty_years s)).
Proof.
  intros Hs He. rewrite split_date_range_dates by assumption.
  rewrite (Chain_windows 5 (years_after 30 s) s (thirty_years s));
    [reflexivity | exact He | lia | | exact Hs | unfold split_fuel; lia].
  pose proof (Chain_thirty_years s Hs He) as Hch.
  rewrite years_after_0 in Hch. exact Hch.
Qed.


(** *** Fetching the windows *)

Lemma sgs_fetch_all (codigo : string) (valor : datetime -> cell)
    (ws : list window) (ys : list (option DataFrame)) (w : World) :
  (forall (j : nat) win, ws !! j = Some win ->
     oracle (length (reads w) + j) (sgs_request codigo (fmt_window win))
     = Returns (daily_frame valor win)) ->
  for_append (fun d => ler_csv (sgs_request codigo d)) (map fmt_window ws) ys w
  = (Ok (ys ++ map (fun win => Some (daily_frame valor win)) ws),
     mkWorld (reads w ++ map (fun win => sgs_request codigo (fmt_window win)) ws)
       (stdout w) (slept w)).
Proof.
  revert ys w. induction ws as [|win ws IH]; intros ys w Ho; simpl.
  - rewrite !app_nil_r. destruct w; reflexivity.
  - unfold bind.
    rewrite (ler_csv_first_attempt _ w (daily_frame valor win)).
    + rewrite IH.
      * simpl. rewrite <- !app_assoc. reflexivity.
      * intros j win' Hj. simpl. rewrite length_app. simpl.
        replace (length (reads w) + 1 + j)%nat with (length (reads w) + S j)%nat by lia.
        apply Ho. exact Hj.
    + specialize (Ho O win eq_refl). rewrite Nat.add_0_r in Ho. exact Ho.
Qed.

Lemma omap_id_Some {A B : Type} (f : A -> B) (xs : list A) :
  omap id (map (fun x => Some (f x)) xs) = map f xs.
Proof. induction xs as [|x xs IH]; simpl; [reflexivity|]. f_equal. exact IH. Qed.

Lemma union_cols_daily (valor : datetime -> cell) (ws : list window) :
  foldl (fun acc df => union_cols acc (columns df)) ["data"; "valor"]
    (map (daily_frame valor) ws)
  = ["data"; "valor"].
Proof. induction ws as [|win ws IH]; simpl; [reflexivity | exact IH]. Qed.

Lemma reindex_daily (valor : datetime -> cell) (win : window) :
  reindex_columns ["data"; "valor"] (daily_frame valor win)
  = map (daily_row valor) (days_between (fst win) (snd win)).
Proof.
  unfold reindex_columns, daily_frame. simpl. rewrite map_map. reflexivity.
Qed.

Lemma concat_daily (valor : datetime -> cell) (ws : list window) :
  ws <> [] ->
  exists idx,
    concat (map (fun win => Some (daily_frame valor win)) ws)
    = Ok (mkDataFrame ["data"; "valor"] idx (map (daily_row valor) (stitched ws))).
Proof.
  intros Hne. unfold concat. rewrite omap_id_Some.
  destruct ws as [|win ws]; [contradiction|].
  eexists. simpl map at 1.
  cbv beta iota. f_equal. f_equal.
  - simpl foldl. apply union_cols_daily.
  - change (foldl (fun acc df => union_cols acc (columns df)) []
              (daily_frame valor win :: map (daily_frame valor) ws))
      with (foldl (fun acc df => union_cols acc (columns df)) ["data"; "valor"]
              (map (daily_frame valor) ws)).
    rewrite union_cols_daily.
    change (daily_frame valor win :: map (daily_frame valor) ws)
      with (map (daily_frame valor) (win :: ws)).
    generalize (win :: ws). clear. intros ws. unfold stitched.
    induction ws as [|win ws IH]; [reflexivity|].
    simpl. rewrite map_app. rewrite <- IH. f_equal.
    apply reindex_daily.
Qed.


(** *** Normalizing the table *)

Lemma days_between_valid (a b : datetime) :
  valid a = true -> valid b = true ->
  Forall (fun d => valid d = true) (days_between a b).
Proof.
  intros Ha Hb. unfold days_between. apply Forall_map, Forall_forall.
  intros o Ho. apply elem_of_seqZ in Ho.
  pose proof (toordinal_range a Ha). pose proof (toordinal_range b Hb).
  destruct (ord2ymd_spec o) as [Hv _]; [lia | exact Hv].
Qed.

Lemma stitched_valid (ws : list window) :
  Forall (fun win => valid (fst win) = true /\ valid (snd win) = true) ws ->
  Forall (fun d => valid d = true) (stitched ws).
Proof.
  unfold stitched. induction 1 as [|win ws [Ha Hb] Hws IH]; simpl; [constructor|].
  apply Forall_app. split; [apply days_between_valid; assumption | exact IH].
Qed.

Lemma to_datetime_strftime (valor : datetime -> cell) (days : list datetime) :
  Forall (fun d => valid d = true) days ->
  to_datetime (map (cell_at 0) (map (daily_row valor) days)) = Ok (map CDate days).
Proof.
  unfold to_datetime. induction 1 as [|d days Hd Hds IH]; simpl; [reflexivity|].
  rewrite (strptime_strftime d Hd). simpl. rewrite IH. reflexivity.
Qed.

Lemma sgs_normalize (nome : string) (valor : datetime -> cell) (idx : list cell)
    (days : list datetime) :
  Forall (fun d => valid d = true) days ->
  coleta_bcb_sgs_else nome
    (mkDataFrame ["data"; "valor"] idx (map (daily_row valor) days))
  = Ok (mkDataFrame [nome] (map CDate days) (map (fun d => [valor d]) days)).
Proof.
  intros Hv. unfold coleta_bcb_sgs_else. cbv zeta. unfold rename. simpl columns. simpl index. simpl rows.
  assert (Hcols : map (fun c : string => default c ((<["valor" := nome]> ∅ : gmap string string) !! c))
                    ["data"; "valor"] = ["data"; nome]).
  { simpl. rewrite lookup_insert_ne by discriminate.
    rewrite lookup_empty, lookup_insert_eq. reflexivity. }
  rewrite Hcols. unfold getattr. simpl columns. rewrite col_pos_cons_eq.
  simpl rows. simpl rbind.
  rewrite (to_datetime_strftime valor days Hv). simpl rbind.
  unfold setitem, set_index. simpl columns. rewrite col_pos_cons_eq.
  simpl. f_equal. f_equal.
  - clear. induction days as [|d days IH]; [reflexivity|]. simpl. rewrite IH.
    reflexivity.
  - clear. induction days as [|d days IH]; [reflexivity|]. simpl. rewrite IH.
    reflexivity.
Qed.

(** *** Counting the days *)

Lemma count_occ_seqZ (d : datetime) (n : nat) (lo : Z) :
  valid d = true -> 1 <= lo -> lo + Z.of_nat n - 1 <= MAXORDINAL ->
  count_occ datetime_eq_dec (map ord2ymd (seqZ lo (Z.of_nat n))) d
  = if bool_decide (lo <= toordinal d < lo + Z.of_nat n) then 1%nat else 0%nat.
Proof.
  intros Hd. revert lo. induction n as [|n IH]; intros lo Hlo Hhi.
  - simpl. rewrite bool_decide_eq_false_2 by lia. reflexivity.
  - rewrite seqZ_cons by lia. simpl map.
    replace (Z.pred (Z.of_nat (S n))) with (Z.of_nat n) by lia.
    destruct (ord2ymd_spec lo) as [Hv Ho]; [lia|].
    simpl count_occ. rewrite IH by lia.
    destruct (datetime_eq_dec (ord2ymd lo) d) as [E | E].
    + assert (toordinal d = lo) by (rewrite <- E; exact Ho).
      rewrite bool_decide_eq_false_2 by lia.
      rewrite bool_decide_eq_true_2 by lia. reflexivity.
    + assert (toordinal d <> lo).
      { intros Heq. apply E. apply toordinal_inj; [exact Hv | exact Hd | lia]. }
      destruct (bool_decide (Z.succ lo <= toordinal d < Z.succ lo + Z.of_nat n)) eqn:B.
      * apply bool_decide_eq_true in B. rewrite bool_decide_eq_true_2 by lia.
        reflexivity.
      * apply bool_decide_eq_false in B. rewrite bool_decide_eq_false_2 by lia.
        reflexivity.
Qed.

Lemma count_occ_days_between (a b d : datetime) :
  valid a = true -> valid b = true -> valid d = true ->
  count_occ datetime_eq_dec (days_between a b) d
  = if bool_decide (toordinal a <= toordinal d <= toordinal b) then 1%nat else 0%nat.
Proof.
  intros Ha Hb Hd. unfold days_between.
  pose proof (toordinal_range a Ha). pose proof (toordinal_range b Hb).
  destruct (Z.le_gt_cases (toordinal a) (toordinal b)) as [Hle | Hgt].
  - replace (toordinal b - toordinal a + 1)
      with (Z.of_nat (Z.to_nat (toordinal b - toordinal a + 1))) by lia.
    rewrite count_occ_seqZ by (try assumption; lia).
    destruct (bool_decide (toordinal a <= toordinal d <= toordinal b)) eqn:B.
    + apply bool_decide_eq_true in B. rewrite bool_decide_eq_true_2 by lia.
      reflexivity.
    + apply bool_decide_eq_false in B. rewrite bool_decide_eq_false_2 by lia.
      reflexivity.
  - rewrite bool_decide_eq_false_2 by lia.
    unfold seqZ. replace (Z.to_nat (toordinal b - toordinal a + 1)) with 0%nat by lia.
    reflexivity.
Qed.


(** *** The adapter over the windows *)

Lemma coleta_bcb_sgs_daily (codigo nome data_inicio data_fim : string)
    (valor : datetime -> cell) (ws : list window) (w : World) :
  ws <> [] ->
  Forall (fun win => valid (fst win) = true /\ valid (snd win) = true) ws ->
  split_date_range data_inicio data_fim 5 = Ok (map fmt_window ws) ->
  (forall (j : nat) win, ws !! j = Some win ->
     oracle (length (reads w) + j) (sgs_request codigo (fmt_window win))
     = Returns (daily_frame valor win)) ->
  coleta_bcb_sgs codigo nome "Diária" data_inicio data_fim w
  = (Ok (mkDataFrame [nome] (map CDate (stitched ws))
           (map (fun d => [valor d]) (stitched ws))),
     mkWorld (reads w ++ map (fun win => sgs_request codigo (fmt_window win)) ws)
       (stdout w ++ [Coletando codigo nome]) (slept w)).
Proof.
  intros Hne Hval Hsplit Ho.
  unfold coleta_bcb_sgs. rewrite String.eqb_refl, Hsplit.
  unfold bind at 1. unfold lift at 1.
  unfold try_except_else. unfold bind at 1. unfold print at 1.
  unfold bind at 1.
  rewrite (sgs_fetch_all codigo valor ws []) by exact Ho.
  simpl app. unfold lift at 1.
  destruct (concat_daily valor ws Hne) as [idx ->].
  unfold lift. rewrite (sgs_normalize nome valor idx (stitched ws));
    [reflexivity | apply stitched_valid; exact Hval].
Qed.

Lemma thirty_years_valid (s : datetime) :
  valid s = true -> valid (years_after 30 s) = true ->
  Forall (fun win => valid (fst win) = true /\ valid (snd win) = true)
    (thirty_years s).
Proof.
  intros Hs He.
  pose proof (fun n H => years_after_valid s n Hs He H) as Hv.
  unfold thirty_years. simpl.
  repeat (constructor; [split; apply Hv; lia|]). constructor.
Qed.

Lemma years_after_lt (s : datetime) (n m : Z) :
  valid (years_after n s) = true -> valid (years_after m s) = true -> n < m ->
  toordinal (years_after n s) < toordinal (years_after m s).
Proof.
  intros Hn Hm Hlt. apply dt_ltb_toordinal; try assumption.
  unfold dt_ltb, years_after. simpl.
  assert ((year s + n <? year s + m) = true) as -> by (apply Z.ltb_lt; lia).
  reflexivity.
Qed.

Lemma count_thirty_years (s d : datetime) :
  valid s = true -> valid (years_after 30 s) = true -> valid d = true ->
  count_occ datetime_eq_dec (stitched (thirty_years s)) d
  = (Nat.b2n (within s (years_after 30 s) d)
     + Nat.b2n (bool_decide (d ∈ boundaries s)))%nat.
Proof.
  intros Hs He Hd.
  pose proof (fun n H => years_after_valid s n Hs He H) as Hv.
  assert (H0 : valid (years_after 0 s) = true) by (apply Hv; lia).
  assert (H5 : valid (years_after 5 s) = true) by (apply Hv; lia).
  assert (H10 : valid (years_after 10 s) = true) by (apply Hv; lia).
  assert (H15 : valid (years_after 15 s) = true) by (apply Hv; lia).
  assert (H20 : valid (years_after 20 s) = true) by (apply Hv; lia).
  assert (H25 : valid (years_after 25 s) = true) by (apply Hv; lia).
  pose proof (years_after_lt s 0 5 H0 H5 ltac:(lia)) as L0.
  pose proof (years_after_lt s 5 10 H5 H10 ltac:(lia)) as L1.
  pose proof (years_after_lt s 10 15 H10 H15 ltac:(lia)) as L2.
  pose proof (years_after_lt s 15 20 H15 H20 ltac:(lia)) as L3.
  pose proof (years_after_lt s 20 25 H20 H25 ltac:(lia)) as L4.
  pose proof (years_after_lt s 25 30 H25 He ltac:(lia)) as L5.
  assert (Hin : d ∈ boundaries s <->
                toordinal d = toordinal (years_after 5 s)
                \/ toordinal d = toordinal (years_after 10 s)
                \/ toordinal d = toordinal (years_after 15 s)
                \/ toordinal d = toordinal (years_after 20 s)
                \/ toordinal d = toordinal (years_after 25 s)).
  { unfold boundaries. simpl map. rewrite !elem_of_cons, elem_of_nil. split.
    - intros [-> | [-> | [-> | [-> | [-> | []]]]]]; auto.
    - intros [H | [H | [H | [H | H]]]]; apply toordinal_inj in H; auto 10. }
  change (thirty_years s)
    with [(years_after 0 s, years_after 5 s); (years_after 5 s, years_after 10 s);
          (years_after 10 s, years_after 15 s); (years_after 15 s, years_after 20 s);
          (years_after 20 s, years_after 25 s); (years_after 25 s, years_after 30 s)].
  unfold stitched. simpl flat_map. rewrite app_nil_r.
  rewrite !count_occ_app. rewrite !count_occ_days_between by assumption.
  rewrite years_after_0 in *. unfold within.
  destruct (toordinal s <=? toordinal d) eqn:W1;
    [apply Z.leb_le in W1 | apply Z.leb_gt in W1].
  all: destruct (toordinal d <=? toordinal (years_after 30 s)) eqn:W2;
    [apply Z.leb_le in W2 | apply Z.leb_gt in W2].
  all: destruct (bool_decide (d ∈ boundaries s)) eqn:B;
    [apply bool_decide_eq_true in B | apply bool_decide_eq_false in B].
  all: rewrite Hin in B.
  all: repeat match goal with
           | |- context [bool_decide ?P] =>
               let E := fresh in
               destruct (bool_decide P) eqn:E;
               [apply bool_decide_eq_true in E | apply bool_decide_eq_false in E]
           end; simpl; lia.
Qed.

Lemma sgs_thirty_years_run (codigo nome : string)
    (valor : datetime -> cell) (s : datetime) (w : World) :
  valid s = true -> valid (years_after 30 s) = true ->
  (forall (j : nat) win, thirty_years s !! j = Some win ->
     oracle (length (reads w) + j) (sgs_request codigo (fmt_window win))
     = Returns (daily_frame valor win)) ->
  exists df w',
    coleta_bcb_sgs codigo nome "Diária" (strftime s) (strftime (years_after 30 s)) w
    = (Ok df, w')
    /\ reads w'
       = reads w ++ map (fun win => sgs_request codigo (fmt_window win)) (thirty_years s)
    /\ exists days,
         index df = map CDate days
         /\ forall d, valid d = true ->
              count_occ datetime_eq_dec days d
              = (Nat.b2n (within s (years_after 30 s) d)
                 + Nat.b2n (bool_decide (d ∈ boundaries s)))%nat.
Proof.
  intros Hs He Ho.
  rewrite (coleta_bcb_sgs_daily codigo nome _ _ valor (thirty_years s) w);
    [ | discriminate | apply thirty_years_valid; assumption
      | apply split_date_range_thirty_years; assumption | exact Ho ].
  eexists _, _. split; [reflexivity|]. split; [reflexivity|].
  exists (stitched (thirty_years s)). split; [reflexivity|].
  intros d Hd. apply count_thirty_years; assumption.
Qed.



(** ** More on [split_date_range] *)

Lemma split_date_range_Chain (start_date_str end_date_str : string)
    (s e : datetime) (k : Z) (ws : list (string * string)) :
  strptime start_date_str = Ok s -> strptime end_date_str = Ok e ->
  split_date_range start_date_str end_date_str k = Ok ws ->
  exists ws', ws = map fmt_window ws' /\ Chain k e s ws'.
Proof.
  intros Hs He. rewrite (split_date_range_parsed _ _ s e k Hs He).
  destruct (windows (split_fuel s e) k e s) as [ws'|x|] eqn:Ew; simpl;
    try discriminate.
  intros [= <-]. exists ws'. split; [reflexivity|]. eapply windows_Chain. exact Ew.
Qed.

Lemma Chain_within (k : Z) (e cur : datetime) (ws : list window) :
  valid e = true -> 0 < k -> Chain k e cur ws -> valid cur = true ->
  Forall (fun w => valid (fst w) = true /\ valid (snd w) = true
                   /\ toordinal cur <= toordinal (fst w)
                   /\ toordinal (fst w) < toordinal (snd w)
                   /\ toordinal (snd w) <= toordinal e) ws.
Proof.
  intros He Hk. induction 1 as [|cur c ws Hlt Hc Hr IH]; intros Hv; constructor.
  - destruct (candidate_ok k cur c Hv Hk Hc) as [Hvc Hord].
    pose proof (clamp_valid e c He Hvc) as Hcl.
    pose proof (clamp_toordinal e c He Hvc) as Hco.
    pose proof (proj1 (dt_ltb_iff cur e Hv He) Hlt) as Hlt'.
    simpl. repeat split; try assumption; lia.
  - destruct (candidate_ok k cur c Hv Hk Hc) as [Hvc Hord].
    pose proof (clamp_valid e c He Hvc) as Hcl.
    pose proof (clamp_toordinal e c He Hvc) as Hco.
    pose proof (proj1 (dt_ltb_iff cur e Hv He) Hlt) as Hlt'.
    eapply Forall_impl; [apply IH; exact Hcl|].
    intros w (H1 & H2 & H3 & H4 & H5). repeat split; try assumption; lia.
Qed.

(** X1.  Every window that is returned lies inside the span asked for and
    is not empty: start <= window start < window end <= end. *)
Theorem split_date_range_within (start_date_str end_date_str : string)
    (s e : datetime) (k : Z) (ws : list (string * string)) :
  strptime start_date_str = Ok s -> strptime end_date_str = Ok e -> 0 < k ->
  split_date_range start_date_str end_date_str k = Ok ws ->
  Forall (str_window_within s e) ws.
Proof.
  intros Hps Hpe Hk Hsplit.
  pose proof (strptime_valid _ _ Hps) as Hs. pose proof (strptime_valid _ _ Hpe) as He.
  destruct (split_date_range_Chain _ _ s e k ws Hps Hpe Hsplit) as (ws' & -> & Hch).
  apply Forall_map. eapply Forall_impl; [exact (Chain_within k e s ws' He Hk Hch Hs)|].
  intros [a b] (H1 & H2 & H3 & H4 & H5). exists a, b. simpl in *. auto 10.
Qed.

Lemma split_date_range_within_witness :
  Forall (str_window_within (mkdatetime 2000 1 1) (mkdatetime 2012 6 30))
    [("01/01/2000", "01/01/2005"); ("01/01/2005", "01/01/2010");
     ("01/01/2010", "30/06/2012")].
Proof.
  apply (split_date_range_within "01/01/2000" "30/06/2012" _ _ 5);
    [reflexivity | reflexivity | lia | vm_compute; reflexivity].
Defined.

Lemma windows_single (k : Z) (s e c : datetime) (fuel : nat) :
  dt_ltb s e = true -> candidate k s = Ok c -> clamp e c = e ->
  windows (S fuel) k e s = Ok [(s, e)].
Proof.
  intros Hlt Hc Hcl. simpl. rewrite Hlt, Hc, Hcl.
  destruct fuel; simpl; rewrite dt_ltb_irrefl; reflexivity.
Qed.

Lemma split_fuel_pos (s e : datetime) :
  valid s = true -> valid e = true -> dt_ltb s e = true ->
  exists fuel, split_fuel s e = S fuel.
Proof.
  intros Hs He Hlt. apply dt_ltb_toordinal in Hlt; try assumption.
  unfold split_fuel. exists (Z.to_nat (toordinal e - toordinal s) - 1)%nat. lia.
Qed.

(** X2.  A span that the first step covers is not split: when the end the
    loop computes for the first window is not before [end_date], the result
    is the single window from start to end. *)
Theorem split_date_range_single (start_date_str end_date_str : string)
    (s e c : datetime) (k : Z) :
  strptime start_date_str = Ok s -> strptime end_date_str = Ok e ->
  dt_ltb s e = true -> candidate k s = Ok c -> dt_ltb c e = false ->
  split_date_range start_date_str end_date_str k = Ok [(strftime s, strftime e)].
Proof.
  intros Hps Hpe Hlt Hc Hce.
  pose proof (strptime_valid _ _ Hps) as Hs. pose proof (strptime_valid _ _ Hpe) as He.
  rewrite (split_date_range_parsed _ _ s e k Hps Hpe).
  destruct (split_fuel_pos s e Hs He Hlt) as [fuel ->].
  rewrite (windows_single k s e c fuel Hlt Hc); [reflexivity|].
  unfold clamp. destruct (dt_ltb e c) eqn:E; [reflexivity|].
  destruct (dt_trichotomy c e) as [H | [H | H]]; congruence.
Qed.

Lemma split_date_range_single_witness :
  split_date_range "15/03/2021" "15/03/2026" 5 = Ok [("15/03/2021", "15/03/2026")].
Proof.
  apply (split_date_range_single _ _ (mkdatetime 2021 3 15) (mkdatetime 2026 3 15)
           (mkdatetime 2026 3 15)); reflexivity.
Defined.

Lemma clamp_idem (e c : datetime) : clamp (clamp e c) c = clamp e c.
Proof.
  unfold clamp. destruct (dt_ltb e c) eqn:E; [rewrite E; reflexivity|].
  rewrite dt_ltb_irrefl. reflexivity.
Qed.

Lemma Chain_stable (k : Z) (e cur : datetime) (ws : list window) :
  valid e = true -> 0 < k -> Chain k e cur ws -> valid cur = true ->
  Forall (fun w => split_date_range (strftime (fst w)) (strftime (snd w)) k
                   = Ok [fmt_window w]) ws.
Proof.
  intros He Hk. induction 1 as [|cur c ws Hlt Hc Hr IH]; intros Hv; constructor.
  - destruct (candidate_ok k cur c Hv Hk Hc) as [Hvc Hord].
    pose proof (clamp_valid e c He Hvc) as Hcl.
    pose proof (clamp_toordinal e c He Hvc) as Hco.
    pose proof (proj1 (dt_ltb_iff cur e Hv He) Hlt) as Hlt'.
    assert (Hlt2 : dt_ltb cur (clamp e c) = true)
      by (apply dt_ltb_iff; [assumption | assumption | lia]).
    simpl fst; simpl snd. rewrite split_date_range_dates by assumption.
    destruct (split_fuel_pos cur (clamp e c) Hv Hcl Hlt2) as [fuel ->].
    rewrite (windows_single k cur (clamp e c) c fuel Hlt2 Hc (clamp_idem e c)).
    reflexivity.
  - apply IH. destruct (candidate_ok k cur c Hv Hk Hc) as [Hvc _].
    apply clamp_valid; assumption.
Qed.

(** X3.  A window that was returned is not split again: for a span that
    starts in the year 1000 or later, so that every date returned is printed
    with a year of four digits, asking for the windows of one of them, with
    the same number of years, gives that window alone. *)
Theorem split_date_range_stable (start_date_str end_date_str : string)
    (s e : datetime) (k : Z) (ws : list (string * string)) :
  strptime start_date_str = Ok s -> strptime end_date_str = Ok e -> 0 < k ->
  1000 <= year s ->
  split_date_range start_date_str end_date_str k = Ok ws ->
  Forall (fun w => split_date_range (fst w) (snd w) k = Ok [w]) ws.
Proof.
  intros Hps Hpe Hk _ Hsplit.
  pose proof (strptime_valid _ _ Hps) as Hs. pose proof (strptime_valid _ _ Hpe) as He.
  destruct (split_date_range_Chain _ _ s e k ws Hps Hpe Hsplit) as (ws' & -> & Hch).
  apply Forall_map. exact (Chain_stable k e s ws' He Hk Hch Hs).
Qed.

Lemma split_date_range_stable_witness :
  Forall (fun w => split_date_range (fst w) (snd w) 1 = Ok [w])
    [("29/02/2016", "28/02/2017"); ("28/02/2017", "30/06/2017")].
Proof.
  apply (split_date_range_stable "29/02/2016" "30/06/2017"
           (mkdatetime 2016 2 29) (mkdatetime 2017 6 30) 1);
    [reflexivity | reflexivity | lia | simpl; lia | vm_compute; reflexivity].
Defined.

(** X4.  Resuming at a boundary: for a span that starts in the year 1000
    or later, so that the boundary is printed with a year of four digits, the
    windows that follow the first one are the windows of the span that starts
    where the first one ends. *)
Theorem split_date_range_resume (start_date_str end_date_str : string)
    (s e : datetime) (k : Z) (w : string * string) (ws : list (string * string)) :
  strptime start_date_str = Ok s -> strptime end_date_str = Ok e -> 0 < k ->
  1000 <= year s ->
  split_date_range start_date_str end_date_str k = Ok (w :: ws) ->
  split_date_range (snd w) end_date_str k = Ok ws.
Proof.
  intros Hps Hpe Hk _ Hsplit.
  pose proof (strptime_valid _ _ Hps) as Hs. pose proof (strptime_valid _ _ Hpe) as He.
  destruct (split_date_range_Chain _ _ s e k _ Hps Hpe Hsplit) as (ws' & Heq & Hch).
  destruct Hch as [|cur c ws'' Hlt Hc Hr]; [discriminate|].
  injection Heq as -> ->. simpl snd.
  destruct (candidate_ok k cur c Hs Hk Hc) as [Hvc _].
  pose proof (clamp_valid e c He Hvc) as Hcl.
  rewrite (split_date_range_parsed _ _ (clamp e c) e k
             (strptime_strftime _ Hcl) Hpe).
  rewrite (Chain_windows k e (clamp e c) ws''); try assumption; [reflexivity|].
  unfold split_fuel. lia.
Qed.

Lemma split_date_range_resume_witness :
  split_date_range "01/01/2005" "30/06/2012" 5
  = Ok [("01/01/2005", "01/01/2010"); ("01/01/2010", "30/06/2012")].
Proof.
  apply (split_date_range_resume "01/01/2000" "30/06/2012"
           (mkdatetime 2000 1 1) (mkdatetime 2012 6 30) 5
           ("01/01/2000", "01/01/2005"));
    [reflexivity | reflexivity | lia | simpl; lia | vm_compute; reflexivity].
Defined.


Lemma days_before_year_add_le (y d : Z) :
  0 <= d -> days_before_year (y + d) <= days_before_year y + 366 * d.
Proof.
  intros Hd. revert d Hd.
  apply (natlike_ind (fun d => days_before_year (y + d) <= days_before_year y + 366 * d)).
  - replace (y + 0) with y by lia. lia.
  - intros x Hx IH. replace (y + Z.succ x) with (y + x + 1) by lia.
    rewrite days_before_year_succ. destruct (is_leap (y + x)); lia.
Qed.

(** A step of the loop advances by [k] years at least and at most, counted
    in days. *)
Lemma candidate_span (k : Z) (cur c : datetime) :
  valid cur = true -> 0 < k -> candidate k cur = Ok c ->
  toordinal cur + 365 * k <= toordinal c <= toordinal cur + 366 * k.
Proof.
  intros Hv Hk. unfold candidate.
  destruct (replace_year_cases cur (year cur + k)) as [(t & -> & Ht & Hy & Hm & Hd) | ->].
  - intros [= <-]. unfold toordinal, ymd2ord, days_before_month.
    rewrite Hy, Hm, Hd.
    pose proof (days_before_year_succ (year cur)) as H1.
    pose proof (days_before_year_succ (year cur + k)) as H2.
    pose proof (days_before_year_mono (year cur + 1) (year cur + k)) as H3.
    pose proof (days_before_year_add_le (year cur) k) as H4.
    pose proof (days_before_year_add_le (year cur + 1) k) as H5.
    replace (year cur + 1 + k) with (year cur + k + 1) in H5 by lia.
    destruct (2 <? month cur), (is_leap (year cur)), (is_leap (year cur + k));
      simpl; lia.
  - unfold timedelta_days, dt_add.
    destruct (Z.abs (365 * k) <=? 999999999); simpl; [|discriminate].
    destruct ((0 <? toordinal cur + 365 * k)
              && (toordinal cur + 365 * k <=? MAXORDINAL)) eqn:E; [|discriminate].
    intros [= <-]. apply andb_true_iff in E. rewrite Z.ltb_lt, Z.leb_le in E.
    destruct (ord2ymd_spec (toordinal cur + 365 * k)) as [H1 H2]; [lia|]. lia.
Qed.

Lemma Chain_count (k : Z) (e cur : datetime) (ws : list window) :
  valid e = true -> 0 < k -> Chain k e cur ws -> valid cur = true ->
  toordinal cur <= toordinal e ->
  365 * k * (Z.of_nat (length ws) - 1) <= toordinal e - toordinal cur
  /\ toordinal e - toordinal cur <= 366 * k * Z.of_nat (length ws).
Proof.
  intros He Hk. induction 1 as [cur Hge|cur c ws Hlt Hc Hr IH]; intros Hv Hle.
  - apply dt_ltb_false_iff in Hge; try assumption. simpl. lia.
  - destruct (candidate_ok k cur c Hv Hk Hc) as [Hvc _].
    pose proof (candidate_span k cur c Hv Hk Hc) as Hsp.
    pose proof (clamp_valid e c He Hvc) as Hcl.
    pose proof (clamp_toordinal e c He Hvc) as Hco.
    specialize (IH Hcl ltac:(lia)).
    change (length ((cur, clamp e c) :: ws)) with (S (length ws)).
    rewrite Nat2Z.inj_succ.
    inversion Hr as [cur' Hge|cur' c' ws' Hlt' Hc' Hr']; subst.
    + simpl in *. lia.
    + apply dt_ltb_iff in Hlt'; try assumption.
      set (n := Z.of_nat (length ((clamp e c, clamp e c') :: ws'))) in *.
      clearbody n. nia.
Qed.

(** X5.  The number of windows, which is the number of requests a daily
    series costs, follows from the length of the span: with [n] windows over
    [d] days, [365 * k * (n - 1) <= d <= 366 * k * n]. *)
Theorem split_date_range_count (start_date_str end_date_str : string)
    (s e : datetime) (k : Z) (ws : list (string * string)) :
  strptime start_date_str = Ok s -> strptime end_date_str = Ok e ->
  dt_ltb s e = true -> 0 < k ->
  split_date_range start_date_str end_date_str k = Ok ws ->
  365 * k * (Z.of_nat (length ws) - 1) <= toordinal e - toordinal s
  /\ toordinal e - toordinal s <= 366 * k * Z.of_nat (length ws).
Proof.
  intros Hps Hpe Hlt Hk Hsplit.
  pose proof (strptime_valid _ _ Hps) as Hs. pose proof (strptime_valid _ _ Hpe) as He.
  destruct (split_date_range_Chain _ _ s e k ws Hps Hpe Hsplit) as (ws' & -> & Hch).
  rewrite length_map. apply (Chain_count k e s ws' He Hk Hch Hs).
  apply dt_ltb_iff in Hlt; try assumption. lia.
Qed.

Lemma split_date_range_count_witness :
  365 * 5 * (Z.of_nat 3 - 1)
  <= toordinal (mkdatetime 2012 6 30) - toordinal (mkdatetime 2000 1 1)
  /\ toordinal (mkdatetime 2012 6 30) - toordinal (mkdatetime 2000 1 1)
     <= 366 * 5 * Z.of_nat 3.
Proof.
  apply (split_date_range_count "01/01/2000" "30/06/2012" _ _ 5
           [("01/01/2000", "01/01/2005"); ("01/01/2005", "01/01/2010");
            ("01/01/2010", "30/06/2012")]);
    [reflexivity | reflexivity | reflexivity | lia | vm_compute; reflexivity].
Defined.

Lemma candidate_only_overflow (k : Z) (cur : datetime) (x : exn) :
  candidate k cur = Raise x -> x = OverflowError.
Proof.
  unfold candidate, replace_year, timedelta_days, dt_add.
  destruct (check_date_fields _ _ _); [discriminate|].
  destruct (_ <=? _); simpl; [|congruence].
  destruct (_ && _); [discriminate | congruence].
Qed.

Lemma windows_only_overflow (fuel : nat) (k : Z) (e cur : datetime) (x : exn) :
  windows fuel k e cur = Raise x -> x = OverflowError.
Proof.
  revert cur. induction fuel as [|fuel IH]; intros cur; simpl.
  - destruct (dt_ltb cur e); discriminate.
  - destruct (dt_ltb cur e); [|discriminate].
    destruct (candidate k cur) as [c|y|] eqn:Ec; [| |discriminate].
    + destruct (windows fuel k e (clamp e c)) as [ws|y|] eqn:Ew; simpl;
        try discriminate.
      intros [= <-]. eapply IH. exact Ew.
    + intros [= <-]. eapply candidate_only_overflow. exact Ec.
Qed.

Lemma strptime_outcomes (str : string) :
  (exists t, strptime str = Ok t) \/ strptime str = Raise ValueError.
Proof.
  unfold strptime. destruct (match_dmY str) as [|[[[d m] y] r] tl]; [right; reflexivity|].
  destruct r; [|right; reflexivity].
  destruct (check_date_fields y m d); [left; eauto | right; reflexivity].
Qed.

(** X6.  [ValueError] comes out of the function exactly when one of the two
    texts is not a date written day/month/year: the [ValueError] that
    [replace] raises inside the loop is always caught, whatever the interval. *)
Theorem split_date_range_ValueError (start_date_str end_date_str : string) (k : Z) :
  split_date_range start_date_str end_date_str k = Raise ValueError
  <-> strptime start_date_str = Raise ValueError
      \/ strptime end_date_str = Raise ValueError.
Proof.
  destruct (strptime_outcomes start_date_str) as [[s Hs] | Hs].
  2:{ unfold split_date_range. rewrite Hs. simpl. tauto. }
  destruct (strptime_outcomes end_date_str) as [[e He] | He].
  2:{ unfold split_date_range. rewrite Hs, He. simpl. tauto. }
  rewrite (split_date_range_parsed _ _ s e k Hs He), Hs, He.
  split; [|intros [H | H]; discriminate].
  destruct (windows (split_fuel s e) k e s) as [ws|x|] eqn:Ew; simpl; try discriminate.
  intros [= ->]. apply windows_only_overflow in Ew. discriminate.
Qed.

Lemma dt_ltb_asym (a b : datetime) : dt_ltb a b = true -> dt_ltb b a = false.
Proof.
  unfold dt_ltb.
  rewrite !orb_true_iff, !andb_true_iff, !orb_true_iff, !andb_true_iff,
    !Z.ltb_lt, !Z.eqb_eq.
  intros H. apply not_true_iff_false.
  rewrite !orb_true_iff, !andb_true_iff, !orb_true_iff, !andb_true_iff,
    !Z.ltb_lt, !Z.eqb_eq. lia.
Qed.

Lemma candidate_zero (cur : datetime) :
  valid cur = true -> candidate 0 cur = Ok cur.
Proof.
  intros Hv. unfold candidate, replace_year. rewrite Z.add_0_r.
  unfold valid in Hv. rewrite Hv. destruct cur; reflexivity.
Qed.

(** X7.  With [interval_years = 0] and a start before the end the [while]
    loop never leaves: each turn computes the window from [current_start] to
    itself and starts again from the same date, however many turns it is
    given. *)
Theorem split_loop_zero_interval (s e : datetime) (fuel : nat)
    (acc : list (string * string)) :
  valid s = true -> dt_ltb s e = true ->
  split_loop fuel 0 e s acc = OutOfFuel.
Proof.
  intros Hs Hlt. rewrite split_loop_windows.
  assert (windows fuel 0 e s = OutOfFuel) as ->; [|reflexivity].
  induction fuel as [|fuel IH]; simpl; rewrite Hlt; [reflexivity|].
  rewrite (candidate_zero s Hs). unfold clamp. rewrite (dt_ltb_asym s e Hlt).
  rewrite IH. reflexivity.
Qed.

Lemma split_loop_zero_interval_witness :
  split_loop 1000 0 (mkdatetime 2024 1 1) (mkdatetime 2020 1 1) [] = OutOfFuel.
Proof.
  apply split_loop_zero_interval; reflexivity.
Defined.

Lemma candidate_back (k : Z) (cur c : datetime) :
  valid cur = true -> k < 0 -> candidate k cur = Ok c ->
  valid c = true /\ toordinal c < toordinal cur.
Proof.
  intros Hv Hk. unfold candidate.
  destruct (replace_year_cases cur (year cur + k)) as [(t & -> & Ht & Hy & Hm & Hd) | ->].
  - intros [= <-]. split; [exact Ht|].
    apply dt_ltb_toordinal; try assumption.
    unfold dt_ltb. assert ((year t <? year cur) = true) as -> by (apply Z.ltb_lt; lia).
    reflexivity.
  - unfold timedelta_days, dt_add.
    destruct (Z.abs (365 * k) <=? 999999999); simpl; [|discriminate].
    destruct ((0 <? toordinal cur + 365 * k)
              && (toordinal cur + 365 * k <=? MAXORDINAL)) eqn:E; [|discriminate].
    intros [= <-]. apply andb_true_iff in E. rewrite Z.ltb_lt, Z.leb_le in E.
    destruct (ord2ymd_spec (toordinal cur + 365 * k)) as [H1 H2]; [lia|].
    split; [exact H1 | lia].
Qed.

Lemma windows_back (k : Z) (e : datetime) (fuel : nat) (cur : datetime) :
  valid e = true -> k < 0 -> valid cur = true -> dt_ltb cur e = true ->
  toordinal cur <= Z.of_nat fuel ->
  windows fuel k e cur = Raise OverflowError.
Proof.
  intros He Hk. revert cur. induction fuel as [|fuel IH]; intros cur Hv Hlt Hf.
  - pose proof (toordinal_range cur Hv). lia.
  - simpl. rewrite Hlt.
    destruct (candidate k cur) as [c|x|] eqn:Ec.
    + destruct (candidate_back k cur c Hv Hk Ec) as [Hvc Hord].
      pose proof (proj1 (dt_ltb_iff cur e Hv He) Hlt) as Hlt'.
      assert (Hce : dt_ltb c e = true)
        by (apply dt_ltb_iff; [assumption | assumption | lia]).
      assert (Hcl : clamp e c = c)
        by (unfold clamp; rewrite (dt_ltb_asym c e Hce); reflexivity).
      rewrite Hcl, IH; [reflexivity | assumption | assumption | lia].
    + rewrite (candidate_only_overflow k cur x Ec). reflexivity.
    + exfalso. exact (candidate_fuel k cur Ec).
Qed.

(** X8.  With a negative [interval_years] and a start before the end the
    loop walks backwards, away from [end_date], and never returns a list: it
    ends in [OverflowError] when the dates run out, after at most one turn for
    each day between 01/01/0001 and the start. *)
Theorem split_loop_negative_interval (s e : datetime) (k : Z) (fuel : nat)
    (acc : list (string * string)) :
  valid s = true -> valid e = true -> dt_ltb s e = true -> k < 0 ->
  toordinal s <= Z.of_nat fuel ->
  split_loop fuel k e s acc = Raise OverflowError.
Proof.
  intros Hs He Hlt Hk Hf. rewrite split_loop_windows.
  rewrite (windows_back k e fuel s He Hk Hs Hlt Hf). reflexivity.
Qed.

Lemma split_loop_negative_interval_witness :
  split_loop 800 (-1) (mkdatetime 3 1 1) (mkdatetime 2 6 30) [] = Raise OverflowError.
Proof.
  apply split_loop_negative_interval; [reflexivity | reflexivity | reflexivity | lia |].
  vm_compute. discriminate.
Defined.


(** ** More on [ler_csv] *)

Lemma ler_csv_loop_interrupt (fuel : nat) (args : request) (mx iv t : Z) (w : World)
    (e : exn) :
  t < mx -> oracle (length (reads w)) args = Raises e -> is_Exception e = false ->
  ler_csv_loop (S fuel) args mx iv t w
  = (Raise e, mkWorld (reads w ++ [args]) (stdout w) (slept w)).
Proof.
  intros Ht Ho He. simpl. apply Z.ltb_lt in Ht. rewrite Ht.
  unfold bind at 1. unfold try_except, bind, read. rewrite Ho, He. reflexivity.
Qed.

Lemma fails_with_cons (args : request) (n : nat) (e : exn) (es : list exn) :
  fails_with args n (e :: es) ->
  oracle n args = Raises e /\ is_Exception e = true /\ fails_with args (S n) es.
Proof.
  intros H. destruct (H 0%nat e eq_refl) as [H1 H2].
  rewrite Nat.add_0_r in H1. split; [exact H1|]. split; [exact H2|].
  unfold fails_with. intros j x Hj. specialize (H (S j) x Hj).
  replace (S n + j)%nat with (n + S j)%nat by lia. exact H.
Qed.

Lemma ler_csv_loop_failures (es : list exn) (fuel : nat) (args : request)
    (mx iv t : Z) (w : World) :
  t + Z.of_nat (length es) <= mx ->
  fails_with args (length (reads w)) es ->
  ler_csv_loop (length es + fuel) args mx iv t w
  = ler_csv_loop fuel args mx iv (t + Z.of_nat (length es))
      (mkWorld (reads w ++ replicate (length es) args) (stdout w ++ attempts t es)
         (slept w + iv * Z.of_nat (length es))).
Proof.
  revert t w. induction es as [|e es IH]; intros t w Ht Hf.
  - simpl. rewrite !app_nil_r, Z.mul_0_r, !Z.add_0_r. destruct w; reflexivity.
  - apply fails_with_cons in Hf. destruct Hf as (Ho & He & Hf).
    change (length (e :: es) + fuel)%nat with (S (length es + fuel)).
    simpl length in Ht. rewrite Nat2Z.inj_succ in Ht.
    rewrite (ler_csv_loop_fail _ _ _ _ _ _ e) by (try lia; assumption).
    rewrite IH; [| lia | simpl; rewrite length_app, Nat.add_comm; exact Hf].
    simpl. rewrite <- !app_assoc. simpl.
    replace (t + 1 + Z.of_nat (length es)) with (t + Z.pos (Pos.of_succ_nat (length es)))
      by lia.
    replace (slept w + iv + iv * Z.of_nat (length es))
      with (slept w + iv * Z.pos (Pos.of_succ_nat (length es))) by lia.
    reflexivity.
Qed.

(** X9.  The read that succeeds ends the retries: when the first
    [length es] reads fail (four at most) and the next one answers,
    [ler_csv] returns that answer after one read more than there were
    failures, having printed one line and slept two seconds for each failure;
    the line that announces the final failure is not printed. *)
Theorem ler_csv_retry (args : request) (w : World) (es : list exn) (df : DataFrame) :
  (length es <= 4)%nat ->
  fails_with args (length (reads w)) es ->
  oracle (length (reads w) + length es) args = Returns df ->
  ler_csv args w
  = (Ok (Some df),
     mkWorld (reads w ++ replicate (S (length es)) args)
       (stdout w ++ attempts 0 es)
       (slept w + 2 * Z.of_nat (length es))).
Proof.
  intros Hn Hf Ho. unfold ler_csv. change (Z.to_nat 5) with 5%nat.
  replace 5%nat with (length es + S (4 - length es))%nat by lia.
  rewrite ler_csv_loop_failures by (try lia; assumption).
  rewrite (ler_csv_loop_success _ _ _ _ _ _ df);
    [| lia | simpl; rewrite length_app, length_replicate; exact Ho].
  cbn [reads stdout slept]. rewrite replicate_S_end, app_assoc. reflexivity.
Qed.

(** X10.  An exception that is not derived from [Exception] (Ctrl-C, for
    one) is not retried: it leaves [ler_csv] at once, after the failures that
    came before it, without a line or a pause of its own. *)
Theorem ler_csv_interrupt (args : request) (w : World) (es : list exn) (x : exn) :
  (length es <= 4)%nat ->
  fails_with args (length (reads w)) es ->
  oracle (length (reads w) + length es) args = Raises x ->
  is_Exception x = false ->
  ler_csv args w
  = (Raise x,
     mkWorld (reads w ++ replicate (S (length es)) args)
       (stdout w ++ attempts 0 es)
       (slept w + 2 * Z.of_nat (length es))).
Proof.
  intros Hn Hf Ho Hx. unfold ler_csv. change (Z.to_nat 5) with 5%nat.
  replace 5%nat with (length es + S (4 - length es))%nat by lia.
  rewrite ler_csv_loop_failures by (try lia; assumption).
  rewrite (ler_csv_loop_interrupt _ _ _ _ _ _ x);
    [| lia | simpl; rewrite length_app, length_replicate; exact Ho | exact Hx].
  cbn [reads stdout slept]. rewrite replicate_S_end, app_assoc. reflexivity.
Qed.

Lemma ler_csv_loop_cost (fuel : nat) (args : request) (t : Z) (w : World) :
  0 <= t < 5 -> 5 - t <= Z.of_nat fuel ->
  exists n : nat,
    (1 <= n)%nat /\ Z.of_nat n <= 5 - t
    /\ reads (snd (ler_csv_loop fuel args 5 2 t w)) = reads w ++ replicate n args
    /\ match fst (ler_csv_loop fuel args 5 2 t w) with
       | Ok (Some df) =>
           oracle (length (reads w) + n - 1) args = Returns df
           /\ slept (snd (ler_csv_loop fuel args 5 2 t w))
              = slept w + 2 * (Z.of_nat n - 1)
       | Ok None =>
           Z.of_nat n = 5 - t
           /\ slept (snd (ler_csv_loop fuel args 5 2 t w)) = slept w + 2 * Z.of_nat n
       | Raise x =>
           oracle (length (reads w) + n - 1) args = Raises x
           /\ is_Exception x = false
           /\ slept (snd (ler_csv_loop fuel args 5 2 t w))
              = slept w + 2 * (Z.of_nat n - 1)
       | OutOfFuel => False
       end.
Proof.
  revert t w. induction fuel as [|fuel IH]; intros t w Ht Hf; [lia|].
  destruct (oracle (length (reads w)) args) as [df | e] eqn:Ho.
  - rewrite (ler_csv_loop_success _ _ _ _ _ _ df) by (try lia; assumption).
    exists 1%nat. simpl. replace (length (reads w) + 1 - 1)%nat with (length (reads w)) by lia.
    repeat split; try lia; try assumption.
  - destruct (is_Exception e) eqn:Ec.
    + rewrite (ler_csv_loop_fail _ _ _ _ _ _ e) by (try lia; assumption).
      destruct (Z.eq_dec t 4) as [-> | Hne].
      * rewrite ler_csv_loop_end by lia. exists 1%nat. simpl.
        repeat split; try lia.
      * set (w1 := mkWorld _ _ _).
        destruct (IH (t + 1) w1) as (n & Hn1 & Hn2 & Hr & Hm); [lia | lia |].
        exists (S n). split; [lia|]. split; [lia|].
        split; [rewrite Hr; subst w1; simpl; rewrite <- app_assoc; reflexivity|].
        replace (length (reads w) + S n - 1)%nat with (length (reads w1) + n - 1)%nat
          by (subst w1; simpl; rewrite length_app; simpl; lia).
        destruct (fst (ler_csv_loop fuel args 5 2 (t + 1) w1)) as [[df|]|x|];
          subst w1; simpl in *; intuition lia.
    + rewrite (ler_csv_loop_interrupt _ _ _ _ _ _ e) by (try lia; assumption).
      exists 1%nat. simpl. replace (length (reads w) + 1 - 1)%nat with (length (reads w)) by lia.
      repeat split; try lia; try assumption.
Qed.

(** X11.  What a call of [ler_csv] costs, whatever the source does: between
    one and five reads, all of the same arguments; two seconds of sleep after
    every failed read, the fifth included; a table that is returned is the
    answer of the last read, and an exception that leaves is the one the last
    read raised, of a class not derived from [Exception]. *)
Theorem ler_csv_cost (args : request) (w : World) :
  exists n : nat,
    (1 <= n <= 5)%nat
    /\ reads (snd (ler_csv args w)) = reads w ++ replicate n args
    /\ match fst (ler_csv args w) with
       | Ok (Some df) =>
           oracle (length (reads w) + n - 1) args = Returns df
           /\ slept (snd (ler_csv args w)) = slept w + 2 * (Z.of_nat n - 1)
       | Ok None =>
           n = 5%nat /\ slept (snd (ler_csv args w)) = slept w + 10
       | Raise x =>
           oracle (length (reads w) + n - 1) args = Raises x
           /\ is_Exception x = false
           /\ slept (snd (ler_csv args w)) = slept w + 2 * (Z.of_nat n - 1)
       | OutOfFuel => False
       end.
Proof.
  unfold ler_csv. change (Z.to_nat 5) with 5%nat.
  destruct (ler_csv_loop_cost 5 args 0 w) as (n & Hn1 & Hn2 & Hr & Hm); [lia | lia |].
  exists n. split; [lia|]. split; [exact Hr|].
  destruct (fst (ler_csv_loop 5 args 5 2 0 w)) as [[df|]|x|]; try exact Hm.
  destruct Hm as [Hm1 Hm2]. split; lia.
Qed.


(** ** More on the adapters *)

Lemma windows_done (fuel : nat) (k : Z) (e cur : datetime) :
  dt_ltb cur e = false -> windows fuel k e cur = Ok [].
Proof. intros H. destruct fuel; simpl; rewrite H; reflexivity. Qed.

Lemma coleta_bcb_sgs_windows (codigo nome freq data_inicio data_fim : string)
    (w : World) :
  coleta_bcb_sgs codigo nome freq data_inicio data_fim w
  = match sgs_windows freq data_inicio data_fim with
    | Ok datas_inicio =>
        try_except_else
          (print (Coletando codigo nome) ;;
           resposta <- for_append (fun d => ler_csv (sgs_request codigo d))
                         datas_inicio [] ;;
           lift (concat resposta))
          (raise (falha codigo nome))
          (fun resposta => lift (coleta_bcb_sgs_else nome resposta)) w
    | Raise x => (Raise x, w)
    | OutOfFuel => (OutOfFuel, w)
    end.
Proof.
  unfold coleta_bcb_sgs, sgs_windows.
  destruct (String.eqb freq "Diária"); [|reflexivity].
  unfold bind at 1. unfold lift at 1.
  destruct (split_date_range data_inicio data_fim 5); reflexivity.
Qed.

(** X12.  A daily series asked for a span that is empty (the start is not
    before the end) is reported as a failed collection: no request is made,
    and the error that names the series is raised. *)
Theorem coleta_bcb_sgs_empty_span (codigo nome data_inicio data_fim : string)
    (s e : datetime) (w : World) :
  strptime data_inicio = Ok s -> strptime data_fim = Ok e -> dt_ltb s e = false ->
  coleta_bcb_sgs codigo nome "Diária" data_inicio data_fim w
  = (Raise (falha codigo nome),
     mkWorld (reads w) (stdout w ++ [Coletando codigo nome]) (slept w)).
Proof.
  intros Hs He Hge. rewrite coleta_bcb_sgs_windows. unfold sgs_windows.
  change (String.eqb "Diária" "Diária") with true. cbv iota.
  rewrite (split_date_range_parsed _ _ s e 5 Hs He), (windows_done _ _ _ _ Hge).
  reflexivity.
Qed.

(** X13.  The dates of a daily series are read before the guarded block: a
    text that is not a date written day/month/year reaches the caller as
    [ValueError], not as the error that names the series, and nothing is
    printed or requested. *)
Theorem coleta_bcb_sgs_bad_date (codigo nome data_inicio data_fim : string)
    (w : World) :
  strptime data_inicio = Raise ValueError \/ strptime data_fim = Raise ValueError ->
  coleta_bcb_sgs codigo nome "Diária" data_inicio data_fim w = (Raise ValueError, w).
Proof.
  intros H. rewrite coleta_bcb_sgs_windows. unfold sgs_windows.
  change (String.eqb "Diária" "Diária") with true. cbv iota.
  unfold split_date_range. destruct H as [H | H].
  - rewrite H. reflexivity.
  - destruct (strptime_outcomes data_inicio) as [[s Hs] | Hs]; rewrite Hs; simpl;
      [rewrite H|]; reflexivity.
Qed.

Lemma ler_csv_down (args : request) (w : World) :
  source_down ->
  exists ls,
    ler_csv args w
    = (Ok None,
       mkWorld (reads w ++ replicate 5 args) (stdout w ++ ls) (slept w + 10)).
Proof.
  intros Hdown.
  assert (Hf : forall n, fails_with args n
                 (map (fun i => match oracle (n + i) args with
                                | Raises e => e
                                | Returns _ => OSError
                                end) (seq 0 5))).
  { intros n i e Hi. apply list_lookup_fmap_Some in Hi.
    destruct Hi as (j & -> & Hj). apply lookup_seq in Hj. destruct Hj as [-> _].
    simpl. destruct (Hdown (n + i)%nat args) as (x & -> & Hx). auto. }
  specialize (Hf (length (reads w))).
  set (es := map _ _) in Hf.
  exists (attempts 0 es ++ [Falha_apos 5]).
  unfold ler_csv. change (Z.to_nat 5) with (length es + 0)%nat.
  rewrite ler_csv_loop_failures; [| simpl; lia | exact Hf].
  rewrite ler_csv_loop_end by (simpl; lia).
  cbn [reads stdout slept]. rewrite <- app_assoc. reflexivity.
Qed.

Lemma for_append_down {A : Type} (f : A -> request) (xs : list A)
    (ys : list (option DataFrame)) (w : World) :
  source_down ->
  exists ls,
    for_append (fun x => ler_csv (f x)) xs ys w
    = (Ok (ys ++ replicate (length xs) None),
       mkWorld (reads w ++ flat_map (fun x => replicate 5 (f x)) xs)
         (stdout w ++ ls) (slept w + 10 * Z.of_nat (length xs))).
Proof.
  intros Hdown. revert ys w. induction xs as [|x xs IH]; intros ys w.
  - exists []. simpl. unfold ret. rewrite !app_nil_r, Z.add_0_r.
    destruct w; reflexivity.
  - destruct (ler_csv_down (f x) w Hdown) as [ls1 H1].
    destruct (IH (ys ++ [None]) (mkWorld (reads w ++ replicate 5 (f x))
                                   (stdout w ++ ls1) (slept w + 10))) as [ls2 H2].
    exists (ls1 ++ ls2). cbn [for_append]. unfold bind at 1. rewrite H1, H2.
    cbn [reads stdout slept flat_map length]. rewrite <- !app_assoc.
    f_equal. f_equal. rewrite Nat2Z.inj_succ. lia.
Qed.

Lemma concat_nothing (n : nat) : concat (replicate n None) = Raise ValueError.
Proof.
  unfold concat.
  assert (omap id (replicate n (@None DataFrame)) = []) as ->; [|reflexivity].
  induction n as [|n IH]; [reflexivity | exact IH].
Qed.

(** X14.  What a series of BCB/SGS costs when the source is down: every
    window is asked for five times, with ten seconds of sleep, before the
    error that names the series is raised; a daily series over thirty years
    makes thirty requests and waits a minute. *)
Theorem coleta_bcb_sgs_down (codigo nome freq data_inicio data_fim : string)
    (ws : list (string * string)) (w : World) :
  source_down ->
  sgs_windows freq data_inicio data_fim = Ok ws ->
  exists w',
    coleta_bcb_sgs codigo nome freq data_inicio data_fim w
    = (Raise (falha codigo nome), w')
    /\ reads w' = reads w ++ flat_map (fun d => replicate 5 (sgs_request codigo d)) ws
    /\ slept w' = slept w + 10 * Z.of_nat (length ws).
Proof.
  intros Hdown Hws. rewrite coleta_bcb_sgs_windows, Hws.
  unfold try_except_else. unfold bind at 1. unfold print at 1.
  set (w1 := mkWorld _ _ _).
  destruct (for_append_down (sgs_request codigo) ws [] w1 Hdown) as [ls H].
  unfold bind at 1. rewrite H. unfold lift at 1.
  change ([] ++ replicate (length ws) None) with (replicate (length ws) (@None DataFrame)).
  rewrite concat_nothing. unfold raise, lift. eexists. split; [reflexivity|].
  subst w1. split; reflexivity.
Qed.


Lemma ler_csv_stateless (source : request -> response) (args : request) (w : World) :
  stateless source ->
  exists w', ler_csv args w = (Ok (answer source args), w').
Proof.
  intros [Hs He]. unfold answer. destruct (source args) as [df | e] eqn:E.
  - eexists. apply ler_csv_first_attempt. rewrite Hs. exact E.
  - assert (Hf : fails_with args (length (reads w)) (replicate 5 e)).
    { intros i x Hi. apply lookup_replicate in Hi. destruct Hi as [-> _].
      rewrite Hs. split; [exact E | exact (He args e E)]. }
    unfold ler_csv. change (Z.to_nat 5) with (length (replicate 5 e) + 0)%nat.
    rewrite ler_csv_loop_failures; [| simpl; lia | exact Hf].
    rewrite ler_csv_loop_end by (simpl; lia). eexists. reflexivity.
Qed.

Lemma for_append_stateless {A : Type} (source : request -> response)
    (f : A -> request) (xs : list A) (ys : list (option DataFrame)) (w : World) :
  stateless source ->
  exists w',
    for_append (fun x => ler_csv (f x)) xs ys w
    = (Ok (ys ++ map (fun x => answer source (f x)) xs), w').
Proof.
  intros Hs. revert ys w. induction xs as [|x xs IH]; intros ys w.
  - exists w. simpl. rewrite app_nil_r. reflexivity.
  - destruct (ler_csv_stateless source (f x) w Hs) as [w1 H1].
    destruct (IH (ys ++ [answer source (f x)]) w1) as [w2 H2].
    exists w2. cbn [for_append]. unfold bind at 1. rewrite H1, H2.
    rewrite <- app_assoc. reflexivity.
Qed.

(** X15.  A window that cannot be read leaves a gap and no error.  For a
    source whose answers do not depend on time, the table of a BCB/SGS series
    is made of the windows that answered, as if the others had not been
    asked for; the error that names the series is raised only when no window
    answers. *)
Theorem coleta_bcb_sgs_gaps (source : request -> response)
    (codigo nome freq data_inicio data_fim : string)
    (ws : list (string * string)) (w : World) :
  stateless source ->
  sgs_windows freq data_inicio data_fim = Ok ws ->
  fst (coleta_bcb_sgs codigo nome freq data_inicio data_fim w)
  = match concat (map (fun d => answer source (sgs_request codigo d)) ws) with
    | Ok resposta => coleta_bcb_sgs_else nome resposta
    | Raise _ => Raise (falha codigo nome)
    | OutOfFuel => OutOfFuel
    end.
Proof.
  intros Hs Hws. rewrite coleta_bcb_sgs_windows, Hws.
  unfold try_except_else. unfold bind at 1. unfold print at 1.
  set (w1 := mkWorld _ _ _).
  destruct (for_append_stateless source (sgs_request codigo) ws [] w1 Hs) as [w2 H].
  unfold bind at 1. rewrite H. unfold lift at 1. simpl app.
  destruct (concat _) as [resposta|x|]; reflexivity.
Qed.

(** X16.  The adapters that read through [ler_csv] do not raise the error
    that names the series when the source is down: [ler_csv] gives [None]
    after its five reads, the guarded block ends without an exception, and
    the renaming that follows it fails with [AttributeError]. *)
Theorem csv_adapters_down (codigo nome : string) (w : World) :
  source_down ->
  (exists w',
     coleta_bcb_odata codigo nome w = (Raise AttributeError, w')
     /\ reads w' = reads w ++ replicate 5 (ReadCsv codigo "," "," ["Data"])
     /\ slept w' = slept w + 10)
  /\ (exists w',
        coleta_fred codigo nome w = (Raise AttributeError, w')
        /\ reads w' = reads w ++ replicate 5 (ReadCsv (fred_url codigo) "," "." ["DATE"])
        /\ slept w' = slept w + 10).
Proof.
  intros Hdown. split.
  - unfold coleta_bcb_odata. cbv zeta.
    unfold try_except_else. unfold bind at 1. unfold print at 1.
    set (w1 := mkWorld _ _ _).
    destruct (ler_csv_down (ReadCsv codigo "," "," ["Data"]) w1 Hdown) as [ls ->].
    eexists. split; [reflexivity|]. subst w1. split; reflexivity.
  - unfold coleta_fred. cbv zeta.
    unfold try_except_else. unfold bind at 1. unfold print at 1.
    set (w1 := mkWorld _ _ _).
    destruct (ler_csv_down (ReadCsv (fred_url codigo) "," "." ["DATE"]) w1 Hdown)
      as [ls ->].
    eexists. split; [reflexivity|]. subst w1. split; reflexivity.
Qed.

(** X17.  The adapters for IPEADATA, IBGE/SIDRA and IFI read once and never
    again: whatever the source does, a call makes exactly one request,
    prints the line that announces the series and does not sleep. *)
Theorem single_read_adapters (codigo nome : string) (w : World) :
  snd (coleta_ipeadata codigo nome w)
  = mkWorld (reads w ++ [ReadJson (ipeadata_url codigo)])
      (stdout w ++ [Coletando codigo nome]) (slept w)
  /\ snd (coleta_ibge_sidra codigo nome w)
     = mkWorld (reads w ++ [ReadJson (codigo +:+ "?formato=json")])
         (stdout w ++ [Coletando codigo nome]) (slept w)
  /\ snd (coleta_ifi codigo nome w)
     = mkWorld (reads w
                ++ [ReadExcel codigo "Hiato do Produto"
                      ["data"; "lim_inf"; nome; "lim_sup"] 2])
         (stdout w ++ [Coletando codigo nome]) (slept w).
Proof.
  unfold coleta_ipeadata, coleta_ibge_sidra, coleta_ifi. cbv zeta.
  unfold try_except_else, bind, print, read, raise, lift, ret.
  cbn [reads stdout slept].
  repeat split.
  - destruct (oracle (length (reads w)) (ReadJson (ipeadata_url codigo)));
      reflexivity.
  - destruct (oracle (length (reads w)) (ReadJson (codigo +:+ "?formato=json")));
      reflexivity.
  - destruct (oracle (length (reads w))
                (ReadExcel codigo "Hiato do Produto" ["data"; "lim_inf"; nome; "lim_sup"] 2));
      reflexivity.
Qed.


(** ** More on the collection script *)

Lemma bind_Ok {A B : Type} (c : M A) (f : A -> M B) (w : World) (b : B) (w' : World) :
  bind c f w = (Ok b, w') ->
  exists a w1, c w = (Ok a, w1) /\ f a w1 = (Ok b, w').
Proof.
  unfold bind. destruct (c w) as [[a|x|] w1]; intros H; try discriminate. eauto.
Qed.

Lemma bind_Raise {A B : Type} (c : M A) (f : A -> M B) (w : World) (x : exn)
    (w' : World) :
  c w = (Raise x, w') -> bind c f w = (Raise x, w').
Proof. intros H. unfold bind. rewrite H. reflexivity. Qed.

Lemma coleta_por_frequencia_ok (f : serie -> M DataFrame) (input : list serie)
    (d : gmap string (list DataFrame)) (w : World)
    (d' : gmap string (list DataFrame)) (w' : World) :
  coleta_por_frequencia f input d w = (Ok d', w') ->
  exists dfs,
    called_in_turn f input dfs w w'
    /\ (forall k, d' !! k = (fun l => l ++ filed k input dfs) <$> (d !! k))
    /\ Forall (fun ser => is_Some (d !! Frequencia ser)) input.
Proof.
  revert d w. induction input as [|ser input IH]; intros d w H.
  - simpl in H. unfold ret in H. injection H as <- <-. exists [].
    split; [reflexivity|]. split; [|constructor].
    intros k. unfold filed. simpl. destruct (d !! k); simpl;
      [rewrite app_nil_r|]; reflexivity.
  - simpl in H. apply bind_Ok in H. destruct H as (df & w1 & Hf & H).
    apply bind_Ok in H. destruct H as (d1 & w2 & Hd & H).
    unfold lift in Hd. injection Hd as Hd <-. unfold dict_append in Hd.
    destruct (d !! Frequencia ser) as [l|] eqn:Ek; [|discriminate].
    injection Hd as <-.
    destruct (IH _ _ H) as (dfs & HF & Hk & Hdom). exists (df :: dfs).
    split; [exists w1; split; [exact Hf | exact HF]|]. split.
    + intros k. rewrite Hk. unfold filed. simpl.
      destruct (String.eqb_spec (Frequencia ser) k) as [<- | Hne].
      * rewrite lookup_insert_eq, Ek. simpl. rewrite <- app_assoc. reflexivity.
      * rewrite lookup_insert_ne by exact Hne. reflexivity.
    + constructor; [rewrite Ek; eauto|].
      eapply Forall_impl; [exact Hdom|]. intros s Hs. simpl in Hs.
      destruct (decide (Frequencia ser = Frequencia s)) as [E | E].
      * rewrite <- E, Ek. eauto.
      * rewrite lookup_insert_ne in Hs by exact E. exact Hs.
Qed.

(** X18.  What a collection loop leaves in its dictionary when it ends
    without an exception.  The adapter was called once for each row, in the
    order of the rows, each call in the world the call before left, from the
    world the loop started in to the one it ends in; the dictionary holds the
    lists that were there, each one extended by the tables those calls
    returned for the rows of its frequency, in the order of the rows; no key is
    added, and every row has a frequency that is a key. *)
Theorem coleta_por_frequencia_buckets (f : serie -> M DataFrame)
    (input : list serie) (d : gmap string (list DataFrame)) (w : World)
    (d' : gmap string (list DataFrame)) (w' : World) :
  coleta_por_frequencia f input d w = (Ok d', w') ->
  exists dfs,
    called_in_turn f input dfs w w'
    /\ (forall k, d' !! k = (fun l => l ++ filed k input dfs) <$> (d !! k))
    /\ Forall (fun ser => is_Some (d !! Frequencia ser)) input.
Proof.
  intros H. destruct (coleta_por_frequencia_ok f input d w d' w' H)
    as (dfs & Hrun & Hk & Hdom).
  exists dfs. split; [exact Hrun|]. split; [exact Hk | exact Hdom].
Qed.

Lemma dict_of_keys_lookup (keys : list string) (k : string) :
  dict_of_keys keys !! k = if bool_decide (k ∈ keys) then Some [] else None.
Proof.
  induction keys as [|a keys IH].
  - change (dict_of_keys []) with (∅ : gmap string (list DataFrame)).
    rewrite lookup_empty, bool_decide_eq_false_2 by apply not_elem_of_nil.
    reflexivity.
  - change (dict_of_keys (a :: keys)) with (<[a := []]> (dict_of_keys keys)).
    destruct (decide (a = k)) as [-> | Hne].
    + rewrite lookup_insert_eq, bool_decide_eq_true_2 by (left; reflexivity).
      reflexivity.
    + rewrite lookup_insert_ne by exact Hne. rewrite IH.
      apply (f_equal (fun b : bool => if b then Some [] else None)).
      apply bool_decide_ext. rewrite elem_of_cons. intuition congruence.
Qed.

Lemma called_in_turn_length (f : serie -> M DataFrame) (input : list serie)
    (dfs : list DataFrame) (w w' : World) :
  called_in_turn f input dfs w w' -> length dfs = length input.
Proof.
  revert dfs w. induction input as [|ser input IH]; intros [|df dfs] w H;
    simpl in H; try contradiction; [reflexivity|].
  destruct H as (w1 & _ & H). simpl. f_equal. exact (IH dfs w1 H).
Qed.

Lemma filed_length (k : string) (input : list serie) (dfs : list DataFrame) :
  length dfs = length input -> length (filed k input dfs) = length (rows_of k input).
Proof.
  unfold filed, rows_of. revert dfs.
  induction input as [|ser input IH]; intros [|df dfs] Hlen; try discriminate;
    [reflexivity|].
  injection Hlen as Hlen. specialize (IH dfs Hlen).
  simpl. destruct (String.eqb (Frequencia ser) k); simpl;
    [f_equal; exact IH | exact IH].
Qed.

Lemma coleta_por_frequencia_keys (f : serie -> M DataFrame) (input : list serie)
    (keys : list string) (w : World) (d' : gmap string (list DataFrame))
    (w' : World) :
  coleta_por_frequencia f input (dict_of_keys keys) w = (Ok d', w') ->
  Forall (fun ser => Frequencia ser ∈ keys) input
  /\ forall k, length <$> (d' !! k)
               = if bool_decide (k ∈ keys) then Some (length (rows_of k input))
                 else None.
Proof.
  intros H. apply coleta_por_frequencia_ok in H. destruct H as (dfs & HF & Hk & Hdom).
  split.
  - eapply Forall_impl; [exact Hdom|]. intros ser Hs. simpl in Hs.
    rewrite dict_of_keys_lookup in Hs.
    destruct (bool_decide (Frequencia ser ∈ keys)) eqn:E;
      [apply bool_decide_eq_true in E; exact E | destruct Hs; discriminate].
  - intros k. rewrite Hk, dict_of_keys_lookup.
    destruct (bool_decide (k ∈ keys)); [|reflexivity].
    simpl. rewrite (filed_length k input dfs (called_in_turn_length _ _ _ _ _ HF)).
    reflexivity.
Qed.

Lemma for_append_length {A B : Type} (f : A -> M B) (xs : list A) (ys zs : list B)
    (w w' : World) :
  for_append f xs ys w = (Ok zs, w') -> length zs = (length ys + length xs)%nat.
Proof.
  revert ys w. induction xs as [|x xs IH]; intros ys w H; simpl in H.
  - unfold ret in H. injection H as <- <-. simpl. lia.
  - apply bind_Ok in H. destruct H as (y & w1 & _ & H). apply IH in H.
    rewrite H, length_app. simpl. lia.
Qed.

Lemma coleta_stages (data_fim : string) (df_metadados : list serie) (w : World)
    (b : bruto) (w' : World) :
  coleta data_fim df_metadados w = (Ok b, w') ->
  exists w1 w2 w3 w4 w5 ser rest,
    coleta_por_frequencia
      (fun ser => coleta_bcb_sgs (Input_de_Coleta ser) (Identificador ser)
                    (Frequencia ser) "01/01/2000" data_fim)
      (query_api "BCB/SGS" df_metadados)
      (dict_of_keys ["Diária"; "Mensal"; "Trimestral"; "Anual"]) w
    = (Ok (df_bruto_bcb_sgs b), w1)
    /\ for_append
         (fun ser => coleta_bcb_odata (Input_de_Coleta ser) (Identificador ser))
         (query_api "BCB/ODATA" df_metadados) [] w1
       = (Ok (df_bruto_bcb_odata b), w2)
    /\ coleta_por_frequencia
         (fun ser => coleta_ipeadata (Input_de_Coleta ser) (Identificador ser))
         (query_api "IPEADATA" df_metadados) (dict_of_keys ["Diária"; "Mensal"]) w2
       = (Ok (df_bruto_ipeadata b), w3)
    /\ coleta_por_frequencia
         (fun ser => coleta_ibge_sidra (Input_de_Coleta ser) (Identificador ser))
         (query_api "IBGE/SIDRA" df_metadados) (dict_of_keys ["Mensal"; "Trimestral"]) w3
       = (Ok (df_bruto_ibge_sidra b), w4)
    /\ coleta_por_frequencia
         (fun ser => coleta_fred (Input_de_Coleta ser) (Identificador ser))
         (query_api "FRED" df_metadados)
         (dict_of_keys ["Diária"; "Mensal"; "Trimestral"]) w4
       = (Ok (df_bruto_fred b), w5)
    /\ query_fonte "IFI" df_metadados = ser :: rest
    /\ coleta_ifi (Input_de_Coleta ser) (Identificador ser) w5
       = (Ok (df_bruto_ifi b), w').
Proof.
  unfold coleta. cbv zeta. intros H.
  apply bind_Ok in H. destruct H as (sgs & w1 & H1 & H).
  apply bind_Ok in H. destruct H as (odata & w2 & H2 & H).
  apply bind_Ok in H. destruct H as (ipea & w3 & H3 & H).
  apply bind_Ok in H. destruct H as (sidra & w4 & H4 & H).
  apply bind_Ok in H. destruct H as (fred & w5 & H5 & H).
  destruct (query_fonte "IFI" df_metadados) as [|ser rest]; [discriminate|].
  apply bind_Ok in H. destruct H as (ifi & w6 & H6 & H).
  unfold ret in H. injection H as <- <-.
  exists w1, w2, w3, w4, w5, ser, rest. simpl. auto 10.
Qed.

(** X19.  What the sheet must hold for the script to run to its end: every
    row collected by API has a frequency for which its source keeps a list
    (four for BCB/SGS, two for IPEADATA, two for IBGE/SIDRA, three for FRED),
    and there is a row for IFI. *)
Theorem coleta_requires (data_fim : string) (df_metadados : list serie) (w : World)
    (b : bruto) (w' : World) :
  coleta data_fim df_metadados w = (Ok b, w') ->
  Forall (fun ser => Frequencia ser ∈ ["Diária"; "Mensal"; "Trimestral"; "Anual"])
    (query_api "BCB/SGS" df_metadados)
  /\ Forall (fun ser => Frequencia ser ∈ ["Diária"; "Mensal"])
       (query_api "IPEADATA" df_metadados)
  /\ Forall (fun ser => Frequencia ser ∈ ["Mensal"; "Trimestral"])
       (query_api "IBGE/SIDRA" df_metadados)
  /\ Forall (fun ser => Frequencia ser ∈ ["Diária"; "Mensal"; "Trimestral"])
       (query_api "FRED" df_metadados)
  /\ query_fonte "IFI" df_metadados <> [].
Proof.
  intros H. apply coleta_stages in H.
  destruct H as (w1 & w2 & w3 & w4 & w5 & ser & rest & H1 & _ & H3 & H4 & H5 & H6 & _).
  apply coleta_por_frequencia_keys in H1, H3, H4, H5.
  repeat split; try tauto. rewrite H6. discriminate.
Qed.

(** X20.  Nothing is lost and nothing is added on the way: when the script
    runs to its end, each source's dictionary has the keys it was created
    with, each list holds as many tables as the sheet has rows of that
    source and frequency, and the list for BCB/ODATA holds one table for each
    of its rows. *)
Theorem coleta_counts (data_fim : string) (df_metadados : list serie) (w : World)
    (b : bruto) (w' : World) :
  coleta data_fim df_metadados w = (Ok b, w') ->
  (forall k, length <$> (df_bruto_bcb_sgs b !! k)
             = if bool_decide (k ∈ ["Diária"; "Mensal"; "Trimestral"; "Anual"])
               then Some (length (rows_of k (query_api "BCB/SGS" df_metadados)))
               else None)
  /\ length (df_bruto_bcb_odata b) = length (query_api "BCB/ODATA" df_metadados)
  /\ (forall k, length <$> (df_bruto_ipeadata b !! k)
                = if bool_decide (k ∈ ["Diária"; "Mensal"])
                  then Some (length (rows_of k (query_api "IPEADATA" df_metadados)))
                  else None)
  /\ (forall k, length <$> (df_bruto_ibge_sidra b !! k)
                = if bool_decide (k ∈ ["Mensal"; "Trimestral"])
                  then Some (length (rows_of k (query_api "IBGE/SIDRA" df_metadados)))
                  else None)
  /\ (forall k, length <$> (df_bruto_fred b !! k)
                = if bool_decide (k ∈ ["Diária"; "Mensal"; "Trimestral"])
                  then Some (length (rows_of k (query_api "FRED" df_metadados)))
                  else None).
Proof.
  intros H. apply coleta_stages in H.
  destruct H as (w1 & w2 & w3 & w4 & w5 & ser & rest & H1 & H2 & H3 & H4 & H5 & _).
  apply coleta_por_frequencia_keys in H1, H3, H4, H5.
  apply for_append_length in H2.
  repeat split; tauto.
Qed.


Lemma split_date_range_fuel (start_date_str end_date_str : string) (k : Z) :
  0 < k -> split_date_range start_date_str end_date_str k <> OutOfFuel.
Proof.
  intros Hk.
  destruct (strptime_outcomes start_date_str) as [[s Hs] | Hs];
    [|unfold split_date_range; rewrite Hs; discriminate].
  destruct (strptime_outcomes end_date_str) as [[e He] | He];
    [|unfold split_date_range; rewrite Hs, He; discriminate].
  rewrite (split_date_range_parsed _ _ s e k Hs He).
  destruct (windows_split_fuel s e k (strptime_valid _ _ Hs) (strptime_valid _ _ He) Hk)
    as [(ws & -> & _) | [-> _]]; discriminate.
Qed.

Lemma coleta_bcb_sgs_raises (codigo nome freq data_inicio data_fim : string)
    (w : World) :
  all_reads_raise ->
  exists x w', coleta_bcb_sgs codigo nome freq data_inicio data_fim w = (Raise x, w').
Proof.
  intros Hall. rewrite coleta_bcb_sgs_windows.
  destruct (sgs_windows freq data_inicio data_fim) as [ws|x|] eqn:E.
  - unfold try_except_else. unfold bind at 1. unfold print at 1.
    set (w1 := mkWorld _ _ _).
    destruct (for_append_all_raise (sgs_request codigo) ws [] w1 Hall eq_refl)
      as [w2 [(ys' & H & Hys) | (e & H)]]; unfold bind at 1; rewrite H.
    + unfold lift at 1. unfold concat. rewrite Hys. eexists. eexists. reflexivity.
    + eexists. eexists. reflexivity.
  - eauto.
  - exfalso. unfold sgs_windows in E. destruct (String.eqb freq "Diária");
      [|discriminate].
    revert E. apply split_date_range_fuel. lia.
Qed.

Lemma coleta_csv_raises (codigo nome : string) (w : World) :
  all_reads_raise ->
  (exists x w', coleta_bcb_odata codigo nome w = (Raise x, w'))
  /\ (exists x w', coleta_fred codigo nome w = (Raise x, w')).
Proof.
  intros Hall. split.
  - unfold coleta_bcb_odata. cbv zeta.
    unfold try_except_else. unfold bind at 1. unfold print at 1.
    set (w1 := mkWorld _ _ _).
    destruct (ler_csv_all_raise (ReadCsv codigo "," "," ["Data"]) w1 Hall)
      as [w2 [-> | [e ->]]]; eexists; eexists; reflexivity.
  - unfold coleta_fred. cbv zeta.
    unfold try_except_else. unfold bind at 1. unfold print at 1.
    set (w1 := mkWorld _ _ _).
    destruct (ler_csv_all_raise (ReadCsv (fred_url codigo) "," "." ["DATE"]) w1 Hall)
      as [w2 [-> | [e ->]]]; eexists; eexists; reflexivity.
Qed.

Lemma coleta_read_raises (codigo nome : string) (w : World) :
  all_reads_raise ->
  (exists x w', coleta_ipeadata codigo nome w = (Raise x, w'))
  /\ (exists x w', coleta_ibge_sidra codigo nome w = (Raise x, w'))
  /\ (exists x w', coleta_ifi codigo nome w = (Raise x, w')).
Proof.
  intros Hall.
  unfold coleta_ipeadata, coleta_ibge_sidra, coleta_ifi. cbv zeta.
  unfold try_except_else, bind, print, read, raise, lift, ret.
  cbn [reads stdout slept]. repeat split.
  - destruct (Hall (length (reads w)) (ReadJson (ipeadata_url codigo))) as [e ->].
    eexists. eexists. reflexivity.
  - destruct (Hall (length (reads w)) (ReadJson (codigo +:+ "?formato=json")))
      as [e ->].
    eexists. eexists. reflexivity.
  - destruct (Hall (length (reads w))
                (ReadExcel codigo "Hiato do Produto" ["data"; "lim_inf"; nome; "lim_sup"] 2))
      as [e ->].
    eexists. eexists. reflexivity.
Qed.

Lemma coleta_por_frequencia_raises (f : serie -> M DataFrame) (input : list serie)
    (d : gmap string (list DataFrame)) (w : World) :
  (forall ser w, exists x w', f ser w = (Raise x, w')) ->
  (exists x w', coleta_por_frequencia f input d w = (Raise x, w'))
  \/ coleta_por_frequencia f input d w = (Ok d, w).
Proof.
  intros Hf. destruct input as [|ser input]; [right; reflexivity|]. left.
  destruct (Hf ser w) as (x & w' & E). exists x, w'. simpl.
  apply bind_Raise. exact E.
Qed.

Lemma for_append_raises {A B : Type} (f : A -> M B) (xs : list A) (ys : list B)
    (w : World) :
  (forall a w, exists x w', f a w = (Raise x, w')) ->
  (exists x w', for_append f xs ys w = (Raise x, w'))
  \/ for_append f xs ys w = (Ok ys, w).
Proof.
  intros Hf. destruct xs as [|a xs]; [right; reflexivity|]. left.
  destruct (Hf a w) as (x & w' & E). exists x, w'. simpl.
  apply bind_Raise. exact E.
Qed.

Lemma bind_stage {A B : Type} (c : M A) (f : A -> M B) (w : World) (a : A) :
  (exists x w', c w = (Raise x, w')) \/ c w = (Ok a, w) ->
  (exists x w', f a w = (Raise x, w')) ->
  exists x w', bind c f w = (Raise x, w').
Proof.
  intros [(x & w' & E) | E] Hf.
  - exists x, w'. apply bind_Raise. exact E.
  - unfold bind. rewrite E. exact Hf.
Qed.

(** X21.  With every source out of reach the script cannot end well,
    whatever the sheet holds: it always stops on an exception, and never
    leaves its tables behind. *)
Theorem coleta_source_down (data_fim : string) (df_metadados : list serie)
    (w : World) :
  all_reads_raise ->
  exists x w', coleta data_fim df_metadados w = (Raise x, w').
Proof.
  intros Hall. unfold coleta. cbv zeta.
  eapply bind_stage.
  { apply coleta_por_frequencia_raises. intros ser w0.
    apply coleta_bcb_sgs_raises. exact Hall. }
  eapply bind_stage.
  { apply for_append_raises. intros ser w0.
    apply (coleta_csv_raises _ _ w0 Hall). }
  eapply bind_stage.
  { apply coleta_por_frequencia_raises. intros ser w0.
    apply (coleta_read_raises _ _ w0 Hall). }
  eapply bind_stage.
  { apply coleta_por_frequencia_raises. intros ser w0.
    apply (coleta_read_raises _ _ w0 Hall). }
  eapply bind_stage.
  { apply coleta_por_frequencia_raises. intros ser w0.
    apply (coleta_csv_raises _ _ w0 Hall). }
  destruct (query_fonte "IFI" df_metadados) as [|ser rest].
  - eexists. eexists. reflexivity.
  - destruct (coleta_read_raises (Input_de_Coleta ser) (Identificador ser) w Hall)
      as (_ & _ & x & w' & E).
    exists x, w'. apply bind_Raise. exact E.
Qed.

Lemma coleta_por_frequencia_app (f : serie -> M DataFrame) (l1 l2 : list serie)
    (d : gmap string (list DataFrame)) (w : World) :
  coleta_por_frequencia f (l1 ++ l2) d w
  = bind (coleta_por_frequencia f l1 d) (fun d1 => coleta_por_frequencia f l2 d1) w.
Proof.
  revert d w. induction l1 as [|ser l1 IH]; intros d w; [reflexivity|].
  simpl. unfold bind. destruct (f ser w) as [[df|x|] w1]; try reflexivity.
  unfold lift. destruct (dict_append (Frequencia ser) df d) as [d1|x|];
    try reflexivity.
  rewrite IH. reflexivity.
Qed.

(** X22.  A collection loop stops at the first row that fails: the rows
    after it are not collected, and the exception leaves with what was
    gathered so far.  The row fails when its adapter raises, or when the
    adapter returns a table and the dictionary has no list for the frequency
    of the row: the table is then fetched and dropped with [KeyError]. *)
Theorem coleta_por_frequencia_abort (f : serie -> M DataFrame)
    (before after : list serie) (ser : serie)
    (d d1 : gmap string (list DataFrame)) (w w1 w2 : World) (x : exn) :
  coleta_por_frequencia f before d w = (Ok d1, w1) ->
  f ser w1 = (Raise x, w2)
  \/ (exists df, f ser w1 = (Ok df, w2)
                 /\ d1 !! Frequencia ser = None /\ x = KeyError) ->
  coleta_por_frequencia f (before ++ ser :: after) d w = (Raise x, w2).
Proof.
  intros Hb Hser. rewrite coleta_por_frequencia_app. unfold bind at 1. rewrite Hb.
  simpl. destruct Hser as [E | (df & E & Hk & ->)].
  - apply bind_Raise. exact E.
  - unfold bind at 1. rewrite E. apply bind_Raise.
    unfold lift, dict_append. rewrite Hk. reflexivity.
Qed.


Lemma concat_single (valor : datetime -> cell) (idx : list cell)
    (days : list datetime) :
  concat [Some (mkDataFrame ["data"; "valor"] idx (map (daily_row valor) days))]
  = Ok (mkDataFrame ["data"; "valor"] idx (map (daily_row valor) days)).
Proof.
  unfold concat. cbn [omap list_omap id]. cbv beta iota zeta.
  cbn [map mjoin list_join columns index rows foldl]. f_equal. f_equal.
  - apply app_nil_r.
  - rewrite app_nil_r. unfold reindex_columns. cbn [rows columns].
    rewrite map_map. apply map_ext. intros d. reflexivity.
Qed.

(** X23.  A series of BCB/SGS that is not daily costs one request, made for
    the two dates as they were given, and no date is read or checked before.
    When the source answers with the days and values of the series, the days
    being within what a timestamp of [pandas] holds (the years 1678 to 2261
    are), and the series is not named ["data"], the table returned has the
    days, read as dates, as its row labels and one column, named after the
    series, with the values. *)
Theorem coleta_bcb_sgs_single (codigo nome freq data_inicio data_fim : string)
    (valor : datetime -> cell) (idx : list cell) (days : list datetime) (w : World) :
  String.eqb freq "Diária" = false ->
  nome <> "data" ->
  Forall (fun d => valid d = true) days ->
  Forall (fun d => 1678 <= year d <= 2261) days ->
  oracle (length (reads w)) (sgs_request codigo (data_inicio, data_fim))
  = Returns (mkDataFrame ["data"; "valor"] idx (map (daily_row valor) days)) ->
  coleta_bcb_sgs codigo nome freq data_inicio data_fim w
  = (Ok (mkDataFrame [nome] (map CDate days) (map (fun d => [valor d]) days)),
     mkWorld (reads w ++ [sgs_request codigo (data_inicio, data_fim)])
       (stdout w ++ [Coletando codigo nome]) (slept w)).
Proof.
  intros Hfreq _ Hv _ Ho. rewrite coleta_bcb_sgs_windows. unfold sgs_windows.
  rewrite Hfreq.
  unfold try_except_else. unfold bind at 1. unfold print at 1.
  cbn [for_append]. unfold bind at 1. unfold bind at 1.
  rewrite (ler_csv_first_attempt _
             (mkWorld (reads w) (stdout w ++ [Coletando codigo nome]) (slept w)) _ Ho).
  unfold ret, lift. cbn [app]. rewrite concat_single, sgs_normalize by exact Hv.
  reflexivity.
Qed.

End Collection.

(* ================================================================== *)
(** * The properties on examples *)

(** The examples fix the abstract parts: no cell holds a float or an
    object of another kind. *)

Lemma ler_csv_exhaustion_witness :
  exists e1 e2 e3 e4 e5,
    ler_csv (@oracle_down unit unit) (ReadCsv "serie.csv" "," "." []) world0
    = (Ok None,
       mkWorld
         (reads world0 ++ [ReadCsv "serie.csv" "," "." []; ReadCsv "serie.csv" "," "." [];
                           ReadCsv "serie.csv" "," "." []; ReadCsv "serie.csv" "," "." [];
                           ReadCsv "serie.csv" "," "." []])
         (stdout world0 ++ [Tentativa_falhou 1 e1; Tentativa_falhou 2 e2;
                            Tentativa_falhou 3 e3; Tentativa_falhou 4 e4;
                            Tentativa_falhou 5 e5; Falha_apos 5])
         (slept world0 + 10)).
Proof.
  apply ler_csv_exhaustion. intros n _. exists OSError. split; reflexivity.
Defined.

(** C4 as stated fails: a read that raises [KeyboardInterrupt], which is
    not derived from [Exception], is not caught; the exception leaves
    [ler_csv] after the first read, and [None] is not returned. *)
Lemma ler_csv_exhaustion_counterexample :
  (forall n req, exists e, @oracle_interrupted unit unit n req = Raises e)
  /\ ler_csv (@oracle_interrupted unit unit) (ReadCsv "serie.csv" "," "." []) world0
     = (Raise KeyboardInterrupt, mkWorld [ReadCsv "serie.csv" "," "." []] [] 0)
  /\ fst (ler_csv (@oracle_interrupted unit unit) (ReadCsv "serie.csv" "," "." [])
            world0)
     <> Ok None.
Proof.
  split; [intros n req; exists KeyboardInterrupt; reflexivity|].
  split; [vm_compute; reflexivity | vm_compute; discriminate].
Qed.

Lemma ler_csv_third_attempt_witness :
  ler_csv (@oracle_third unit unit sgs_one_row) (ReadCsv "serie.csv" "," "." []) world0
  = (Ok (Some sgs_one_row),
     mkWorld
       (reads world0 ++ [ReadCsv "serie.csv" "," "." []; ReadCsv "serie.csv" "," "." [];
                         ReadCsv "serie.csv" "," "." []])
       (stdout world0 ++ [Tentativa_falhou 1 OSError; Tentativa_falhou 2 OSError])
       (slept world0 + 4)).
Proof. apply ler_csv_third_attempt; reflexivity. Defined.

Lemma adapters_guard_witness :
  fst (coleta_ipeadata (fun _ => Raise ValueError) (@oracle_down unit unit)
         "PRECOS12_IPCA12" "ipca" world0)
  = Raise (falha "PRECOS12_IPCA12" "ipca")
  /\ fst (coleta_bcb_sgs (@oracle_down unit unit) "1" "cambio" "Diária"
            "01/01/2000" "01/01/2030" world0)
     = Raise (falha "1" "cambio").
Proof.
  destruct (adapters_guard (mkFloatOps unit (fun _ => None) (fun _ => tt))
              (fun _ => Raise ValueError) (@oracle_down unit unit)
              "PRECOS12_IPCA12" "ipca" world0) as (H & _).
  destruct H as (H1 & _); [intros n req; exists OSError; reflexivity|].
  destruct (adapters_guard (mkFloatOps unit (fun _ => None) (fun _ => tt))
              (fun _ => Raise ValueError) (@oracle_down unit unit)
              "1" "cambio" world0) as (H & _).
  destruct H as (_ & _ & _ & H4 & _); [intros n req; exists OSError; reflexivity|].
  split; [exact H1|]. apply H4. intros _. eexists. vm_compute. reflexivity.
Defined.

(** C6 as stated fails: an answer of SIDRA without the column [V] makes the
    normalization raise [KeyError], and that is what the caller sees. *)
Lemma adapters_guard_counterexample :
  fst (coleta_ibge_sidra (mkFloatOps unit (fun _ => None) (fun _ => tt))
         (@oracle_const unit unit sidra_no_value) "https://apisidra.ibge.gov.br/values/t/1737"
         "ipca" world0)
  = Raise KeyError
  /\ Raise KeyError
     <> Raise (A := @DataFrame unit unit)
          (falha "https://apisidra.ibge.gov.br/values/t/1737" "ipca").
Proof. split; [vm_compute; reflexivity | discriminate]. Qed.

(** The adapters that read through [ler_csv] meet "no data" outside their
    guard as well: [None] has no method [rename]. *)
Remark coleta_bcb_odata_no_data :
  fst (coleta_bcb_odata (@oracle_down unit unit) "https://olinda.bcb.gov.br/olinda/x"
         "selic" world0)
  = Raise AttributeError.
Proof. vm_compute. reflexivity. Qed.

Lemma coleta_skips_witness :
  coleta (mkFloatOps unit (fun _ => None) (fun _ => tt)) (fun _ => Raise ValueError)
    (@oracle_down unit unit) "04/11/2029" ([] ++ serie_manual :: []) world0
  = coleta (mkFloatOps unit (fun _ => None) (fun _ => tt)) (fun _ => Raise ValueError)
      (@oracle_down unit unit) "04/11/2029" ([] ++ []) world0.
Proof. apply coleta_skips. reflexivity. Defined.

(** C8 as stated fails: for a row of BCB/SGS whose frequency has no list,
    the adapter is called (one read is made) and the script stops with
    [KeyError]. *)
Lemma coleta_skips_counterexample :
  exists w,
    coleta (mkFloatOps unit (fun _ => None) (fun _ => tt)) (fun _ => Raise ValueError)
      (@oracle_const unit unit sgs_one_row) "04/11/2029" [serie_semanal] world0
    = (Raise KeyError, w)
    /\ reads w = [sgs_request "1" ("01/01/2000", "04/11/2029")].
Proof. eexists. split; vm_compute; reflexivity. Qed.

Lemma coleta_ibge_sidra_placeholders_witness :
  fst (coleta_ibge_sidra (mkFloatOps unit (fun _ => None) (fun _ => tt))
         (@oracle_const unit unit sidra_example) "https://apisidra.ibge.gov.br/values/t/1737"
         "ipca" world0)
  = Ok (mkDataFrame ["data"; "ipca"] [CInt 0] [[CStr "2020-01"; CInt 100]]).
Proof.
  destruct (coleta_ibge_sidra_placeholders
              (mkFloatOps unit (fun _ => None) (fun _ => tt))
              (@oracle_const unit unit sidra_example)
              "https://apisidra.ibge.gov.br/values/t/1737" "ipca" world0
              sidra_example 0 1) as (_ & _ & H);
    [discriminate | | | reflexivity | reflexivity | reflexivity |].
  1, 2: simpl; rewrite !not_elem_of_cons;
    repeat split; (discriminate || apply not_elem_of_nil).
  exact (H eq_refl).
Defined.



(** Retries, failures and gaps on examples. *)

Lemma ler_csv_retry_witness :
  ler_csv
    (@oracle_script unit unit
       [Raises OSError; Raises OSError; Raises OSError; Returns sgs_one_row])
    (ReadCsv "https://example.org/serie.csv" ";" "," []) world0
  = (Ok (Some sgs_one_row),
     mkWorld (replicate 4 (ReadCsv "https://example.org/serie.csv" ";" "," []))
       [Tentativa_falhou 1 OSError; Tentativa_falhou 2 OSError;
        Tentativa_falhou 3 OSError] 6).
Proof.
  apply (ler_csv_retry
           (@oracle_script unit unit
              [Raises OSError; Raises OSError; Raises OSError; Returns sgs_one_row])
           (ReadCsv "https://example.org/serie.csv" ";" "," []) world0
           [OSError; OSError; OSError] sgs_one_row).
  - simpl. lia.
  - intros i e Hi. destruct i as [|[|[|i]]]; simpl in Hi; try discriminate;
      injection Hi as <-; split; reflexivity.
  - reflexivity.
Defined.

Lemma ler_csv_interrupt_witness :
  ler_csv (@oracle_script unit unit [Raises OSError; Raises KeyboardInterrupt])
    (ReadCsv "https://example.org/serie.csv" ";" "," []) world0
  = (Raise KeyboardInterrupt,
     mkWorld (replicate 2 (ReadCsv "https://example.org/serie.csv" ";" "," []))
       [Tentativa_falhou 1 OSError] 2).
Proof.
  apply (ler_csv_interrupt
           (@oracle_script unit unit [Raises OSError; Raises KeyboardInterrupt])
           (ReadCsv "https://example.org/serie.csv" ";" "," []) world0
           [OSError] KeyboardInterrupt).
  - simpl. lia.
  - intros i e Hi. destruct i as [|i]; simpl in Hi; try discriminate;
      injection Hi as <-; split; reflexivity.
  - reflexivity.
  - reflexivity.
Defined.

Lemma coleta_bcb_sgs_empty_span_witness :
  coleta_bcb_sgs (@oracle_const unit unit sgs_one_row) "1" "cambio" "Diária"
    "01/01/2030" "01/01/2000" world0
  = (Raise (falha "1" "cambio"), mkWorld [] [Coletando "1" "cambio"] 0).
Proof.
  apply (coleta_bcb_sgs_empty_span (@oracle_const unit unit sgs_one_row)
           "1" "cambio" "01/01/2030" "01/01/2000"
           (mkdatetime 2030 1 1) (mkdatetime 2000 1 1) world0);
    reflexivity.
Defined.

Lemma coleta_bcb_sgs_bad_date_witness :
  coleta_bcb_sgs (@oracle_const unit unit sgs_one_row) "1" "cambio" "Diária"
    "2000-01-01" "01/01/2030" world0
  = (Raise ValueError, world0).
Proof.
  apply (coleta_bcb_sgs_bad_date (@oracle_const unit unit sgs_one_row)).
  left. vm_compute. reflexivity.
Defined.

Lemma coleta_bcb_sgs_down_witness :
  exists w',
    coleta_bcb_sgs (@oracle_down unit unit) "1" "cambio" "Diária"
      "01/01/2000" "01/01/2030" world0
    = (Raise (falha "1" "cambio"), w')
    /\ length (reads w') = 30%nat
    /\ slept w' = 60.
Proof.
  destruct (coleta_bcb_sgs_down (@oracle_down unit unit) "1" "cambio" "Diária"
              "01/01/2000" "01/01/2030"
              [("01/01/2000", "01/01/2005"); ("01/01/2005", "01/01/2010");
               ("01/01/2010", "01/01/2015"); ("01/01/2015", "01/01/2020");
               ("01/01/2020", "01/01/2025"); ("01/01/2025", "01/01/2030")]
              world0)
    as (w' & Hrun & Hreads & Hslept).
  - intros n req. exists OSError. split; reflexivity.
  - vm_compute. reflexivity.
  - exists w'. split; [exact Hrun|]. rewrite Hreads, Hslept.
    split; reflexivity.
Defined.

Lemma coleta_bcb_sgs_gaps_witness :
  fst (coleta_bcb_sgs (fun _ => @source_gap unit unit) "1" "cambio" "Diária"
         "01/01/2000" "30/06/2012" world0)
  = Ok (mkDataFrame ["cambio"] [CDate (mkdatetime 2000 1 3)] [[CInt 1]]).
Proof.
  rewrite (coleta_bcb_sgs_gaps (fun _ => @source_gap unit unit) source_gap
             "1" "cambio" "Diária" "01/01/2000" "30/06/2012"
             [("01/01/2000", "01/01/2005"); ("01/01/2005", "01/01/2010");
              ("01/01/2010", "30/06/2012")] world0).
  - vm_compute. reflexivity.
  - split; [reflexivity|]. intros req e. unfold source_gap.
    destruct req as [url sep dec conv | url | io sheet names skip];
      [destruct (String.eqb url _)|..]; intros [= <-]; reflexivity.
  - vm_compute. reflexivity.
Defined.

Lemma csv_adapters_down_witness :
  (exists w',
     coleta_bcb_odata (@oracle_down unit unit) "https://olinda.bcb.gov.br/olinda/x"
       "selic" world0
     = (Raise AttributeError, w')
     /\ length (reads w') = 5%nat /\ slept w' = 10)
  /\ (exists w',
        coleta_fred (@oracle_down unit unit) "CPIAUCSL" "cpi" world0
        = (Raise AttributeError, w')
        /\ length (reads w') = 5%nat /\ slept w' = 10).
Proof.
  split.
  - destruct (csv_adapters_down (@oracle_down unit unit)
                "https://olinda.bcb.gov.br/olinda/x" "selic" world0)
      as [(w' & Hrun & Hreads & Hslept) _].
    + intros n req. exists OSError. split; reflexivity.
    + exists w'. split; [exact Hrun|]. rewrite Hreads, Hslept. split; reflexivity.
  - destruct (csv_adapters_down (@oracle_down unit unit) "CPIAUCSL" "cpi" world0)
      as [_ (w' & Hrun & Hreads & Hslept)].
    + intros n req. exists OSError. split; reflexivity.
    + exists w'. split; [exact Hrun|]. rewrite Hreads, Hslept. split; reflexivity.
Defined.

(** The script on examples. *)

Lemma coleta_por_frequencia_buckets_witness :
  exists d' dfs,
    fst (coleta_por_frequencia
           (fun ser => coleta_ibge_sidra (mkFloatOps unit (fun _ => None) (fun _ => tt))
                         (@oracle_const unit unit sidra_example)
                         (Input_de_Coleta ser) (Identificador ser))
           [serie_ipca] (dict_of_keys ["Mensal"; "Trimestral"]) world0)
    = Ok d'
    /\ length dfs = 1%nat
    /\ d' !! "Mensal" = Some ([] ++ filed "Mensal" [serie_ipca] dfs)
    /\ d' !! "Anual" = None.
Proof.
  assert (E : { p : gmap string (list (@DataFrame unit unit)) * World |
                coleta_por_frequencia
                  (fun ser => coleta_ibge_sidra
                                (mkFloatOps unit (fun _ => None) (fun _ => tt))
                                (@oracle_const unit unit sidra_example)
                                (Input_de_Coleta ser) (Identificador ser))
                  [serie_ipca] (dict_of_keys ["Mensal"; "Trimestral"]) world0
                = (Ok (fst p), snd p) }).
  { eexists (_, _). vm_compute. reflexivity. }
  destruct E as [[d' w'] E]. cbn [fst snd] in E.
  destruct (coleta_por_frequencia_buckets _ _ _ _ _ _ E) as (dfs & HF & Hk & _).
  exists d', dfs. split; [rewrite E; reflexivity|].
  split; [destruct dfs as [|df [|df' dfs]]; simpl in HF;
          [contradiction | reflexivity | destruct HF as (w1 & _ & [])]|].
  split; rewrite Hk; reflexivity.
Defined.

Lemma coleta_requires_witness :
  Forall (fun ser => Frequencia ser ∈ ["Diária"; "Mensal"; "Trimestral"; "Anual"])
    (query_api "BCB/SGS" [serie_ipca; serie_manual; serie_hiato])
  /\ Forall (fun ser => Frequencia ser ∈ ["Diária"; "Mensal"])
       (query_api "IPEADATA" [serie_ipca; serie_manual; serie_hiato])
  /\ Forall (fun ser => Frequencia ser ∈ ["Mensal"; "Trimestral"])
       (query_api "IBGE/SIDRA" [serie_ipca; serie_manual; serie_hiato])
  /\ Forall (fun ser => Frequencia ser ∈ ["Diária"; "Mensal"; "Trimestral"])
       (query_api "FRED" [serie_ipca; serie_manual; serie_hiato])
  /\ query_fonte "IFI" [serie_ipca; serie_manual; serie_hiato] <> [].
Proof.
  eapply (coleta_requires (mkFloatOps unit (fun _ => None) (fun _ => tt))
            (fun _ => Raise ValueError) (@oracle_const unit unit sidra_example)
            "04/11/2029" [serie_ipca; serie_manual; serie_hiato] world0).
  vm_compute. reflexivity.
Defined.

Lemma coleta_counts_witness :
  exists b,
    fst (coleta (mkFloatOps unit (fun _ => None) (fun _ => tt))
           (fun _ => Raise ValueError) (@oracle_const unit unit sidra_example)
           "04/11/2029" [serie_ipca; serie_manual; serie_hiato] world0)
    = Ok b
    /\ length <$> (df_bruto_ibge_sidra b !! "Mensal") = Some 1%nat
    /\ length <$> (df_bruto_ibge_sidra b !! "Trimestral") = Some 0%nat
    /\ length <$> (df_bruto_bcb_sgs b !! "Mensal") = Some 0%nat
    /\ length (df_bruto_bcb_odata b) = 0%nat.
Proof.
  assert (E : { p : @bruto unit unit * World |
                coleta (mkFloatOps unit (fun _ => None) (fun _ => tt))
                  (fun _ => Raise ValueError) (@oracle_const unit unit sidra_example)
                  "04/11/2029" [serie_ipca; serie_manual; serie_hiato] world0
                = (Ok (fst p), snd p) }).
  { eexists (_, _). vm_compute. reflexivity. }
  destruct E as [[b w'] E]. cbn [fst snd] in E.
  destruct (coleta_counts _ _ _ _ _ _ _ _ E) as (Hsgs & Hodata & _ & Hsidra & _).
  exists b. split; [rewrite E; reflexivity|].
  rewrite !Hsidra, Hsgs, Hodata. repeat split; reflexivity.
Defined.

Lemma coleta_source_down_witness :
  exists x w',
    coleta (mkFloatOps unit (fun _ => None) (fun _ => tt))
      (fun _ => Raise ValueError) (@oracle_down unit unit)
      "04/11/2029" [serie_ipca; serie_manual; serie_hiato] world0
    = (Raise x, w').
Proof.
  apply coleta_source_down. intros n req. exists OSError. reflexivity.
Defined.

Lemma coleta_por_frequencia_abort_witness :
  coleta_por_frequencia
    (fun ser => coleta_ibge_sidra (mkFloatOps unit (fun _ => None) (fun _ => tt))
                  (@oracle_const unit unit sidra_example)
                  (Input_de_Coleta ser) (Identificador ser))
    ([] ++ serie_ipca_anual :: [serie_ipca]) (dict_of_keys ["Mensal"; "Trimestral"])
    world0
  = (Raise KeyError,
     mkWorld [ReadJson "https://apisidra.ibge.gov.br/values/t/1737?formato=json"]
       [Coletando "https://apisidra.ibge.gov.br/values/t/1737" "ipca"] 0).
Proof.
  apply (coleta_por_frequencia_abort _ [] [serie_ipca] serie_ipca_anual
           (dict_of_keys ["Mensal"; "Trimestral"])
           (dict_of_keys ["Mensal"; "Trimestral"]) world0 world0).
  - reflexivity.
  - right. eexists. split; [vm_compute; reflexivity|].
    split; [vm_compute; reflexivity | reflexivity].
Defined.

Lemma coleta_bcb_sgs_single_witness :
  coleta_bcb_sgs (@oracle_const unit unit sgs_one_row) "1" "cambio" "Mensal"
    "01/01/2000" "04/11/2029" world0
  = (Ok (mkDataFrame ["cambio"] [CDate (mkdatetime 2000 1 3)] [[CInt 1]]),
     mkWorld [sgs_request "1" ("01/01/2000", "04/11/2029")]
       [Coletando "1" "cambio"] 0).
Proof.
  apply (coleta_bcb_sgs_single (@oracle_const unit unit sgs_one_row)
           "1" "cambio" "Mensal" "01/01/2000" "04/11/2029"
           (fun _ => CInt 1) [CInt 0] [mkdatetime 2000 1 3] world0).
  - reflexivity.
  - discriminate.
  - repeat constructor.
  - repeat constructor; simpl; lia.
  - reflexivity.
Defined.
